(** * Facial attendance system: the attendance store and the capture throttle

    A shallow embedding of
      - frontend/src/utils/attendanceUtils.js   ([manageFaceRecognitionList])
      - frontend/src/components/CameraInterface.js ([captureAndRecognize],
        [handleRecognitionError])
    and the properties of the recognition-throttling and
    attendance-reconciliation engine proved about them. *)

From Stdlib Require Import ZArith QArith Qcanon Lia Sorting.Sorted Permutation.
From stdpp Require Import base numbers option list gmap strings fin_maps pretty.

Local Open Scope Z_scope.
#[local] Set Default Proof Using "Type".

(** ** JavaScript values

    The primitive values that survive a [JSON.stringify]/[JSON.parse] round
    trip unchanged: [undefined] (an absent property), [null], strings and
    finite numbers.  Numbers are canonical rationals, so the strict equality
    [===] of two such values is Leibniz equality. *)

Inductive JsVal : Type :=
  | JUndefined
  | JNull
  | JStr (s : string)
  | JNum (q : Qc).

#[global] Instance JsVal_eq_dec : EqDecision JsVal.
Proof. solve_decision. Defined.

(** [ToBoolean]: [undefined], [null], [""] and [0] are falsy. *)
Definition truthy (v : JsVal) : bool :=
  match v with
  | JUndefined | JNull => false
  | JStr s => negb (String.eqb s "")
  | JNum q => negb (bool_decide (q = 0%Qc))
  end.

(** [a || b] *)
Definition js_or (a b : JsVal) : JsVal := if truthy a then a else b.

(** [a === b] *)
Definition strict_eq (a b : JsVal) : bool := bool_decide (a = b).

(** [!s] for the result of [localStorage.getItem]: [null] and [""] are falsy. *)
Definition truthy_item (o : option string) : bool :=
  match o with
  | Some s => negb (String.eqb s "")
  | None => false
  end.

(** ** Data model *)

(** A recognised face: the argument of [addFace] and, with [timestamp],
    [confidence] and [status] overwritten, the entry it stores. *)
Record Face : Type := mkFace {
  name : JsVal;
  roll_number : JsVal;
  timestamp : string;
  confidence : JsVal;
  status : JsVal
}.

#[global] Instance Face_eq_dec : EqDecision Face.
Proof. solve_decision. Defined.

(** The object kept under the [user] key; only its [email] is read. *)
Record User : Type := mkUser { email : option string }.

(** [localStorage], typed by what the application keeps in it.  The items
    [attendanceData_<email>] are indexed by the email; each holds a map from
    date keys to entries.  A calendar date key ["YYYY-MM-DD"] is represented
    by its day number, the days since 1970-01-01 in UTC: that is what
    [toISOString().split('T')[0]] denotes, and [new Date(key)] is that day's
    midnight in UTC. *)
Record Storage : Type := mkStorage {
  ls_user : option User;
  ls_user_email : option string;
  ls_token : option string;
  ls_attendance : gmap string (gmap Z (list Face))
}.

Definition set_user_email (e : string) (st : Storage) : Storage :=
  mkStorage (ls_user st) (Some e) (ls_token st) (ls_attendance st).

(** [localStorage.setItem(`attendanceData_${e}`, JSON.stringify(d))] *)
Definition set_attendance (e : string) (d : gmap Z (list Face)) (st : Storage)
  : Storage :=
  mkStorage (ls_user st) (ls_user_email st) (ls_token st)
            (<[e := d]> (ls_attendance st)).

(** [JSON.parse(localStorage.getItem(`attendanceData_${e}`) || '{}')] *)
Definition get_attendance (e : string) (st : Storage) : gmap Z (list Face) :=
  default ∅ (ls_attendance st !! e).

(** ** Dates *)

Definition ms_per_day : Z := 1000 * 3600 * 24.

(** [new Date(now).toISOString().split('T')[0]] *)
Definition isoDate (now : Z) : Z := now `div` ms_per_day.

(** [new Date(key)] for a date key, in milliseconds since the epoch. *)
Definition Date_of_key (d : Z) : Z := d * ms_per_day.

(** ** The network *)

(** What the transport delivers for one request. *)
Inductive RawOutcome (D : Type) : Type :=
  | NetFailure                       (* no response: unreachable or timed out *)
  | HttpResponse (code : Z) (data : D).
Arguments NetFailure {D}.
Arguments HttpResponse {D} code data.

(** What [await axios.post(...)] gives: it resolves for a 2xx status (the
    default [validateStatus], which axiosConfig.js keeps) and throws
    otherwise, with [error.response] set when a response was received. *)
Inductive AxiosResult (D : Type) : Type :=
  | AxResolved (code : Z) (data : D)
  | AxRejectedResponse (code : Z) (data : D)
  | AxRejectedNoResponse.
Arguments AxResolved {D} code data.
Arguments AxRejectedResponse {D} code data.
Arguments AxRejectedNoResponse {D}.

Definition is_2xx (code : Z) : bool := (200 <=? code) && (code <? 300).

Definition axios_post {D : Type} (r : RawOutcome D) : AxiosResult D :=
  match r with
  | NetFailure => AxRejectedNoResponse
  | HttpResponse code data =>
      if is_2xx code then AxResolved code data
      else AxRejectedResponse code data
  end.

(** The requests the two modules send. *)
Inductive NetCall : Type :=
  | PostRecognize (token : string)
  | PostDeleteAttendance (token : string) (roll : JsVal).

(** ** Array helpers *)

(** [l.slice(-k)] *)
Definition slice_last {A : Type} (k : nat) (l : list A) : list A :=
  drop (length l - k) l.

(** [Array.prototype.sort(comparefn)]: a stable sort; a comparator result of
    [NaN] ([None]) counts as [+0].  [a] stays before [b] unless
    [comparefn(a, b) > 0].  With a consistent comparator the result of a
    stable sort is determined; with an inconsistent one the language leaves
    the order to the implementation, and this insertion sort is one. *)
Definition SortCompare {A : Type} (comparefn : A → A → option Z) (a b : A) : Z :=
  default 0 (comparefn a b).

Fixpoint sort_insert {A : Type} (comparefn : A → A → option Z) (x : A)
    (l : list A) : list A :=
  match l with
  | [] => [x]
  | y :: l' =>
      if 0 <? SortCompare comparefn x y
      then y :: sort_insert comparefn x l'
      else x :: y :: l'
  end.

Definition Array_sort {A : Type} (comparefn : A → A → option Z) (l : list A)
  : list A :=
  foldr (sort_insert comparefn) [] l.

(** ** Types of attendanceUtils.js and CameraInterface.js *)

(** The body of the delete response: [None] when [response.data] is
    [null] or [undefined] (reading [.status] throws), otherwise its
    [status] property. *)
Definition DeleteData : Type := option JsVal.

Record CleanupResult : Type := mkCleanupResult {
  cl_return : JsVal;          (* the value of the call *)
  cl_logged : option Z;       (* [removedDates] as written to the console *)
  cl_storage : Storage
}.

Inductive Toast : Type :=
  | ToastDismiss                      (* [toast.dismiss()] *)
  | ToastWarn (message : JsVal)
  | ToastError (message : JsVal)
  | ToastSuccessRecognized (who : JsVal). (* [`Recognized: ${who}`] *)

Inductive ToastType : Type := warning | error.

(** One element of the array the recognizer answers with. *)
Record RecognitionData : Type := mkRecognitionData {
  rd_name : JsVal;
  rd_roll_number : JsVal;
  rd_confidence : JsVal;
  rd_status : JsVal
}.

(** [response.data]: an array, or anything else, of which only the
    [status] and [error] properties are read ([undefined] when the body is
    [null] or has none). *)
Inductive RecognizeBody : Type :=
  | BodyArray (items : list RecognitionData)
  | BodyOther (body_status body_error : JsVal).

(** The component: its two refs, its React state, and the parts of the
    world it acts on. *)
Record Camera : Type := mkCamera {
  lastRecognitionRef : Z;
  isRecognizingRef : bool;
  isRecognizing : bool;
  todaysFaces : list Face;
  cam_storage : Storage;
  cam_toasts : list Toast;
  cam_network : list NetCall
}.

Definition set_recognizing (b : bool) (c : Camera) : Camera :=
  mkCamera (lastRecognitionRef c) b b (todaysFaces c) (cam_storage c)
           (cam_toasts c) (cam_network c).

Definition show_toasts (ts : list Toast) (c : Camera) : Camera :=
  mkCamera (lastRecognitionRef c) (isRecognizingRef c) (isRecognizing c)
           (todaysFaces c) (cam_storage c) (cam_toasts c ++ ts)
           (cam_network c).

Definition send (r : NetCall) (c : Camera) : Camera :=
  mkCamera (lastRecognitionRef c) (isRecognizingRef c) (isRecognizing c)
           (todaysFaces c) (cam_storage c) (cam_toasts c)
           (cam_network c ++ [r]).

Definition set_storage (st : Storage) (c : Camera) : Camera :=
  mkCamera (lastRecognitionRef c) (isRecognizingRef c) (isRecognizing c)
           (todaysFaces c) st (cam_toasts c) (cam_network c).

(** What one run of [captureAndRecognize] meets. *)
Record CaptureEnv : Type := mkCaptureEnv {
  env_now : Z;                          (* [Date.now()] on entry *)
  env_webcam : option (option string);  (* [webcamRef.current], and its
                                           [getScreenshot()] *)
  env_blob : bool;                      (* [fetch(imageSrc)].blob() did
                                           not throw *)
  env_remote : RawOutcome RecognizeBody;
  env_clock : Z                         (* the clock when the response is
                                           handled *)
}.

(** The operations of the store. *)
Inductive StoreOp : Type :=
  | OpAdd (now : Z) (recognizedFace : option Face)
  | OpList (now : Z)
  | OpDelete (now : Z) (remote : RawOutcome DeleteData) (rollNumber : JsVal)
  | OpCleanup (now daysToKeep : Z).

(** ** Types of the delete handler of CameraInterface.js *)

(** The toasts of [handleDeleteAttendance]: "Attendance deleted
    successfully" and "Failed to delete attendance. Check console for
    details." *)
Inductive DeleteToast : Type :=
  | ToastDeleted
  | ToastDeleteFailed.

(** The component after [handleDeleteAttendance], the toast shown and the
    [deletingRollNumber] state. *)
Record DeleteHandled : Type := mkDeleteHandled {
  dh_camera : Camera;
  dh_toast : DeleteToast;
  dh_deletingRollNumber : JsVal
}.


(** ** Types of App.js and index.js *)

(** The [userData] object that AuthPage hands to [handleLogin]; [None] is a
    property that is [undefined]. *)
Record UserData : Type := mkUserData {
  ud_name : option string;
  ud_email : option string
}.

Inductive AppToast : Type :=
  | ToastWelcome (who : string)   (* [`Welcome, ${who}!`] *)
  | ToastLoggedOut.               (* 'You have been logged out.' *)

(** The state of [App], the storage, and the [Authorization] header among
    [axios.defaults.headers.common]. *)
Record App : Type := mkApp {
  app_storage : Storage;
  app_authorization : option string;
  isAuthenticated : bool;
  app_user : option UserData;
  currentPage : string;
  recognizedFaces : list Face;
  app_toasts : list AppToast
}.

(** The [error] a response interceptor receives: [error.config] with its
    [__alreadyHandled] flag, [None] when there is no config; and
    [error.response] with its status and [data.error], the latter [None]
    when [data] is [null] or [undefined]. *)
Record AxiosError : Type := mkAxiosError {
  err_config : option bool;
  err_response : option (Z * option JsVal)
}.

(** How the promise returned by the interceptor settles. *)
Inductive Settled : Type :=
  | RejectSame                                  (* [Promise.reject(error)] *)
  | RejectWith (message : JsVal) (type : string)
  | ResolveUndefined                            (* falls off the [switch] *)
  | ThrowTypeError.                             (* a property of
                                                   [undefined] is read *)

Record Intercepted : Type := mkIntercepted {
  ic_app : App;
  ic_toasts : list Toast;
  ic_href : option string;       (* [window.location.href], when assigned *)
  ic_settled : Settled
}.


(** ** Types of RegisterFace.js and AuthPage.js *)

(** The state of [RegisterFace]. *)
Record RegisterFace : Type := mkRegisterFace {
  rf_name : string;
  rf_rollNumber : string;
  capturedImage : option string;
  isSubmitting : bool
}.

Inductive RegisterToast : Type :=
  | RegisterToastError (message : JsVal)
  | RegisterToastSuccess.          (* 'Registration Successful' *)

(** The fields sent to [/register]. *)
Record RegisterRequest : Type := mkRegisterRequest {
  rq_token : string;
  rq_name : string;
  rq_roll_number : string
}.

(** What the host supplies to a submit: the messages of the errors it
    raises itself, and whether [fetch(capturedImage)] gives a blob. *)
Record SubmitHost : Type := mkSubmitHost {
  host_TypeError : string;     (* message of a [TypeError] on reading a
                                  property of [undefined] or [null] *)
  host_AxiosError : string;    (* message of an error axios rejects with *)
  host_fetch : option string   (* [None]: the blob; [Some m]: [fetch]
                                  throws with message [m] *)
}.

(** An error as a [catch] block of these components reads it:
    [error.message], and [error.response] with its status and the [data]
    it carries, [None] for no response. *)
Record Caught (D : Type) : Type := mkCaught {
  caught_message : JsVal;
  caught_response : option (Z * D)
}.
Arguments mkCaught {D} caught_message caught_response.
Arguments caught_message {D} c.
Arguments caught_response {D} c.

(** A request made with the global [axios], after the interceptor of
    index.js: the answer it resolves with ([None] for the [undefined] the
    interceptor resolves with), or the error it rejects with. *)
Inductive GlobalAxios (D : Type) : Type :=
  | GlobalResolved (response : option (Z * D))
  | GlobalRejected (error : Caught D).
Arguments GlobalResolved {D} response.
Arguments GlobalRejected {D} error.

(** What a request on the global [axios] leaves: how it settles, and what
    the interceptor did on the way. *)
Record GlobalResult (D : Type) : Type := mkGlobalResult {
  gr_outcome : GlobalAxios D;
  gr_app : App;
  gr_toasts : list Toast;
  gr_href : option string
}.
Arguments mkGlobalResult {D} gr_outcome gr_app gr_toasts gr_href.
Arguments gr_outcome {D} g.
Arguments gr_app {D} g.
Arguments gr_toasts {D} g.
Arguments gr_href {D} g.

(** ** Strings as the forms read them

    A string is its sequence of code units, each below 256. *)

(** White space of [trim] and of [\s]: TAB, LF, VT, FF, CR, space and the
    no-break space. *)
Definition is_space (c : Ascii.ascii) : bool :=
  let n := Ascii.nat_of_ascii c in
  ((9 <=? n) && (n <=? 13) || (n =? 32) || (n =? 160))%nat.

(** [[a-zA-Z]] *)
Definition is_letter (c : Ascii.ascii) : bool :=
  let n := Ascii.nat_of_ascii c in
  ((65 <=? n) && (n <=? 90) || (97 <=? n) && (n <=? 122))%nat.

(** [\d] *)
Definition is_digit (c : Ascii.ascii) : bool :=
  let n := Ascii.nat_of_ascii c in ((48 <=? n) && (n <=? 57))%nat.

Fixpoint string_forallb (P : Ascii.ascii → bool) (s : string) : bool :=
  match s with
  | EmptyString => true
  | String c s' => P c && string_forallb P s'
  end.

Fixpoint trimStart (s : string) : string :=
  match s with
  | EmptyString => EmptyString
  | String c s' => if is_space c then trimStart s' else s
  end.

Fixpoint trimEnd (s : string) : string :=
  match s with
  | EmptyString => EmptyString
  | String c s' =>
      match trimEnd s' with
      | EmptyString => if is_space c then EmptyString
                       else String c EmptyString
      | t => String c t
      end
  end.

(** [s.trim()] *)
Definition trim (s : string) : string := trimEnd (trimStart s).

(** [/^[a-zA-Z\s]+$/.test(s)] *)
Definition only_letters_and_spaces (s : string) : bool :=
  negb (String.eqb s "") && string_forallb (λ c, is_letter c || is_space c) s.

(** [/^\d+$/.test(s)] *)
Definition only_digits (s : string) : bool :=
  negb (String.eqb s "") && string_forallb is_digit s.

Record RegisterSubmitted : Type := mkRegisterSubmitted {
  rs_page : RegisterFace;
  rs_app : App;
  rs_toasts : list RegisterToast;
  rs_interceptor_toasts : list Toast;
  rs_href : option string;
  rs_sent : list RegisterRequest;
  rs_thrown : bool               (* the [catch] block itself threw *)
}.

(** The body of an answer of [/api/auth/login] or [/api/auth/register]: the
    properties AuthPage reads, each a string or [undefined]. *)
Record AuthBody : Type := mkAuthBody {
  ab_user_name : option string;
  ab_user_email : option string;
  ab_access_token : option string;
  ab_error : option string;
  ab_status : option string
}.

Record FormData : Type := mkFormData {
  fd_name : string;
  fd_email : string;
  fd_password : string
}.

(** The state of [AuthPage]. *)
Record AuthPage : Type := mkAuthPage {
  isLogin : bool;
  formData : FormData;
  isLoading : bool
}.

Inductive AuthToast : Type :=
  | AuthToastError (message : JsVal)
  | AuthToastRegistered.   (* 'Registration successful! Please login.' *)

Record AuthSubmitted : Type := mkAuthSubmitted {
  as_page : AuthPage;
  as_app : App;
  as_toasts : list AuthToast;
  as_interceptor_toasts : list Toast;
  as_href : option string;
  as_navigated : bool;                (* [navigate('/')] *)
  as_sent : list (bool * FormData);   (* the requests: to login or not, and
                                         the form sent *)
  as_thrown : bool                    (* the [catch] block itself threw *)
}.


(** What the application does to its state, one operation at a time. *)
Inductive AppOp : Type :=
  | OpHandleLogin (userData : UserData) (token : option string)
  | OpHandleLogout
  | OpUpdateAuthHeader (token : option string)
  | OpStartupCheck (token : option string) (remote : RawOutcome unit)
  | OpStore (ops : list StoreOp)
  | OpIntercept (error : AxiosError)
  | OpAuthSubmit (host : SubmitHost) (remote : RawOutcome (option AuthBody))
                 (page : AuthPage)
  | OpRegisterSubmit (host : SubmitHost) (access_token : option string)
                     (remote : RawOutcome (option JsVal)) (page : RegisterFace).


(** ** The faces of the scenarios *)

(** [{name: "Alice", roll_number: "1", confidence: 0.9}] *)
Definition alice_1 : Face :=
  mkFace (JStr "Alice") (JStr "1") "" (JNum (Q2Qc (9 # 10))) JUndefined.

(** [{name: "Alice", roll_number: "2"}] *)
Definition alice_2 : Face :=
  mkFace (JStr "Alice") (JStr "2") "" JUndefined JUndefined.

(** ** Sample hosts, stores and components *)

Definition owner : string := "teacher@school.edu".

(** An en-US host in UTC, over the first seconds of 1970. *)
Definition sample_clock : list (Z * string) :=
  [(0, "1/1/1970, 12:00:00 AM");
   (1000, "1/1/1970, 12:00:01 AM");
   (2000, "1/1/1970, 12:00:02 AM")].

Definition sample_toLocaleString (t : Z) : string :=
  from_option snd "Invalid Date"
    (List.find (λ p, p.1 =? t `div` 1000 * 1000) sample_clock).

Definition sample_Date_parse (s : string) : option Z :=
  fst <$> List.find (λ p, String.eqb p.2 s) sample_clock.



(** Logged in, nothing recorded yet. *)
Definition fresh_store : Storage :=
  mkStorage (Some (mkUser (Some owner))) (Some owner) (Some "jwt") ∅.

(** Logged in, but [user_email] not written yet. *)
Definition unresolved_store : Storage :=
  mkStorage (Some (mkUser (Some owner))) None (Some "jwt") ∅.

Definition bob_entry : Face :=
  mkFace (JStr "Bob") (JStr "2") "1/1/1970, 12:00:01 AM" (JNum 0%Qc)
         (JStr "Recognized").

Definition alice_entry : Face :=
  mkFace (JStr "Alice") (JStr "1") "1/1/1970, 12:00:02 AM"
         (JNum (Q2Qc (9 # 10))) (JStr "Recognized").

(** Two entries recorded on 1970-01-01, the older one first. *)
Definition day0_store : Storage :=
  mkStorage (Some (mkUser (Some owner))) (Some owner) (Some "jwt")
            {[ owner := {[ 0 := [bob_entry; alice_entry] ]} ]}.

Definition numbered_face (i : nat) : Face :=
  mkFace (JStr (pretty i)) (JStr (pretty i)) "1/1/1970, 12:00:00 AM"
         (JNum 0%Qc) (JStr "Recognized").

(** One entry under the earliest date a [Date] holds, 100000000 days
    before 1970-01-01. *)
Definition earliest_store : Storage :=
  mkStorage (Some (mkUser (Some owner))) (Some owner) (Some "jwt")
            {[ owner := {[ -100000000 := [bob_entry] ]} ]}.

(** A partition of 50 entries for 1970-01-01. *)
Definition full_store : Storage :=
  mkStorage (Some (mkUser (Some owner))) (Some owner) (Some "jwt")
            {[ owner := {[ 0 := numbered_face <$> seq 0 50 ]} ]}.

Definition carol : Face :=
  mkFace (JStr "Carol") (JStr "77") "" JUndefined JUndefined.

(** A component at rest whose last recognition was at [last]. *)
Definition camera_at (last : Z) (st : Storage) : Camera :=
  mkCamera last false false [] st [] [].

(** A run at time [now] with the webcam mounted and a frame captured. *)
Definition capture_env (now : Z) (remote : RawOutcome RecognizeBody)
  : CaptureEnv :=
  mkCaptureEnv now (Some (Some "data:image/jpeg;base64,AAAA")) true remote now.

Definition logged_out_store : Storage := mkStorage None None None ∅.

(** ** Sample applications, hosts and forms *)

(** The application over a storage, with the header in step with the
    token. *)
Definition app_over (st : Storage) : App :=
  mkApp st ((λ t, "Bearer " +:+ t) <$> ls_token st)
        (truthy_item (ls_token st)) None "camera" [] [].

Definition sample_host : SubmitHost :=
  mkSubmitHost "Cannot read properties of undefined" "Request failed" None.

Definition ada_form : RegisterFace :=
  mkRegisterFace "Ada Lovelace" "42" (Some "data:image/jpeg;base64,AAAA")
                 false.

Definition login_page : AuthPage :=
  mkAuthPage true (mkFormData "" "teacher@school.edu" "secret") false.

Definition register_page : AuthPage :=
  mkAuthPage false (mkFormData "Teacher" "teacher@school.edu" "secret") false.

Definition login_answer : option AuthBody :=
  Some (mkAuthBody (Some "Teacher") (Some "teacher@school.edu") (Some "jwt")
                   None None).

Definition refusal : option AuthBody :=
  Some (mkAuthBody None None None (Some "Invalid credentials")
                   (Some "unregistered_email")).

Definition teacher : UserData :=
  mkUserData (Some "Teacher") (Some "teacher@school.edu").

Definition head_teacher : UserData :=
  mkUserData (Some "Head") (Some "head@school.edu").

(** An answer of the recognizer with one nameless element. *)
Definition one_nameless : RawOutcome RecognizeBody :=
  HttpResponse 200
    (BodyArray [mkRecognitionData JUndefined (JStr "5") JUndefined JUndefined]).


(** ** attendanceUtils.js and CameraInterface.js *)

Section manageFaceRecognitionList.

(** The host's date formatting and parsing: [new Date(t).toLocaleString()]
    and [new Date(s)] as milliseconds since the epoch, [None] for an
    invalid date. *)
Variable toLocaleString : Z → string.
Variable Date_parse : string → option Z.

(** [setUserEmail] *)
Definition setUserEmail (st : Storage) : option string * Storage :=
  match ls_user st with
  | Some user =>
      if truthy_item (email user)
      then (email user, set_user_email (default "" (email user)) st)
      else (None, st)
  | None => (None, st)
  end.

(** The owner [addFace] works for: the [user_email] item, or, when that
    is not set, what [setUserEmail] finds. *)
Definition resolve_user (st : Storage) : option string * Storage :=
  if truthy_item (ls_user_email st) then (ls_user_email st, st)
  else setUserEmail st.

(** The [some] callback of [addFace]. *)
Definition same_person (recognizedFace face : Face) : bool :=
  strict_eq (roll_number face) (roll_number recognizedFace)
  || strict_eq (name face) (name recognizedFace).

Definition newEntry (now : Z) (recognizedFace : Face) : Face :=
  mkFace (name recognizedFace) (roll_number recognizedFace)
         (toLocaleString now)
         (js_or (confidence recognizedFace) (JNum 0%Qc))
         (js_or (status recognizedFace) (JStr "Recognized")).

(** [addFace(recognizedFace)] at clock reading [now]; [None] for an absent
    argument, and [None] for the [undefined] it returns when nothing is
    added. *)
Definition addFace (now : Z) (recognizedFace : option Face) (st : Storage)
  : option Face * Storage :=
  match recognizedFace with
  | None => (None, st)
  | Some rf =>
      if negb (truthy (name rf)) || negb (truthy (roll_number rf))
      then (None, st)
      else
        let today := isoDate now in
        let '(userEmail, st1) := resolve_user st in
        if negb (truthy_item userEmail) then (None, st1)
        else
          let e := default "" userEmail in
          let storedData := get_attendance e st1 in
          let storedData :=
            match storedData !! today with
            | None => <[today := []]> storedData
            | Some _ => storedData
            end in
          let todays := default [] (storedData !! today) in
          let isDuplicate := existsb (same_person rf) todays in
          if negb isDuplicate then
            let entry := newEntry now rf in
            let pushed := todays ++ [entry] in
            let kept :=
              if (50 <? length pushed)%nat then slice_last 50 pushed
              else pushed in
            (Some entry, set_attendance e (<[today := kept]> storedData) st1)
          else (None, st1)
  end.

(** The comparator of [getTodaysFaces]:
    [new Date(b.timestamp) - new Date(a.timestamp)]. *)
Definition byTimestampDesc (a b : Face) : option Z :=
  match Date_parse (timestamp b), Date_parse (timestamp a) with
  | Some tb, Some ta => Some (tb - ta)
  | _, _ => None
  end.

(** [getTodaysFaces()]: the list returned and the storage it leaves. *)
Definition getTodaysFaces (now : Z) (st : Storage) : list Face * Storage :=
  let today := isoDate now in
  if negb (truthy_item (ls_user_email st)) then ([], st)
  else
    let e := default "" (ls_user_email st) in
    let storedData := get_attendance e st in
    let todaysFaces := default [] (storedData !! today) in
    (Array_sort byTimestampDesc todaysFaces, st).

(** [deleteAttendance(rollNumber)]: [remote] is what the transport
    delivers if the request is sent, [now] the clock after the response.
    Returns the boolean, the storage and the requests sent. *)
Definition deleteAttendance (now : Z) (remote : RawOutcome DeleteData)
    (rollNumber : JsVal) (st : Storage) : bool * Storage * list NetCall :=
  if negb (truthy rollNumber) then (false, st, [])
  else
    let userEmail := ls_user_email st in
    let token := ls_token st in
    if negb (truthy_item userEmail) || negb (truthy_item token)
    then (false, st, [])
    else
      let e := default "" userEmail in
      let sent := [PostDeleteAttendance (default "" token) rollNumber] in
      match axios_post remote with
      | AxResolved code (Some data_status) =>
          let isSuccessful :=
            strict_eq data_status (JStr "success") || (code =? 200) in
          if isSuccessful then
            let today := isoDate now in
            let storedData := get_attendance e st in
            match storedData !! today with
            | Some faces =>
                let remaining :=
                  filter (λ face, roll_number face ≠ rollNumber) faces in
                (true,
                 set_attendance e (<[today := remaining]> storedData) st,
                 sent)
            | None => (true, st, sent)
            end
          else (false, st, sent)
      | AxResolved _ None => (false, st, sent)
      | AxRejectedResponse _ _ => (false, st, sent)
      | AxRejectedNoResponse => (false, st, sent)
      end.

(** The instants a [Date] holds: at most 8.64e15 ms from the epoch.  They
    are integers, and doubles hold them exactly. *)
Definition time_value (t : Z) : Prop :=
  -8640000000000000 ≤ t ≤ 8640000000000000.

(** The double nearest to an integer, ties to the even significand: the
    integer itself up to 2^53 in size; a larger one is rounded to a
    multiple of [ulp], the power of two that leaves 53 significant bits.
    (The integers met here are below 2^54 in size, far from overflow.) *)
Definition nearest_double (z : Z) : Z :=
  let e := Z.log2 (Z.abs z) - 52 in
  if e <=? 0 then z
  else
    let ulp := 2 ^ e in
    let lower := z `div` ulp in
    let rest := z `mod` ulp in
    let half := ulp `div` 2 in
    (if rest <? half then lower
     else if half <? rest then lower + 1
     else if Z.even lower then lower else lower + 1) * ulp.

(** The subtraction [today - new Date(date)] is exact: both are time values
    and their difference is at most 2^53 in size.  (Two time values can be
    up to 1.728e16 apart, which is more.) *)
Definition difference_exact (now date : Z) : Prop :=
  time_value now ∧ time_value (Date_of_key date)
  ∧ - 2 ^ 53 ≤ now - Date_of_key date ≤ 2 ^ 53.

(** [dayDifference] of [cleanupOldData]:
    [(today - new Date(date)) / (1000 * 3600 * 24)].  The code computes in
    double precision: the difference of the two time values is the double
    nearest to their exact difference.  The quotient is kept exact here; the
    code rounds it as well, which does not change how it compares with an
    integer [daysToKeep]: the difference is an integer below 2^53 in size,
    or an even one below 2^54, so the quotient is an integer or at least
    1/86400000, respectively 2/86400000, away from one, which is more than
    half the distance between neighbouring doubles of its size (2^-26 below
    2^27, 2^-25 below 2^28). *)
Definition dayDifference (now date : Z) : Q :=
  (inject_Z (nearest_double (now - Date_of_key date)) / inject_Z ms_per_day)%Q.

(** [dayDifference > daysToKeep] *)
Definition is_old (now daysToKeep date : Z) : bool :=
  negb (Qle_bool (dayDifference now date) (inject_Z daysToKeep)).

(** The [forEach] over [Object.keys(storedData)]. *)
Definition cleanup_step (now daysToKeep : Z)
    (acc : gmap Z (list Face) * Z) (date : Z) : gmap Z (list Face) * Z :=
  if is_old now daysToKeep date then (delete date acc.1, acc.2 + 1)
  else acc.

(** [cleanupOldData(daysToKeep)] *)
Definition cleanupOldData (now daysToKeep : Z) (st : Storage)
  : CleanupResult :=
  if negb (truthy_item (ls_user_email st))
  then mkCleanupResult JUndefined None st
  else
    let e := default "" (ls_user_email st) in
    let storedData := get_attendance e st in
    let keys := (map_to_list storedData).*1 in
    let '(storedData', removedDates) :=
      foldl (cleanup_step now daysToKeep) (storedData, 0) keys in
    mkCleanupResult JUndefined (Some removedDates)
                    (set_attendance e storedData' st).

(** [cleanupOldData()], with the default [daysToKeep = 7]. *)
Definition cleanupOldData_default (now : Z) (st : Storage) : CleanupResult :=
  cleanupOldData now 7 st.

(** The names an object literal inherits from [Object.prototype]
    (ECMAScript 20.1.3 and B.2.2).  Reading one of them off [toastConfig]
    finds the inherited function, or the prototype itself for [__proto__]:
    a truthy object with neither a [message] nor a [type]. *)
Definition Object_prototype : list string :=
  ["constructor"; "hasOwnProperty"; "isPrototypeOf"; "propertyIsEnumerable";
   "toLocaleString"; "toString"; "valueOf"; "__proto__";
   "__defineGetter__"; "__defineSetter__"; "__lookupGetter__";
   "__lookupSetter__"].

(** The object literal [toastConfig] of [handleRecognitionError], by own
    key: the [message] and the [type] of each entry. *)
Definition toastConfig (errorMessage : JsVal)
  : list (string * (JsVal * ToastType)) :=
  [("no_students_registered",
    (JStr "No students registered. Please add students first.", warning));
   ("no_face_encodings",
    (JStr "No student faces registered. Please register student faces.",
     warning));
   ("face_not_recognized",
    (JStr "Face not recognized. Please register this student.", warning));
   ("face_detection_failed",
    (JStr "No face detected. Please ensure your face is clearly visible.",
     error));
   ("default", (js_or errorMessage (JStr "Recognition failed"), error))].

(** [toastConfig[errorStatus]]: the [message] and [type] read off the
    object found, [None] when the lookup gives [undefined].  An own key
    finds its entry; a name of [Object_prototype] finds the inherited
    object, whose [message] and [type] are [undefined].  The keys that
    [undefined], [null] and a number convert to (["undefined"], ["null"], a
    numeral) name no property of either. *)
Definition toastConfig_get (errorMessage errorStatus : JsVal)
  : option (JsVal * option ToastType) :=
  match errorStatus with
  | JStr key =>
      match List.find (λ entry, String.eqb entry.1 key)
                      (toastConfig errorMessage) with
      | Some entry => Some (entry.2.1, Some entry.2.2)
      | None =>
          if bool_decide (key ∈ Object_prototype)
          then Some (JUndefined, None)
          else None
      end
  | _ => None
  end.

(** [handleRecognitionError(errorStatus, errorMessage)]: the toasts shown.
    [config] is [toastConfig[errorStatus] || toastConfig['default']]; the
    [switch] shows a warning for the type ['warning'] and an error for
    ['error'] and for every other type. *)
Definition handleRecognitionError (errorStatus errorMessage : JsVal)
  : list Toast :=
  let config :=
    match toastConfig_get errorMessage errorStatus with
    | Some found => found
    | None =>
        default (JUndefined, None)
                (toastConfig_get errorMessage (JStr "default"))
    end in
  ToastDismiss ::
  match config.2 with
  | Some warning => [ToastWarn config.1]
  | _ => [ToastError config.1]
  end.

(** The guards on entry of [captureAndRecognize] and the flag it sets
    before any I/O: the throttle's [tryAcquire(now)].  [None] is a denial. *)
Definition tryAcquire (webcamMounted : bool) (now : Z) (c : Camera)
  : option Camera :=
  if isRecognizingRef c then None
  else if now - lastRecognitionRef c <? 10000 then None
  else if negb webcamMounted then None
  else Some (set_recognizing true c).

(** The callback of [response.data.forEach].  The [onRecognizedFace] prop is
    the caller's and is left out. *)
Definition recognized (clock : Z) (c : Camera) (recognitionData : RecognitionData)
  : Camera :=
  let recognizedFace :=
    mkFace (js_or (rd_name recognitionData) (JStr "Unknown"))
           (js_or (rd_roll_number recognitionData) (JStr ""))
           (toLocaleString clock)
           (js_or (rd_confidence recognitionData) (JNum 0%Qc))
           (js_or (rd_status recognitionData) (JStr "Unknown")) in
  let st := (addFace clock (Some recognizedFace) (cam_storage c)).2 in
  show_toasts [ToastSuccessRecognized (name recognizedFace)]
              (set_storage st c).

(** The [try] block with its [catch], entered with the flags set. *)
Definition try_recognize (env : CaptureEnv) (getScreenshot : option string)
    (c : Camera) : Camera :=
  if negb (truthy_item getScreenshot) then
    show_toasts (handleRecognitionError (JStr "face_detection_failed")
                   (JStr "Failed to capture image")) c
  else if negb (env_blob env) then
    show_toasts (handleRecognitionError (JStr "default")
                   (JStr "Error setting up recognition request")) c
  else
    let token := ls_token (cam_storage c) in
    if negb (truthy_item token) then
      show_toasts
        (handleRecognitionError (JStr "default")
           (JStr "No authentication token found. Please log in again.")) c
    else
      let c := send (PostRecognize (default "" token)) c in
      match axios_post (env_remote env) with
      | AxResolved _ (BodyArray items) =>
          let c := foldl (recognized (env_clock env)) c items in
          let faces := (getTodaysFaces (env_clock env) (cam_storage c)).1 in
          mkCamera (env_now env) (isRecognizingRef c) (isRecognizing c)
                   faces (cam_storage c) (cam_toasts c) (cam_network c)
      | AxResolved _ (BodyOther _ _) => c
      | AxRejectedResponse _ data =>
          let '(errorStatus, errorMessage) :=
            match data with
            | BodyArray _ => (JUndefined, JUndefined)
            | BodyOther s e => (s, e)
            end in
          show_toasts
            (handleRecognitionError errorStatus
               (js_or errorMessage (JStr "Recognition failed"))) c
      | AxRejectedNoResponse =>
          show_toasts
            (handleRecognitionError (JStr "default")
               (JStr "No response from server. Check your connection.")) c
      end.

(** [captureAndRecognize()], run to completion.  While a run awaits, the
    guard turns every other run away before it touches anything, so runs do
    not interleave on the refs. *)
Definition captureAndRecognize (env : CaptureEnv) (c : Camera) : Camera :=
  match tryAcquire (bool_decide (is_Some (env_webcam env))) (env_now env) c
  with
  | None => c
  | Some c1 =>
      let c2 := try_recognize env (default None (env_webcam env)) c1 in
      (* finally *)
      set_recognizing false c2
  end.

(** The run ends in the branch that records a recognition: the request
    was sent and answered 2xx with an array. *)
Definition submitted (env : CaptureEnv) (c : Camera) : bool :=
  match tryAcquire (bool_decide (is_Some (env_webcam env))) (env_now env) c
  with
  | None => false
  | Some _ =>
      truthy_item (default None (env_webcam env))
      && env_blob env
      && truthy_item (ls_token (cam_storage c))
      && match axios_post (env_remote env) with
         | AxResolved _ (BodyArray _) => true
         | _ => false
         end
  end.

(** ** Vocabulary of the properties *)

(** The day-partition of owner [e] for date [d]. *)
Definition partition_of (e : string) (d : Z) (st : Storage) : list Face :=
  default [] (get_attendance e st !! d).

(** Every stored day-partition satisfies [P]. *)
Definition all_partitions (P : list Face → Prop) (st : Storage) : Prop :=
  ∀ e m d p, ls_attendance st !! e = Some m → m !! d = Some p → P p.

(** No two entries share a roll number, no two share a name. *)
Definition unique_entries (p : list Face) : Prop :=
  NoDup (roll_number <$> p) ∧ NoDup (name <$> p).

Definition at_most_50 (p : list Face) : Prop := (length p ≤ 50)%nat.

(** One operation, and a run of them. *)
Definition run_op (st : Storage) (op : StoreOp) : Storage :=
  match op with
  | OpAdd now rf => (addFace now rf st).2
  | OpList now => (getTodaysFaces now st).2
  | OpDelete now remote roll => (deleteAttendance now remote roll st).1.2
  | OpCleanup now days => cl_storage (cleanupOldData now days st)
  end.

Definition run_ops (ops : list StoreOp) (st : Storage) : Storage :=
  foldl run_op st ops.

(** A sequence of [addFace] calls, each with its clock reading. *)
Definition add_all (calls : list (Z * option Face)) (st : Storage) : Storage :=
  foldl (λ st call, (addFace call.1 call.2 st).2) st calls.


(** The remote call fails: no response, or a response outside 2xx. *)
Definition remote_failed {D : Type} (remote : RawOutcome D) : Prop :=
  match remote with
  | NetFailure => True
  | HttpResponse code _ => is_2xx code = false
  end.


(** ** More of CameraInterface.js *)

(** The [recognizedFace] that the [forEach] callback builds. *)
Definition recognizedFace_of (clock : Z) (recognitionData : RecognitionData)
  : Face :=
  mkFace (js_or (rd_name recognitionData) (JStr "Unknown"))
         (js_or (rd_roll_number recognitionData) (JStr ""))
         (toLocaleString clock)
         (js_or (rd_confidence recognitionData) (JNum 0%Qc))
         (js_or (rd_status recognitionData) (JStr "Unknown")).

(** The elements of the answer, when the request resolves with an array. *)
Definition answer_items (env : CaptureEnv) : list RecognitionData :=
  match axios_post (env_remote env) with
  | AxResolved _ (BodyArray items) => items
  | _ => []
  end.

(** The run gets as far as [axios.post]. *)
Definition reached (env : CaptureEnv) (c : Camera) : bool :=
  bool_decide (is_Some (tryAcquire (bool_decide (is_Some (env_webcam env)))
                          (env_now env) c))
  && truthy_item (default None (env_webcam env))
  && env_blob env
  && truthy_item (ls_token (cam_storage c)).

(** [handleDeleteAttendance(rollNumber)]: [now] is the clock when
    [deleteAttendance] cleans the storage, [nowList] the clock when the list
    is read again.  [deleteAttendance] and [getTodaysFaces] catch what they
    throw, so the handler's own [catch] is not entered. *)
Definition handleDeleteAttendance (now nowList : Z)
    (remote : RawOutcome DeleteData) (rollNumber : JsVal) (c : Camera)
  : DeleteHandled :=
  let '(deleted, st, sent) :=
    deleteAttendance now remote rollNumber (cam_storage c) in
  if deleted then
    let updatedFaces := (getTodaysFaces nowList st).1 in
    mkDeleteHandled
      (mkCamera (lastRecognitionRef c) (isRecognizingRef c) (isRecognizing c)
                updatedFaces st (cam_toasts c) (cam_network c ++ sent))
      ToastDeleted JNull
  else
    mkDeleteHandled
      (mkCamera (lastRecognitionRef c) (isRecognizingRef c) (isRecognizing c)
                (todaysFaces c) st (cam_toasts c) (cam_network c ++ sent))
      ToastDeleteFailed JNull.


(** ** App.js and index.js *)

(** [String(v)] for a string or [undefined], as [localStorage.setItem] and
    template literals apply it. *)
Definition to_String (v : option string) : string := default "undefined" v.

(** [handleLogin(userData, token)] *)
Definition handleLogin (userData : UserData) (token : option string) (a : App)
  : App :=
  mkApp
    (mkStorage (Some (mkUser (ud_email userData)))
               (Some (to_String (ud_email userData)))
               (Some (to_String token))
               (ls_attendance (app_storage a)))
    (Some ("Bearer " +:+ to_String token))
    true (Some userData) "camera" (recognizedFaces a)
    (app_toasts a
       ++ [ToastWelcome (if truthy_item (ud_name userData)
                         then default "" (ud_name userData) else "User")]).

(** [handleLogout()] *)
Definition handleLogout (a : App) : App :=
  mkApp
    (mkStorage None (ls_user_email (app_storage a)) None
               (ls_attendance (app_storage a)))
    None false None (currentPage a) [] (app_toasts a ++ [ToastLoggedOut]).

(** [updateAuthHeader(token = null)] of index.js *)
Definition updateAuthHeader (token : option string) (a : App) : App :=
  if truthy_item token then
    mkApp
      (mkStorage (ls_user (app_storage a)) (ls_user_email (app_storage a))
                 token (ls_attendance (app_storage a)))
      (Some ("Bearer " +:+ default "" token))
      (isAuthenticated a) (app_user a) (currentPage a) (recognizedFaces a)
      (app_toasts a)
  else
    mkApp
      (mkStorage None (ls_user_email (app_storage a)) None
                 (ls_attendance (app_storage a)))
      None
      (isAuthenticated a) (app_user a) (currentPage a) (recognizedFaces a)
      (app_toasts a).

(** The store's operations, run by the application. *)
Definition app_run_ops (ops : list StoreOp) (a : App) : App :=
  mkApp (run_ops ops (app_storage a)) (app_authorization a)
        (isAuthenticated a) (app_user a) (currentPage a) (recognizedFaces a)
        (app_toasts a).

(** The response interceptor that index.js installs on the global [axios]
    (the instance of axiosConfig.js, which attendanceUtils.js and
    CameraInterface.js use, has interceptors of its own: none). *)
Definition interceptor (error : AxiosError) (a : App) : Intercepted :=
  match err_config error with
  | Some true => mkIntercepted a [] None RejectSame
  | None => mkIntercepted a [] None ThrowTypeError
  | Some false =>
      match err_response error with
      | None =>
          mkIntercepted a
            [ToastDismiss;
             ToastError (JStr "Network error. Please check your connection.")]
            None
            (RejectWith (JStr "Network error. Please check your connection.")
               "network")
      | Some (status, data_error) =>
          if status =? 401 then
            mkIntercepted (updateAuthHeader None a)
              [ToastDismiss;
               ToastError (JStr "Authentication failed. Please log in again.")]
              (Some "/login") ResolveUndefined
          else if status =? 403 then
            mkIntercepted a
              [ToastDismiss;
               ToastError
                 (JStr "You do not have permission to access this resource.")]
              None
              (RejectWith
                 (JStr "You do not have permission to access this resource.")
                 "forbidden")
          else if status =? 404 then
            mkIntercepted a
              [ToastDismiss;
               ToastError (JStr "The requested resource could not be found.")]
              None
              (RejectWith (JStr "The requested resource could not be found.")
                 "not_found")
          else if status =? 500 then
            mkIntercepted a
              [ToastDismiss;
               ToastError
                 (JStr "An unexpected server error occurred. Please try again later.")]
              None
              (RejectWith
                 (JStr "An unexpected server error occurred. Please try again later.")
                 "server_error")
          else
            match data_error with
            | None => mkIntercepted a [ToastDismiss] None ThrowTypeError
            | Some e =>
                let errorMessage :=
                  js_or e (JStr "An unexpected error occurred") in
                mkIntercepted a [ToastDismiss; ToastError errorMessage] None
                  (RejectWith errorMessage "unknown")
            end
      end
  end.


(** ** Requests on the global axios *)

(** [axios.post(...)] on the global instance.  [validateStatus] is that of
    the request; an answer it refuses, and a missing answer, make an error
    with a fresh [config], which the interceptor receives.  [error_of] reads
    [data.error] off the answer's body, [None] when the body is [null]. *)
Definition global_post {D : Type} (host : SubmitHost)
    (validateStatus : Z → bool) (error_of : D → option JsVal)
    (remote : RawOutcome D) (a : App) : GlobalResult D :=
  let through (error : AxiosError) (response : option (Z * D)) :=
    let i := interceptor error a in
    mkGlobalResult
      match ic_settled i with
      | RejectSame =>
          GlobalRejected (mkCaught (JStr (host_AxiosError host)) response)
      | RejectWith message _ => GlobalRejected (mkCaught message None)
      | ResolveUndefined => GlobalResolved None
      | ThrowTypeError =>
          GlobalRejected (mkCaught (JStr (host_TypeError host)) None)
      end
      (ic_app i) (ic_toasts i) (ic_href i) in
  match remote with
  | NetFailure => through (mkAxiosError (Some false) None) None
  | HttpResponse code data =>
      if validateStatus code
      then mkGlobalResult (GlobalResolved (Some (code, data))) a [] None
      else through (mkAxiosError (Some false) (Some (code, error_of data)))
                   (Some (code, data))
  end.

(** ** RegisterFace.js *)

(** [validateInputs()]: the message of the error it throws, [None] when it
    returns. *)
Definition validateInputs (p : RegisterFace) : option string :=
  if String.eqb (trim (rf_name p)) "" then Some "Name is required"
  else if String.eqb (trim (rf_rollNumber p)) ""
  then Some "Roll Number is required"
  else if negb (truthy_item (capturedImage p))
  then Some "Please capture an image first"
  else if negb (only_letters_and_spaces (rf_name p))
  then Some "Name should contain only letters"
  else if negb (only_digits (rf_rollNumber p))
  then Some "Roll Number should contain only numbers"
  else None.

(** The [catch] and [finally] of [handleSubmit]. *)
Definition register_catch (error : Caught (option JsVal)) (p : RegisterFace)
    (a : App) (itoasts : list Toast) (href : option string)
    (sent : list RegisterRequest) : RegisterSubmitted :=
  let p' := mkRegisterFace (rf_name p) (rf_rollNumber p) (capturedImage p)
                           false in
  match caught_response error with
  | Some (_, None) => mkRegisterSubmitted p' a [] itoasts href sent true
  | Some (_, Some data_error) =>
      mkRegisterSubmitted p' a [RegisterToastError data_error] itoasts href
        sent false
  | None =>
      mkRegisterSubmitted p' a
        [RegisterToastError
           (js_or (caught_message error) (JStr "Registration Failed"))]
        itoasts href sent false
  end.

(** [handleSubmit(e)] of RegisterFace; [access_token] is what
    [localStorage.getItem('access_token')] returns. *)
Definition RegisterFace_handleSubmit (host : SubmitHost)
    (access_token : option string) (remote : RawOutcome (option JsVal))
    (p : RegisterFace) (a : App) : RegisterSubmitted :=
  match validateInputs p with
  | Some message => register_catch (mkCaught (JStr message) None) p a [] None []
  | None =>
      if negb (truthy_item access_token) then
        mkRegisterSubmitted
          (mkRegisterFace (rf_name p) (rf_rollNumber p) (capturedImage p) false)
          a
          [RegisterToastError
             (JStr "Authentication token not found. Please log in again.")]
          [] None [] false
      else
        match host_fetch host with
        | Some message =>
            register_catch (mkCaught (JStr message) None) p a [] None []
        | None =>
            let sent :=
              [mkRegisterRequest (default "" access_token) (trim (rf_name p))
                                 (trim (rf_rollNumber p))] in
            let g := global_post host is_2xx id remote a in
            match gr_outcome g with
            | GlobalResolved _ =>
                mkRegisterSubmitted (mkRegisterFace "" "" None false)
                  (gr_app g) [RegisterToastSuccess] (gr_toasts g) (gr_href g)
                  sent false
            | GlobalRejected caught =>
                register_catch caught p (gr_app g) (gr_toasts g) (gr_href g)
                  sent
            end
        end
  end.

(** ** AuthPage.js *)

(** [data.error] and [data.status] of a body, as values. *)
Definition body_error (b : AuthBody) : JsVal :=
  from_option JStr JUndefined (ab_error b).

Definition body_status (b : AuthBody) : JsVal :=
  from_option JStr JUndefined (ab_status b).

(** The [catch] and [finally] of AuthPage's [handleSubmit]. *)
Definition auth_catch (error : Caught (option AuthBody)) (p : AuthPage)
    (a : App) (itoasts : list Toast) (href : option string)
    (sent : list (bool * FormData)) : AuthSubmitted :=
  let errorMessage :=
    js_or (js_or match caught_response error with
                 | Some (_, Some b) => body_error b
                 | _ => JUndefined
                 end
                 (caught_message error))
          (JStr "An unexpected error occurred") in
  let ended (isLogin' : bool) (toasts : list AuthToast) (thrown : bool) :=
    mkAuthSubmitted (mkAuthPage isLogin' (formData p) false) a toasts itoasts
                    href false sent thrown in
  match caught_response error with
  | Some (status, data) =>
      if status =? 401 then
        match data with
        | None => ended (isLogin p) [] true
        | Some b =>
            if bool_decide (body_status b = JStr "unregistered_email")
            then ended false [AuthToastError errorMessage] false
            else ended (isLogin p) [AuthToastError errorMessage] false
        end
      else if status =? 404 then
        match data with
        | None => ended (isLogin p) [] true
        | Some b =>
            if bool_decide (body_status b = JStr "no_students_registered")
            then ended (isLogin p)
                   [AuthToastError
                      (JStr "Please register students before recognition")]
                   false
            else if bool_decide (body_status b = JStr "no_face_encodings")
            then ended (isLogin p)
                   [AuthToastError
                      (JStr "No student faces registered. Please add student faces")]
                   false
            else if bool_decide (body_status b = JStr "face_not_recognized")
            then ended (isLogin p)
                   [AuthToastError
                      (JStr "Face not recognized. Please register this student")]
                   false
            else ended (isLogin p) [AuthToastError errorMessage] false
        end
      else ended (isLogin p) [AuthToastError errorMessage] false
  | None => ended (isLogin p) [AuthToastError errorMessage] false
  end.

(** The header and the token that [handleSubmit] sets before it calls
    [onLogin]. *)
Definition set_access_token (token : option string) (a : App) : App :=
  mkApp
    (mkStorage (ls_user (app_storage a)) (ls_user_email (app_storage a))
               (Some (to_String token)) (ls_attendance (app_storage a)))
    (Some ("Bearer " +:+ to_String token))
    (isAuthenticated a) (app_user a) (currentPage a) (recognizedFaces a)
    (app_toasts a).

(** [handleSubmit(e)] of AuthPage, with [onLogin] the [handleLogin] of
    App.js. *)
Definition AuthPage_handleSubmit (host : SubmitHost)
    (remote : RawOutcome (option AuthBody)) (p : AuthPage) (a : App)
  : AuthSubmitted :=
  if String.eqb (fd_email (formData p)) ""
     || String.eqb (fd_password (formData p)) ""
  then
    mkAuthSubmitted p a
      [AuthToastError (JStr "Please fill in all required fields")]
      [] None false [] false
  else
    let sent := [(isLogin p, formData p)] in
    let g :=
      global_post host (λ status, (200 <=? status) && (status <? 500))
        (λ data, body_error <$> data) remote a in
    let TypeError := mkCaught (JStr (host_TypeError host)) None in
    let catch error :=
      auth_catch error p (gr_app g) (gr_toasts g) (gr_href g) sent in
    match gr_outcome g with
    | GlobalRejected caught => catch caught
    | GlobalResolved None => catch TypeError
    | GlobalResolved (Some (status, data)) =>
        if (200 <=? status) && (status <? 300) then
          if isLogin p then
            match data with
            | None => catch TypeError
            | Some b =>
                let userData :=
                  mkUserData (ab_user_name b) (ab_user_email b) in
                mkAuthSubmitted
                  (mkAuthPage (isLogin p) (formData p) false)
                  (handleLogin userData (ab_access_token b)
                     (set_access_token (ab_access_token b) (gr_app g)))
                  [] (gr_toasts g) (gr_href g) true sent false
            end
          else
            mkAuthSubmitted
              (mkAuthPage true (mkFormData "" "" "") false)
              (gr_app g) [AuthToastRegistered] (gr_toasts g) (gr_href g)
              false sent false
        else
          match data with
          | None => catch TypeError
          | Some b =>
              catch (mkCaught (js_or (body_error b) (JStr "Unexpected response"))
                              None)
          end
    end.


(** ** The start of index.js and runs of the application *)

(** The check of a stored token when the page loads:
    [axios.get('/api/auth/profile', ...)] with [then] and [catch].  [token]
    is what [localStorage.getItem('token')] returned at the load; [a] is the
    state when the answer arrives.  The request is made before index.js
    installs its interceptor, so it does not pass through it; the answer's
    body is not read. *)
Definition startup_check {D : Type} (token : option string)
    (remote : RawOutcome D) (a : App) : App :=
  if truthy_item token then
    match axios_post remote with
    | AxResolved _ _ => updateAuthHeader token a
    | AxRejectedResponse _ _ => updateAuthHeader None a
    | AxRejectedNoResponse => updateAuthHeader None a
    end
  else a.

Definition app_step (a : App) (op : AppOp) : App :=
  match op with
  | OpHandleLogin userData token => handleLogin userData token a
  | OpHandleLogout => handleLogout a
  | OpUpdateAuthHeader token => updateAuthHeader token a
  | OpStartupCheck token remote => startup_check token remote a
  | OpStore ops => app_run_ops ops a
  | OpIntercept e => ic_app (interceptor e a)
  | OpAuthSubmit host remote page =>
      as_app (AuthPage_handleSubmit host remote page a)
  | OpRegisterSubmit host access_token remote page =>
      rs_app (RegisterFace_handleSubmit host access_token remote page a)
  end.

Definition app_run (ops : list AppOp) (a : App) : App := foldl app_step a ops.

(** The [Authorization] header is "Bearer " and the stored token, or both
    are absent. *)
Definition authorization_matches (a : App) : Prop :=
  app_authorization a = (λ t, "Bearer " +:+ t) <$> ls_token (app_storage a).


(** What line 63-65 of [addFace] keeps of the pushed array. *)
Definition kept_of (pushed : list Face) : list Face :=
  if (50 <? length pushed)%nat then slice_last 50 pushed else pushed.

(** ** Lemmas on [addFace] *)

Lemma resolve_user_attendance st :
  ls_attendance (resolve_user st).2 = ls_attendance st.
Proof.
  unfold resolve_user, setUserEmail.
  destruct (truthy_item (ls_user_email st)); [done|].
  destruct (ls_user st) as [u|]; [|done].
  by destruct (truthy_item (email u)).
Qed.

Lemma resolve_user_truthy st :
  truthy_item (resolve_user st).1 = true ∨ (resolve_user st).1 = None.
Proof.
  unfold resolve_user, setUserEmail.
  destruct (truthy_item (ls_user_email st)) eqn:E; [by left|].
  destruct (ls_user st) as [u|]; [|by right].
  destruct (truthy_item (email u)) eqn:E'; [by left|by right].
Qed.

(** The two ways a call of [addFace] ends. *)
Lemma addFace_cases now rf st :
  ((addFace now rf st).1 = None
   ∧ ls_attendance (addFace now rf st).2 = ls_attendance st)
  ∨ ∃ f e,
      rf = Some f
      ∧ truthy (name f) = true ∧ truthy (roll_number f) = true
      ∧ (resolve_user st).1 = Some e
      ∧ existsb (same_person f) (partition_of e (isoDate now) st) = false
      ∧ (addFace now rf st).1 = Some (newEntry now f)
      ∧ ls_attendance (addFace now rf st).2
        = <[e := <[isoDate now :=
                     kept_of (partition_of e (isoDate now) st
                              ++ [newEntry now f])]>
                   (get_attendance e st)]> (ls_attendance st).
Proof.
  unfold addFace. destruct rf as [f|]; [|by left].
  destruct (truthy (name f)) eqn:Hn; [|by left].
  destruct (truthy (roll_number f)) eqn:Hr; [|by left].
  cbn [negb orb].
  pose proof (resolve_user_attendance st) as Hatt.
  pose proof (resolve_user_truthy st) as Htr.
  destruct (resolve_user st) as [userEmail st1] eqn:Hres. cbn [fst snd] in *.
  destruct Htr as [Htr | ->]; [|by left].
  rewrite Htr. cbn [negb].
  destruct userEmail as [e|]; [|done].
  change (default "" (Some e)) with e. cbv zeta.
  assert (Hpart : default [] ((match get_attendance e st1 !! isoDate now with
                   | Some _ => get_attendance e st1
                   | None => <[isoDate now:=[]]> (get_attendance e st1)
                   end) !! isoDate now) = partition_of e (isoDate now) st).
  { unfold partition_of, get_attendance. rewrite Hatt.
    destruct (default ∅ (ls_attendance st !! e) !! isoDate now) eqn:E.
    - by rewrite E.
    - by rewrite lookup_insert_eq. }
  rewrite Hpart.
  destruct (existsb (same_person f) (partition_of e (isoDate now) st)) eqn:Hdup;
    cbn [negb fst snd]; [by left|].
  right. exists f, e. repeat split; try done.
  cbn [ls_attendance set_attendance]. rewrite Hatt. f_equal.
  unfold get_attendance. rewrite Hatt.
  destruct (default ∅ (ls_attendance st !! e) !! isoDate now) eqn:E; [done|].
  by rewrite insert_insert_eq.
Qed.

Lemma same_person_false f p :
  existsb (same_person f) p = false →
  (roll_number f ∉ roll_number <$> p) ∧ (name f ∉ name <$> p).
Proof.
  induction p as [|g p IH]; cbn [existsb fmap list_fmap].
  - intros _. split; apply not_elem_of_nil.
  - intros H. apply orb_false_iff in H as [Hg Hp].
    apply orb_false_iff in Hg as [Hr Hn].
    apply bool_decide_eq_false in Hr, Hn.
    destruct (IH Hp) as [IHr IHn].
    split; rewrite not_elem_of_cons; split; congruence.
Qed.

Lemma same_person_true f p face :
  face ∈ p → roll_number face = roll_number f ∨ name face = name f →
  existsb (same_person f) p = true.
Proof.
  intros Hin Heq. apply existsb_exists. exists face.
  split; [by apply list_elem_of_In|].
  unfold same_person, strict_eq. apply orb_true_iff.
  destruct Heq; [left|right]; by apply bool_decide_eq_true.
Qed.

Lemma kept_of_sublist (l : list Face) : kept_of l `sublist_of` l.
Proof.
  unfold kept_of, slice_last.
  destruct (50 <? length l)%nat; [apply sublist_drop|done].
Qed.

Lemma kept_of_length (l : list Face) : (length (kept_of l) ≤ 50)%nat.
Proof.
  unfold kept_of, slice_last.
  destruct (50 <? length l)%nat eqn:E.
  - apply Nat.ltb_lt in E. rewrite length_drop. lia.
  - apply Nat.ltb_ge in E. lia.
Qed.

Lemma unique_entries_sublist (p q : list Face) :
  p `sublist_of` q → unique_entries q → unique_entries p.
Proof.
  intros Hsub [Hr Hn].
  split.
  - apply (sublist_NoDup _ (roll_number <$> q)); [done|].
    by apply fmap_sublist.
  - apply (sublist_NoDup _ (name <$> q)); [done|]. by apply fmap_sublist.
Qed.

Lemma unique_entries_push f p entry :
  unique_entries p → existsb (same_person f) p = false →
  roll_number entry = roll_number f → name entry = name f →
  unique_entries (kept_of (p ++ [entry])).
Proof.
  intros [Hr Hn] Hf Er En. apply same_person_false in Hf as [Hfr Hfn].
  eapply unique_entries_sublist; [apply kept_of_sublist|].
  split; rewrite fmap_app; cbn [fmap list_fmap];
    apply NoDup_app; (split; [done|]);
    (split; [|apply NoDup_singleton]);
    intros x Hx Hx'; apply list_elem_of_singleton in Hx'; subst x; congruence.
Qed.

(** ** Lemmas on stored partitions *)

Lemma all_partitions_alt P st :
  all_partitions P st ↔ ∀ e d p, get_attendance e st !! d = Some p → P p.
Proof.
  unfold all_partitions, get_attendance. split.
  - intros H e d p. destruct (ls_attendance st !! e) as [m|] eqn:E; cbn.
    + by apply (H e m).
    + by rewrite lookup_empty.
  - intros H e m d p Hm Hp. apply (H e d). by rewrite Hm.
Qed.

Lemma get_attendance_set st st' e m e' :
  ls_attendance st' = <[e := m]> (ls_attendance st) →
  get_attendance e' st' = if decide (e = e') then m else get_attendance e' st.
Proof.
  intros H. unfold get_attendance. rewrite H.
  case_decide as He; [subst; by rewrite lookup_insert_eq|].
  by rewrite lookup_insert_ne.
Qed.

Lemma all_partitions_set P st st' e d p :
  all_partitions P st → P p →
  ls_attendance st' = <[e := <[d := p]> (get_attendance e st)]> (ls_attendance st) →
  all_partitions P st'.
Proof.
  rewrite !all_partitions_alt. intros H Hp Hst' e' d' p'.
  rewrite (get_attendance_set _ _ _ _ _ Hst').
  case_decide as He; [subst e'|by apply H].
  destruct (decide (d = d')) as [->|Hd].
  - rewrite lookup_insert_eq. by intros [= <-].
  - rewrite lookup_insert_ne by done. by apply H.
Qed.

Lemma all_partitions_same P st st' :
  ls_attendance st' = ls_attendance st →
  all_partitions P st → all_partitions P st'.
Proof. unfold all_partitions. intros ->. done. Qed.

(** ** Lemmas on [deleteAttendance] *)

(** Either the storage is as before, or the remote end confirmed and
    today's partition of the owner was filtered. *)
Lemma deleteAttendance_cases now remote rollNumber st :
  (deleteAttendance now remote rollNumber st).1.2 = st
  ∨ ∃ e code data_status faces,
      (deleteAttendance now remote rollNumber st).1.1 = true
      ∧ ls_user_email st = Some e
      ∧ remote = HttpResponse code (Some data_status)
      ∧ is_2xx code = true
      ∧ (data_status = JStr "success" ∨ code = 200)
      ∧ get_attendance e st !! isoDate now = Some faces
      ∧ (deleteAttendance now remote rollNumber st).2
        = [PostDeleteAttendance (default "" (ls_token st)) rollNumber]
      ∧ (deleteAttendance now remote rollNumber st).1.2
        = set_attendance e
            (<[isoDate now :=
                 filter (λ face, roll_number face ≠ rollNumber) faces]>
               (get_attendance e st)) st.
Proof.
  unfold deleteAttendance.
  destruct (truthy rollNumber); [|by left]. cbn [negb].
  destruct (ls_user_email st) as [e|] eqn:He; [|by left].
  destruct (truthy_item (Some e) ); [|by left].
  destruct (truthy_item (ls_token st)); [|by left].
  cbn [negb orb]. change (default "" (Some e)) with e.
  destruct remote as [|code [data_status|]]; cbn [axios_post]; [by left| |].
  2:{ destruct (is_2xx code); by left. }
  destruct (is_2xx code) eqn:H2; [|by left].
  destruct (strict_eq data_status (JStr "success") || (code =? 200)) eqn:Hs;
    [|by left].
  cbv zeta.
  destruct (get_attendance e st !! isoDate now) as [faces|] eqn:Hf; [|by left].
  right. exists e, code, data_status, faces. repeat split; try done.
  apply orb_true_iff in Hs as [Hs|Hs].
  - left. by apply bool_decide_eq_true in Hs.
  - right. by apply Z.eqb_eq in Hs.
Qed.

(** ** Lemmas on [cleanupOldData] *)

Lemma nearest_double_exact z :
  - 2 ^ 53 ≤ z ≤ 2 ^ 53 → nearest_double z = z.
Proof.
  intros Hz. unfold nearest_double.
  destruct (decide (Z.abs z = 2 ^ 53)) as [Habs|Habs].
  { assert (z = 2 ^ 53 ∨ z = - 2 ^ 53) as [->| ->] by lia; reflexivity. }
  assert ((Z.log2 (Z.abs z) - 52 <=? 0) = true) as ->; [|done].
  apply Z.leb_le.
  destruct (decide (Z.abs z = 0)) as [->|Hpos]; [done|].
  assert (Z.log2 (Z.abs z) < 53); [|lia].
  apply Z.log2_lt_pow2; lia.
Qed.

Lemma nearest_double_nonpos z : z ≤ 0 → nearest_double z ≤ 0.
Proof.
  intros Hz. unfold nearest_double.
  destruct (Z.log2 (Z.abs z) - 52 <=? 0) eqn:He; [done|].
  apply Z.leb_gt in He.
  assert (z ≠ 0) as Hne.
  { intros Heq. rewrite Heq in He. vm_compute in He. discriminate He. }
  set (ulp := 2 ^ (Z.log2 (Z.abs z) - 52)).
  assert (0 < ulp) as Hulp by (apply Z.pow_pos_nonneg; lia).
  pose proof (Z.div_mod z ulp) as Hdm.
  pose proof (Z.mod_pos_bound z ulp Hulp) as Hb.
  assert (z `div` ulp < 0) as Hlower by nia.
  cbv zeta. repeat destruct (_ <? _); try destruct (Z.even _); nia.
Qed.

(** The comparison of [is_old], without the division. *)
Lemma is_old_rounded now daysToKeep date :
  is_old now daysToKeep date
  = bool_decide (daysToKeep * ms_per_day
                 < nearest_double (now - Date_of_key date)).
Proof.
  unfold is_old, dayDifference.
  generalize (nearest_double (now - Date_of_key date)). intros s.
  destruct (Qle_bool _ _) eqn:E; cbn [negb]; symmetry.
  - apply bool_decide_eq_false. apply Qle_bool_iff in E.
    change ms_per_day with 86400000 in *.
    unfold Qle, Qdiv, Qmult, Qinv, inject_Z in E. cbn in E. lia.
  - apply bool_decide_eq_true.
    assert (¬ (inject_Z s / inject_Z ms_per_day <= inject_Z daysToKeep)%Q)
      as H.
    { intros H. apply Qle_bool_iff in H. congruence. }
    change ms_per_day with 86400000 in *.
    unfold Qle, Qdiv, Qmult, Qinv, inject_Z in H. cbn in H. lia.
Qed.

(** Where the subtraction is exact: the partition's midnight lies more than
    [daysToKeep] days before [now]. *)
Lemma is_old_spec now daysToKeep date :
  - 2 ^ 53 ≤ now - Date_of_key date ≤ 2 ^ 53 →
  is_old now daysToKeep date
  = bool_decide (Date_of_key date + daysToKeep * ms_per_day < now).
Proof.
  intros Hx. rewrite is_old_rounded, nearest_double_exact by done.
  apply bool_decide_ext. lia.
Qed.

(** Dated today or later, and at least one day kept: not old. *)
Lemma is_old_today_or_later now daysToKeep date :
  1 ≤ daysToKeep → isoDate now ≤ date → is_old now daysToKeep date = false.
Proof.
  intros Hdays Hd. rewrite is_old_rounded. apply bool_decide_eq_false.
  pose proof (Z.div_mod now ms_per_day) as Hdm.
  pose proof (Z.mod_pos_bound now ms_per_day) as Hb.
  assert (now - Date_of_key date < ms_per_day) as Hx.
  { unfold Date_of_key, isoDate in *.
    change ms_per_day with 86400000 in *. nia. }
  destruct (decide (- 2 ^ 53 ≤ now - Date_of_key date)) as [Hlow|Hlow].
  - rewrite nearest_double_exact.
    + change ms_per_day with 86400000 in *. nia.
    + change ms_per_day with 86400000 in *. lia.
  - pose proof (nearest_double_nonpos (now - Date_of_key date)) as Hn.
    change ms_per_day with 86400000 in *. lia.
Qed.

(** Dated today, nothing kept, and not at midnight sharp: old. *)
Lemma is_old_today now daysToKeep :
  daysToKeep ≤ 0 → now `mod` ms_per_day ≠ 0 →
  is_old now daysToKeep (isoDate now) = true.
Proof.
  intros Hdays Hmid. rewrite is_old_rounded. apply bool_decide_eq_true.
  pose proof (Z.div_mod now ms_per_day) as Hdm.
  pose proof (Z.mod_pos_bound now ms_per_day) as Hb.
  assert (0 < now - Date_of_key (isoDate now) < ms_per_day) as Hx.
  { unfold Date_of_key, isoDate in *.
    change ms_per_day with 86400000 in *. lia. }
  rewrite nearest_double_exact.
  - change ms_per_day with 86400000 in *. nia.
  - change ms_per_day with 86400000 in *. lia.
Qed.

Lemma cleanup_fold now daysToKeep ks :
  ∀ (m : gmap Z (list Face)) (n : Z),
    NoDup ks → (∀ k, k ∈ ks → is_Some (m !! k)) →
    let r := foldl (cleanup_step now daysToKeep) (m, n) ks in
    (∀ d, r.1 !! d
          = if decide (d ∈ ks ∧ is_old now daysToKeep d = true)
            then None else m !! d)
    ∧ r.2 - n = Z.of_nat (size m) - Z.of_nat (size r.1).
Proof.
  induction ks as [|k ks IH]; intros m n Hnd Hin; cbn [foldl].
  - split; [|cbn; lia]. intros d. case_decide as H; [|done].
    destruct H as [H _]. by apply elem_of_nil in H.
  - apply NoDup_cons in Hnd as [Hk Hnd].
    cbv zeta.
    assert (cleanup_step now daysToKeep (m, n) k
            = if is_old now daysToKeep k then (delete k m, n + 1)
              else (m, n)) as -> by done.
    assert (Hhere : is_Some (m !! k)) by apply Hin, list_elem_of_here.
    assert (Hrest : ∀ k', k' ∈ ks → is_Some (m !! k')).
    { intros k' Hk'. by apply Hin, list_elem_of_further. }
    destruct (is_old now daysToKeep k) eqn:Hold.
    + destruct (IH (delete k m) (n + 1) Hnd) as [IH1 IH2].
      { intros k' Hk'. rewrite lookup_delete_ne; [by apply Hrest|].
        by intros ->. }
      split.
      * intros d. rewrite IH1.
        destruct (decide (d = k)) as [->|Hne].
        -- rewrite lookup_delete_eq.
           rewrite (decide_True (P := k ∈ k :: ks ∧ _));
             [|split; [apply list_elem_of_here|done]].
           by case_decide.
        -- rewrite lookup_delete_ne by done.
           repeat case_decide; try done.
           ++ exfalso. destruct_and!. auto using list_elem_of_further.
           ++ exfalso. destruct_and!.
              match goal with H : d ∈ k :: ks |- _ =>
                apply elem_of_cons in H as [?|?] end; [done|].
              auto.
      * assert (size (delete k m) = pred (size m)) as Hsz
          by by apply map_size_delete_Some.
        assert (size m ≠ 0%nat) as Hpos.
        { apply map_size_ne_0_lookup. by exists k. }
        lia.
    + destruct (IH m n Hnd Hrest) as [IH1 IH2].
      split; [|done].
      intros d. rewrite IH1.
      repeat case_decide; try done.
      * exfalso. destruct_and!. auto using list_elem_of_further.
      * exfalso. destruct_and!.
        match goal with H : d ∈ k :: ks |- _ =>
          apply elem_of_cons in H as [->|?] end; [congruence|].
        auto.
Qed.

(** The partitions [cleanupOldData] leaves to the owner, and the count it
    logs. *)
Lemma cleanupOldData_spec now daysToKeep st e :
  ls_user_email st = Some e → e ≠ "" →
  let r := cleanupOldData now daysToKeep st in
  cl_return r = JUndefined
  ∧ (∀ d, get_attendance e (cl_storage r) !! d
          = if is_old now daysToKeep d then None
            else get_attendance e st !! d)
  ∧ (∀ e', e' ≠ e →
           ls_attendance (cl_storage r) !! e' = ls_attendance st !! e')
  ∧ cl_logged r
    = Some (Z.of_nat (size (get_attendance e st))
            - Z.of_nat (size (get_attendance e (cl_storage r)))).
Proof.
  intros He Hne. unfold cleanupOldData. rewrite He.
  assert (truthy_item (Some e) = true) as ->.
  { cbn. by destruct e. }
  cbn [negb]. change (default "" (Some e)) with e.
  pose proof (cleanup_fold now daysToKeep
                (map_to_list (get_attendance e st)).*1
                (get_attendance e st) 0) as H.
  destruct H as [H1 H2].
  { apply NoDup_fst_map_to_list. }
  { intros k Hk. apply list_elem_of_fmap in Hk as [[k' p] [-> Hk]].
    apply elem_of_map_to_list in Hk. by exists p. }
  destruct (foldl _ _ _) as [m' n'] eqn:Hf. cbn [fst snd] in *.
  cbn [cl_return cl_storage cl_logged].
  assert (get_attendance e (set_attendance e m' st) = m') as Hget.
  { unfold get_attendance, set_attendance. cbn. by rewrite lookup_insert_eq. }
  rewrite Hget. repeat split.
  - intros d. rewrite H1.
    destruct (is_old now daysToKeep d) eqn:Hold.
    + case_decide as Hd; [done|].
      destruct (get_attendance e st !! d) as [p|] eqn:Hp; [|done].
      exfalso. apply Hd. split; [|done].
      apply list_elem_of_fmap. exists (d, p). split; [done|].
      by apply elem_of_map_to_list.
    + case_decide as Hd; [|done]. destruct Hd as [_ Hd]. congruence.
  - intros e' He'. unfold set_attendance. cbn.
    by rewrite lookup_insert_ne.
  - f_equal. lia.
Qed.

Lemma cleanupOldData_all_partitions P now daysToKeep st :
  all_partitions P st →
  all_partitions P (cl_storage (cleanupOldData now daysToKeep st)).
Proof.
  intros H.
  destruct (ls_user_email st) as [e|] eqn:He.
  2:{ unfold cleanupOldData. by rewrite He. }
  destruct (decide (e = "")) as [->|Hne].
  { unfold cleanupOldData. by rewrite He. }
  destruct (cleanupOldData_spec now daysToKeep st e He Hne)
    as (_ & Hown & Hother & _).
  apply all_partitions_alt. intros e' d p.
  destruct (decide (e' = e)) as [->|He'].
  - rewrite Hown. destruct (is_old now daysToKeep d); [done|].
    revert d p. by apply all_partitions_alt.
  - unfold get_attendance. rewrite (Hother e' He').
    revert e' d p He'. intros e' d p _. revert e' d p.
    by apply all_partitions_alt.
Qed.

(** An invariant of every partition that sublists inherit and that the
    entry pushed by this operation keeps is kept by the operation. *)
Lemma run_op_all_partitions_at (P : list Face → Prop) op st :
  (∀ p q, p `sublist_of` q → P q → P p) →
  (∀ now rf f p, op = OpAdd now rf →
                 P p → existsb (same_person f) p = false →
                 P (kept_of (p ++ [newEntry now f]))) →
  P [] →
  all_partitions P st → all_partitions P (run_op st op).
Proof.
  intros Hsub Hpush Hnil Hst.
  destruct op as [now rf|now|now remote roll|now days]; cbn [run_op].
  - destruct (addFace_cases now rf st) as [[_ Hsame]|Hadd].
    + by apply (all_partitions_same P st).
    + destruct Hadd as (f & e & _ & _ & _ & _ & Hnew & _ & Hatt).
      eapply all_partitions_set; [exact Hst| |exact Hatt].
      apply (Hpush now rf); [done| |done].
      unfold partition_of.
      destruct (get_attendance e st !! isoDate now) as [p|] eqn:Hp; [|done].
      revert Hp. by apply all_partitions_alt.
  - unfold getTodaysFaces.
    by destruct (negb (truthy_item (ls_user_email st))).
  - destruct (deleteAttendance_cases now remote roll st) as [->|Hdel]; [done|].
    destruct Hdel as (e & code & ds & faces & _ & _ & _ & _ & _ & Hf & _ & ->).
    eapply all_partitions_set; [exact Hst| |done].
    eapply Hsub; [apply sublist_filter|].
    revert Hf. by apply all_partitions_alt.
  - by apply cleanupOldData_all_partitions.
Qed.

(** An invariant of every partition that sublists inherit and that a
    pushed entry keeps is an invariant of the store. *)
Lemma run_op_all_partitions (P : list Face → Prop) :
  (∀ p q, p `sublist_of` q → P q → P p) →
  (∀ now f p, P p → existsb (same_person f) p = false →
              P (kept_of (p ++ [newEntry now f]))) →
  P [] →
  ∀ op st, all_partitions P st → all_partitions P (run_op st op).
Proof.
  intros Hsub Hpush Hnil op st.
  apply run_op_all_partitions_at; [done| |done].
  intros now rf f p _. apply Hpush.
Qed.

Lemma run_ops_all_partitions (P : list Face → Prop) :
  (∀ p q, p `sublist_of` q → P q → P p) →
  (∀ now f p, P p → existsb (same_person f) p = false →
              P (kept_of (p ++ [newEntry now f]))) →
  P [] →
  ∀ ops st, all_partitions P st → all_partitions P (run_ops ops st).
Proof.
  intros Hsub Hpush Hnil ops.
  induction ops as [|op ops IH]; intros st Hst; [done|].
  cbn [run_ops foldl]. apply IH. by apply run_op_all_partitions.
Qed.

Lemma add_all_run_ops calls st :
  add_all calls st = run_ops ((λ call, OpAdd call.1 call.2) <$> calls) st.
Proof.
  revert st. induction calls as [|c calls IH]; intros st; [done|].
  cbn. apply IH.
Qed.

Lemma unique_entries_nil : unique_entries [].
Proof. split; constructor. Qed.

(** ** Lemmas on [Array_sort] *)

Lemma sort_insert_Permutation {A} (cmp : A → A → option Z) x l :
  sort_insert cmp x l ≡ₚ x :: l.
Proof.
  induction l as [|y l IH]; cbn [sort_insert]; [done|].
  destruct (0 <? SortCompare cmp x y); [|done].
  rewrite IH. apply Permutation_swap.
Qed.

Lemma Array_sort_Permutation {A} (cmp : A → A → option Z) l :
  Array_sort cmp l ≡ₚ l.
Proof.
  induction l as [|x l IH]; [done|].
  cbn [Array_sort foldr]. rewrite sort_insert_Permutation.
  by apply Permutation_skip.
Qed.




(** ** The attendance store *)

Lemma resolve_user_logged_in st e :
  ls_user_email st = Some e → e ≠ "" → resolve_user st = (Some e, st).
Proof.
  intros He Hne. unfold resolve_user. rewrite He.
  assert (truthy_item (Some e) = true) as -> by (cbn; by destruct e).
  done.
Qed.

Lemma resolve_user_other_items st :
  ls_user (resolve_user st).2 = ls_user st
  ∧ ls_token (resolve_user st).2 = ls_token st.
Proof.
  unfold resolve_user, setUserEmail.
  destruct (truthy_item (ls_user_email st)); [done|].
  destruct (ls_user st) as [u|] eqn:Hu; [|done].
  by destruct (truthy_item (email u)).
Qed.

(** [addFace] for a logged-in owner and a well-formed face. *)
Lemma addFace_logged_in now f st e :
  ls_user_email st = Some e → e ≠ "" →
  truthy (name f) = true → truthy (roll_number f) = true →
  addFace now (Some f) st
  = if existsb (same_person f) (partition_of e (isoDate now) st)
    then (None, st)
    else (Some (newEntry now f),
          set_attendance e
            (<[isoDate now :=
                 kept_of (partition_of e (isoDate now) st ++ [newEntry now f])]>
               (get_attendance e st)) st).
Proof.
  intros He Hne Hn Hr. unfold addFace. rewrite Hn, Hr. cbn [negb orb].
  rewrite (resolve_user_logged_in st e He Hne).
  assert (truthy_item (Some e) = true) as -> by (cbn; by destruct e).
  cbn [negb]. change (default "" (Some e)) with e. cbv zeta.
  unfold partition_of.
  destruct (get_attendance e st !! isoDate now) as [p|] eqn:Hp.
  - rewrite Hp. cbn [default from_option id].
    by destruct (existsb (same_person f) p).
  - rewrite lookup_insert_eq. cbn [default from_option id existsb negb].
    by rewrite insert_insert_eq.
Qed.

Lemma addFace_other_items now rf st :
  ls_user (addFace now rf st).2 = ls_user st
  ∧ ls_token (addFace now rf st).2 = ls_token st.
Proof.
  unfold addFace. destruct rf as [f|]; [|done].
  destruct (negb (truthy (name f)) || negb (truthy (roll_number f))); [done|].
  pose proof (resolve_user_other_items st) as [Hu Ht].
  destruct (resolve_user st) as [userEmail st1]. cbn [fst snd] in *.
  destruct (negb (truthy_item userEmail)); [done|]. cbv zeta.
  by destruct (negb (existsb _ _)).
Qed.

(** C9. A call of [addFace] whose argument is absent, or has no truthy
    [name], or no truthy [roll_number], returns nothing and leaves the whole
    storage as it was: the check comes first, before the owner is looked up
    (so not even [user_email] is written) and before any partition is
    read. *)
Theorem addFace_invalid_input_unchanged now (recognizedFace : option Face) st :
  (∀ f, recognizedFace = Some f →
        truthy (name f) = false ∨ truthy (roll_number f) = false) →
  addFace now recognizedFace st = (None, st).
Proof.
  intros H. unfold addFace. destruct recognizedFace as [f|]; [|done].
  by destruct (H f eq_refl) as [-> | ->]; [|rewrite orb_true_r].
Qed.

(** C10. A call of [addFace] changes at most the partition of the current
    owner for today's date: every other date key of every owner keeps its
    value, the stored map of every other owner is the same item as before,
    and so are the [user] and [token] items. *)
Theorem addFace_frame now recognizedFace st :
  (∀ e d, d ≠ isoDate now →
          get_attendance e (addFace now recognizedFace st).2 !! d
          = get_attendance e st !! d)
  ∧ (∀ e, (resolve_user st).1 ≠ Some e →
          ls_attendance (addFace now recognizedFace st).2 !! e
          = ls_attendance st !! e)
  ∧ ls_user (addFace now recognizedFace st).2 = ls_user st
  ∧ ls_token (addFace now recognizedFace st).2 = ls_token st.
Proof.
  split_and!; try apply addFace_other_items.
  - intros e d Hd.
    destruct (addFace_cases now recognizedFace st) as [[_ Hsame]|Hadd].
    + unfold get_attendance. by rewrite Hsame.
    + destruct Hadd as (f & e' & _ & _ & _ & _ & _ & _ & Hatt).
      rewrite (get_attendance_set _ _ _ _ e Hatt).
      case_decide as He; [subst e'|done]. by rewrite lookup_insert_ne.
  - intros e He.
    destruct (addFace_cases now recognizedFace st) as [[_ Hsame]|Hadd].
    + by rewrite Hsame.
    + destruct Hadd as (f & e' & _ & _ & _ & He' & _ & _ & Hatt).
      rewrite Hatt. rewrite lookup_insert_ne; [done|]. congruence.
Qed.

Lemma partition_of_set e d p st :
  partition_of e d (set_attendance e (<[d := p]> (get_attendance e st)) st) = p.
Proof.
  unfold partition_of.
  rewrite (get_attendance_set st _ e (<[d := p]> (get_attendance e st)) e)
    by done.
  rewrite decide_True by done. by rewrite lookup_insert_eq.
Qed.

Lemma unique_entries_partition_of e d st :
  all_partitions unique_entries st → unique_entries (partition_of e d st).
Proof.
  intros H. unfold partition_of.
  destruct (get_attendance e st !! d) as [p|] eqn:Hp.
  - revert Hp. by apply all_partitions_alt.
  - apply unique_entries_nil.
Qed.

(** C1. Runs of [addFace] keep every day-partition free of two entries with
    the same roll number and of two entries with the same name, and so a
    store that starts without attendance data only ever holds such
    partitions.  A face that shares its roll number or its name with an
    entry of today's partition is skipped: the call returns nothing and the
    attendance data stays as it was.  Adding Alice with roll "1" and then
    Alice with roll "2" on the same day skips the second, and
    [getTodaysFaces] has length 1. *)
Theorem addFace_no_duplicates :
  (∀ calls st, all_partitions unique_entries st →
               all_partitions unique_entries (add_all calls st))
  ∧ (∀ calls st e d, ls_attendance st = ∅ →
                     unique_entries (partition_of e d (add_all calls st)))
  ∧ (∀ now f st e face,
       (resolve_user st).1 = Some e →
       face ∈ partition_of e (isoDate now) st →
       roll_number face = roll_number f ∨ name face = name f →
       (addFace now (Some f) st).1 = None
       ∧ ls_attendance (addFace now (Some f) st).2 = ls_attendance st)
  ∧ (∀ st e now1 now2,
       ls_user_email st = Some e → e ≠ "" →
       partition_of e (isoDate now1) st = [] →
       isoDate now2 = isoDate now1 →
       let st1 := (addFace now1 (Some alice_1) st).2 in
       (addFace now2 (Some alice_2) st1).1 = None
       ∧ length (getTodaysFaces now2 (addFace now2 (Some alice_2) st1).2).1
         = 1%nat).
Proof.
  assert (Hinv : ∀ calls st, all_partitions unique_entries st →
                             all_partitions unique_entries (add_all calls st)).
  { intros calls st Hst. rewrite add_all_run_ops.
    apply run_ops_all_partitions; try done.
    - intros p q. apply unique_entries_sublist.
    - intros now f p Hp Hf. by eapply unique_entries_push.
    - apply unique_entries_nil. }
  split_and!.
  - exact Hinv.
  - intros calls st e d Hempty. apply unique_entries_partition_of, Hinv.
    intros e' m d' p. rewrite Hempty. by rewrite lookup_empty.
  - intros now f st e face He Hin Heq.
    destruct (addFace_cases now (Some f) st) as [Hskip|Hadd]; [done|].
    destruct Hadd as (f' & e' & [= <-] & _ & _ & He' & Hno & _).
    assert (e' = e) as -> by congruence.
    by rewrite (same_person_true f _ face Hin Heq) in Hno.
  - intros st e now1 now2 He Hne Hp Hday. cbv zeta.
    rewrite (addFace_logged_in now1 alice_1 st e He Hne eq_refl eq_refl).
    rewrite Hp. cbn [existsb app snd].
    set (entry := newEntry now1 alice_1).
    set (st1 := set_attendance e _ st).
    assert (partition_of e (isoDate now2) st1 = [entry]) as Hp1.
    { rewrite Hday. apply partition_of_set. }
    rewrite (addFace_logged_in now2 alice_2 st1 e He Hne eq_refl eq_refl).
    rewrite Hp1. cbn [existsb fst snd]. 
    assert (same_person alice_2 entry = true) as -> by done.
    cbn [orb fst snd]. split; [done|].
    unfold getTodaysFaces.
    assert (ls_user_email st1 = Some e) as -> by done.
    assert (truthy_item (Some e) = true) as -> by (cbn; by destruct e).
    cbn [negb fst]. change (default "" (Some e)) with e.
    rewrite Array_sort_Permutation.
    fold (partition_of e (isoDate now2) st1). by rewrite Hp1.
Qed.

(** C2. Runs of the store's operations keep every day-partition at 50
    entries or fewer, so a store that starts without attendance data never
    holds a longer one.  An [addFace] that adds to a partition of 50 entries
    drops exactly its first, oldest-inserted, entry and appends the new one;
    below 50 it only appends. *)
Theorem partitions_capped_at_50 :
  (∀ ops st, all_partitions at_most_50 st →
             all_partitions at_most_50 (run_ops ops st))
  ∧ (∀ ops st e d, ls_attendance st = ∅ →
                   (length (partition_of e d (run_ops ops st)) ≤ 50)%nat)
  ∧ (∀ now f st e entry,
       (resolve_user st).1 = Some e →
       length (partition_of e (isoDate now) st) = 50%nat →
       (addFace now (Some f) st).1 = Some entry →
       partition_of e (isoDate now) (addFace now (Some f) st).2
       = drop 1 (partition_of e (isoDate now) st) ++ [entry])
  ∧ (∀ now f st e entry,
       (resolve_user st).1 = Some e →
       (length (partition_of e (isoDate now) st) < 50)%nat →
       (addFace now (Some f) st).1 = Some entry →
       partition_of e (isoDate now) (addFace now (Some f) st).2
       = partition_of e (isoDate now) st ++ [entry]).
Proof.
  assert (Hpart : ∀ now f st e entry,
    (resolve_user st).1 = Some e →
    (addFace now (Some f) st).1 = Some entry →
    partition_of e (isoDate now) (addFace now (Some f) st).2
    = kept_of (partition_of e (isoDate now) st ++ [entry])).
  { intros now f st e entry He Hret.
    destruct (addFace_cases now (Some f) st) as [[Hnone _]|Hadd]; [congruence|].
    destruct Hadd as (f' & e' & [= <-] & _ & _ & He' & _ & Hentry & Hatt).
    assert (e' = e) as -> by congruence.
    assert (entry = newEntry now f) as -> by congruence.
    unfold partition_of at 1.
    rewrite (get_attendance_set _ _ _ _ e Hatt).
    rewrite decide_True by done. by rewrite lookup_insert_eq. }
  assert (Hinv : ∀ ops st, all_partitions at_most_50 st →
                           all_partitions at_most_50 (run_ops ops st)).
  { apply run_ops_all_partitions.
    - intros p q Hsub Hq. apply sublist_length in Hsub.
      unfold at_most_50 in *. lia.
    - intros now f p _ _. apply kept_of_length.
    - unfold at_most_50. cbn. lia. }
  split_and!.
  - exact Hinv.
  - intros ops st e d Hempty. unfold partition_of.
    destruct (get_attendance e (run_ops ops st) !! d) as [p|] eqn:Hp;
      [|cbn; lia].
    assert (all_partitions at_most_50 (run_ops ops st)) as Hall.
    { apply Hinv. intros e' m d' p'. rewrite Hempty. by rewrite lookup_empty. }
    rewrite all_partitions_alt in Hall. by apply (Hall e d).
  - intros now f st e entry He Hlen Hret. rewrite (Hpart _ _ _ _ _ He Hret).
    unfold kept_of, slice_last. rewrite length_app, Hlen. cbn.
    destruct (partition_of e (isoDate now) st); [done|]. by cbn; rewrite drop_0.
  - intros now f st e entry He Hlen Hret. rewrite (Hpart _ _ _ _ _ He Hret).
    unfold kept_of. rewrite length_app. cbn [length].
    destruct (50 <? _)%nat eqn:E; [|done]. apply Nat.ltb_lt in E. lia.
Qed.




(** C3, as the code has it.  [deleteAttendance] changes the storage only
    after the deletion request was sent and answered 2xx with a body, with
    HTTP status 200 or with [status] "success" in the body; it then returns
    [true].  A 200 answer counts as the confirmation whatever its body
    reports.  When the remote call fails, by a network failure or by a
    status outside 2xx, [deleteAttendance] returns [false] and the storage,
    and with it what [getTodaysFaces] returns, is what it was.  The same
    holds for a 2xx answer with no body, and for one with a status other
    than 200 whose body does not report "success". *)
Theorem deleteAttendance_remote_first now remote rollNumber st :
  (remote_failed remote →
     (deleteAttendance now remote rollNumber st).1 = (false, st)
     ∧ ∀ t, (getTodaysFaces t (deleteAttendance now remote rollNumber st).1.2).1
            = (getTodaysFaces t st).1)
  ∧ ((deleteAttendance now remote rollNumber st).1.2 ≠ st →
     ∃ code data_status,
       remote = HttpResponse code (Some data_status)
       ∧ is_2xx code = true
       ∧ (data_status = JStr "success" ∨ code = 200)
       ∧ (deleteAttendance now remote rollNumber st).2
         = [PostDeleteAttendance (default "" (ls_token st)) rollNumber]
       ∧ (deleteAttendance now remote rollNumber st).1.1 = true)
  ∧ (∀ code data,
       remote = HttpResponse code data → is_2xx code = true →
       data = None ∨ (code ≠ 200 ∧ data ≠ Some (JStr "success")) →
       (deleteAttendance now remote rollNumber st).1 = (false, st)).
Proof.
  split_and!.
  - intros Hfail.
    assert ((deleteAttendance now remote rollNumber st).1 = (false, st)) as H.
    { unfold deleteAttendance.
      destruct (negb (truthy rollNumber)); [done|].
      destruct (negb (truthy_item (ls_user_email st))
                || negb (truthy_item (ls_token st))); [done|].
      destruct remote as [|code data]; cbn [axios_post remote_failed] in *;
        [done|].
      by rewrite Hfail. }
    split; [done|]. intros t. by rewrite H.
  - intros Hchanged.
    destruct (deleteAttendance_cases now remote rollNumber st) as [Hsame|Hdel];
      [done|].
    destruct Hdel as (e & code & ds & faces & Hret & _ & Hrem & H2 & Hok & _
                      & Hsent & _).
    by exists code, ds.
  - intros code data -> H2 Hnot. unfold deleteAttendance.
    destruct (negb (truthy rollNumber)); [done|].
    destruct (negb (truthy_item (ls_user_email st))
              || negb (truthy_item (ls_token st))); [done|].
    cbn [axios_post]. rewrite H2.
    destruct data as [data_status|]; [|done].
    destruct Hnot as [?|[Hcode Hstatus]]; [done|].
    assert (strict_eq data_status (JStr "success") = false) as ->.
    { apply bool_decide_eq_false. congruence. }
    by apply Z.eqb_neq in Hcode as ->.
Qed.

(** C6, as the code has it.  For the logged-in owner, and for stored dates
    and an instant between which the code's subtraction is exact (they are
    at most 2^53 ms, some 285000 years, apart), [cleanupOldData] deletes
    exactly the day-partitions whose date, taken at midnight UTC, lies more
    than [daysToKeep] days before the current instant, and leaves every
    other partition, and every other owner's data, as it was.  It writes
    the number of partitions it removed to the console and returns nothing.
    With [daysToKeep = 7] a partition dated 8 days before today goes and
    one dated 6 days before today stays. *)
Theorem cleanupOldData_purges now daysToKeep st e :
  ls_user_email st = Some e → e ≠ "" →
  (∀ d, is_Some (get_attendance e st !! d) → difference_exact now d) →
  let r := cleanupOldData now daysToKeep st in
  (∀ d, get_attendance e (cl_storage r) !! d
        = if bool_decide (Date_of_key d + daysToKeep * ms_per_day < now)
          then None else get_attendance e st !! d)
  ∧ (∀ e', e' ≠ e →
           ls_attendance (cl_storage r) !! e' = ls_attendance st !! e')
  ∧ cl_logged r
    = Some (Z.of_nat (size (get_attendance e st))
            - Z.of_nat (size (get_attendance e (cl_storage r))))
  ∧ cl_return r = JUndefined
  ∧ (daysToKeep = 7 →
     get_attendance e (cl_storage r) !! (isoDate now - 8) = None
     ∧ get_attendance e (cl_storage r) !! (isoDate now - 6)
       = get_attendance e st !! (isoDate now - 6)).
Proof.
  intros He Hne Hexact r.
  destruct (cleanupOldData_spec now daysToKeep st e He Hne)
    as (Hret & Hown & Hother & Hlog).
  fold r in Hret, Hown, Hother, Hlog.
  assert (Hown' : ∀ d, get_attendance e (cl_storage r) !! d
        = if bool_decide (Date_of_key d + daysToKeep * ms_per_day < now)
          then None else get_attendance e st !! d).
  { intros d. rewrite Hown.
    destruct (get_attendance e st !! d) as [p|] eqn:Hp.
    - rewrite is_old_spec; [done|].
      by apply (Hexact d).
    - by destruct (is_old _ _ _), (bool_decide _). }
  split_and!; try done.
  - intros ->. rewrite !Hown'.
    unfold Date_of_key, isoDate.
    pose proof (Z.div_mod now ms_per_day) as Hdm.
    pose proof (Z.mod_pos_bound now ms_per_day) as Hb.
    change ms_per_day with 86400000 in *.
    rewrite bool_decide_eq_true_2 by lia.
    by rewrite bool_decide_eq_false_2 by lia.
Qed.

(** ** The capture throttle *)

Lemma tryAcquire_Some webcamMounted now c c1 :
  tryAcquire webcamMounted now c = Some c1 → c1 = set_recognizing true c.
Proof.
  unfold tryAcquire.
  destruct (isRecognizingRef c); [done|].
  destruct (_ <? _); [done|].
  destruct (negb _); [done|]. by intros [= <-].
Qed.

(** The run records a recognition exactly in the branch [submitted] names. *)
Lemma try_recognize_lastRecognitionRef env getScreenshot c :
  lastRecognitionRef (try_recognize env getScreenshot c)
  = if truthy_item getScreenshot && env_blob env
       && truthy_item (ls_token (cam_storage c))
       && match axios_post (env_remote env) with
          | AxResolved _ (BodyArray _) => true
          | _ => false
          end
    then env_now env else lastRecognitionRef c.
Proof.
  unfold try_recognize.
  destruct (truthy_item getScreenshot); [|done].
  destruct (env_blob env); [|done].
  destruct (truthy_item (ls_token (cam_storage c))); [|done].
  cbn [negb andb].
  destruct (axios_post (env_remote env)) as [code [items|s e]|code data|];
    try done.
  by destruct data.
Qed.

Lemma try_recognize_no_token env getScreenshot c :
  truthy_item (ls_token (cam_storage c)) = false →
  cam_network (try_recognize env getScreenshot c) = cam_network c.
Proof.
  intros Htok. unfold try_recognize. rewrite Htok.
  destruct (negb (truthy_item getScreenshot)); [done|].
  by destruct (negb (env_blob env)).
Qed.

(** C4. [tryAcquire] denies whenever an attempt is in flight, whatever the
    time, and denies whenever none is in flight and fewer than 10000 ms have
    passed since the last recorded recognition; a denied
    [captureAndRecognize] changes nothing.  With no attempt in flight and
    the last recognition recorded at time 0, as after a run that started at
    time 0 and recorded its recognition, an attempt at 9999 is denied and an
    attempt at 10000, with the webcam mounted, is permitted. *)
Theorem tryAcquire_denies :
  (∀ webcamMounted now c,
     isRecognizingRef c = true → tryAcquire webcamMounted now c = None)
  ∧ (∀ webcamMounted now c,
       isRecognizingRef c = false → now - lastRecognitionRef c < 10000 →
       tryAcquire webcamMounted now c = None)
  ∧ (∀ env c,
       tryAcquire (bool_decide (is_Some (env_webcam env))) (env_now env) c
       = None →
       captureAndRecognize env c = c)
  ∧ (∀ c webcamMounted,
       isRecognizingRef c = false → lastRecognitionRef c = 0 →
       tryAcquire webcamMounted 9999 c = None
       ∧ tryAcquire true 10000 c = Some (set_recognizing true c))
  ∧ (∀ env c webcamMounted,
       env_now env = 0 → submitted env c = true →
       tryAcquire webcamMounted 9999 (captureAndRecognize env c) = None
       ∧ tryAcquire true 10000 (captureAndRecognize env c)
         = Some (set_recognizing true (captureAndRecognize env c))).
Proof.
  assert (Hedge : ∀ c webcamMounted,
       isRecognizingRef c = false → lastRecognitionRef c = 0 →
       tryAcquire webcamMounted 9999 c = None
       ∧ tryAcquire true 10000 c = Some (set_recognizing true c)).
  { intros c wm Hflag Hlast. unfold tryAcquire. by rewrite Hflag, Hlast. }
  split_and!.
  - intros wm now c H. unfold tryAcquire. by rewrite H.
  - intros wm now c H Hlt. unfold tryAcquire. rewrite H.
    by apply Z.ltb_lt in Hlt as ->.
  - intros env c H. unfold captureAndRecognize. by rewrite H.
  - exact Hedge.
  - intros env c wm Hnow Hsub. apply Hedge.
    + unfold submitted, captureAndRecognize in *.
      by destruct (tryAcquire _ _ c).
    + unfold submitted, captureAndRecognize in *.
      destruct (tryAcquire _ _ c) as [c1|] eqn:Hacq; [|done].
      assert (cam_storage c1 = cam_storage c) as Hst.
      { by rewrite (tryAcquire_Some _ _ _ _ Hacq). }
      cbn [set_recognizing lastRecognitionRef].
      by rewrite try_recognize_lastRecognitionRef, Hst, Hsub.
Qed.

(** C5. A run of [captureAndRecognize] that got past the throttle ends with
    the exclusivity flag (the ref and the React state) reset, whichever way
    the attempt went.  [lastRecognitionRef] becomes the time read on entry
    exactly when the request was sent and answered 2xx with an array; every
    other run, denied or failed, leaves it as it was. *)
Theorem captureAndRecognize_releases env c :
  (is_Some (tryAcquire (bool_decide (is_Some (env_webcam env))) (env_now env) c)
   → isRecognizingRef (captureAndRecognize env c) = false
     ∧ isRecognizing (captureAndRecognize env c) = false)
  ∧ lastRecognitionRef (captureAndRecognize env c)
    = (if submitted env c then env_now env else lastRecognitionRef c)
  ∧ (submitted env c = false →
     lastRecognitionRef (captureAndRecognize env c) = lastRecognitionRef c).
Proof.
  assert (Hlast : lastRecognitionRef (captureAndRecognize env c)
    = (if submitted env c then env_now env else lastRecognitionRef c)).
  { unfold submitted, captureAndRecognize.
    destruct (tryAcquire _ _ c) as [c1|] eqn:Hacq; [|done].
    assert (cam_storage c1 = cam_storage c
            ∧ lastRecognitionRef c1 = lastRecognitionRef c) as [Hst Hl].
    { by rewrite (tryAcquire_Some _ _ _ _ Hacq). }
    cbn [set_recognizing lastRecognitionRef].
    by rewrite try_recognize_lastRecognitionRef, Hst, Hl. }
  split_and!.
  - intros [c1 Hacq]. unfold captureAndRecognize. by rewrite Hacq.
  - exact Hlast.
  - intros Hsub. by rewrite Hlast, Hsub.
Qed.

(** C7. With no token in the storage, a run of [captureAndRecognize] sends
    no request: the list of requests sent, and so their count, is as
    before.  When the run got past the throttle and has its frame, it ends
    at the token check: the only signal is the error toast asking to log in
    again, and neither the storage nor [lastRecognitionRef] changes. *)
Theorem no_token_no_request env c :
  truthy_item (ls_token (cam_storage c)) = false →
  cam_network (captureAndRecognize env c) = cam_network c
  ∧ length (cam_network (captureAndRecognize env c)) = length (cam_network c)
  ∧ (is_Some (tryAcquire (bool_decide (is_Some (env_webcam env)))
                (env_now env) c) →
     truthy_item (default None (env_webcam env)) = true →
     env_blob env = true →
     cam_toasts (captureAndRecognize env c)
     = cam_toasts c
       ++ [ToastDismiss;
           ToastError
             (JStr "No authentication token found. Please log in again.")]
     ∧ cam_storage (captureAndRecognize env c) = cam_storage c
     ∧ lastRecognitionRef (captureAndRecognize env c) = lastRecognitionRef c).
Proof.
  intros Htok.
  assert (Hnet : cam_network (captureAndRecognize env c) = cam_network c).
  { unfold captureAndRecognize.
    destruct (tryAcquire _ _ c) as [c1|] eqn:E; [|done].
    rewrite (tryAcquire_Some _ _ _ _ E). cbn [set_recognizing cam_network].
    by rewrite try_recognize_no_token. }
  split_and!; [done|by rewrite Hnet|].
  intros [c1 E] Hshot Hblob. unfold captureAndRecognize. rewrite E.
  rewrite (tryAcquire_Some _ _ _ _ E). unfold try_recognize.
  rewrite Hshot, Hblob. cbn [negb set_recognizing cam_storage].
  by rewrite Htok.
Qed.

(** ** More on the attendance store *)

Lemma resolve_user_owner st e :
  (resolve_user st).1 = Some e →
  ls_user_email (resolve_user st).2 = Some e ∧ e ≠ "".
Proof.
  unfold resolve_user, setUserEmail.
  destruct (truthy_item (ls_user_email st)) eqn:Ht.
  - cbn. intros He. split; [done|]. rewrite He in Ht. by intros ->.
  - destruct (ls_user st) as [u|]; [|done].
    destruct (truthy_item (email u)) eqn:Hu; [|done].
    cbn. intros He. rewrite He in *. split; [done|]. by intros ->.
Qed.

Lemma truthy_item_Some e : e ≠ "" → truthy_item (Some e) = true.
Proof. intros He. cbn. by destruct e. Qed.

Lemma resolve_user_again st :
  resolve_user (resolve_user st).2 = resolve_user st.
Proof.
  destruct (resolve_user st) as [u st1] eqn:Hres. cbn [snd].
  destruct (resolve_user_truthy st) as [Ht|Hn]; rewrite Hres in *; cbn in *.
  - destruct u as [e|]; [|done].
    destruct (resolve_user_owner st e) as [He Hne]; [by rewrite Hres|].
    rewrite Hres in He. cbn in He.
    by rewrite (resolve_user_logged_in st1 e He Hne).
  - subst u. revert Hres. unfold resolve_user, setUserEmail.
    destruct (truthy_item (ls_user_email st)) eqn:Ht.
    { intros [= Hu <-]. by rewrite Hu in Ht. }
    destruct (ls_user st) as [usr|] eqn:Husr.
    + destruct (truthy_item (email usr)) eqn:Hue.
      * intros [= Hu _]. rewrite Hu in Hue. done.
      * intros [= <-]. by rewrite Ht, Husr, Hue.
    + intros [= <-]. by rewrite Ht, Husr.
Qed.

(** [addFace], case by case. *)
Lemma addFace_eq now f st :
  addFace now (Some f) st
  = if negb (truthy (name f)) || negb (truthy (roll_number f)) then (None, st)
    else match (resolve_user st).1 with
         | None => (None, (resolve_user st).2)
         | Some e =>
             if existsb (same_person f) (partition_of e (isoDate now) st)
             then (None, (resolve_user st).2)
             else (Some (newEntry now f),
                   set_attendance e
                     (<[isoDate now :=
                          kept_of (partition_of e (isoDate now) st
                                   ++ [newEntry now f])]>
                        (get_attendance e st))
                     (resolve_user st).2)
         end.
Proof.
  destruct (negb (truthy (name f)) || negb (truthy (roll_number f))) eqn:Hv.
  { unfold addFace. by rewrite Hv. }
  apply orb_false_iff in Hv as [Hn Hr].
  apply negb_false_iff in Hn, Hr.
  unfold addFace. rewrite Hn, Hr. cbn [negb orb].
  pose proof (resolve_user_attendance st) as Hatt.
  pose proof (resolve_user_owner st) as Hown.
  destruct (resolve_user st) as [u st1]. cbn [fst snd] in *.
  destruct u as [e|]; [|done].
  destruct (Hown e eq_refl) as [_ Hne].
  rewrite (truthy_item_Some e Hne). cbn [negb].
  change (default "" (Some e)) with e. cbv zeta.
  assert (get_attendance e st1 = get_attendance e st) as ->.
  { unfold get_attendance. by rewrite Hatt. }
  unfold partition_of.
  destruct (get_attendance e st !! isoDate now) as [p|] eqn:Hlook.
  - rewrite Hlook. cbn [default from_option id].
    by destruct (existsb (same_person f) p).
  - rewrite lookup_insert_eq. cbn [default from_option id existsb negb].
    by rewrite insert_insert_eq.
Qed.

Lemma kept_of_last (p : list Face) (x : Face) : x ∈ kept_of (p ++ [x]).
Proof.
  unfold kept_of, slice_last.
  destruct (50 <? length (p ++ [x]))%nat; [|set_solver].
  rewrite length_app. cbn [length].
  replace (length p + 1 - 50)%nat with (length p - 49)%nat by lia.
  rewrite drop_app_le by lia. set_solver.
Qed.

Lemma getTodaysFaces_logged_in now st e :
  ls_user_email st = Some e → e ≠ "" →
  (getTodaysFaces now st).1 ≡ₚ partition_of e (isoDate now) st.
Proof.
  intros He Hne. unfold getTodaysFaces. rewrite He, (truthy_item_Some e Hne).
  cbn [negb fst]. apply Array_sort_Permutation.
Qed.

(** X1. What [addFace] returns as added is listed: on the same day
    [getTodaysFaces] contains the entry, whether the owner came from
    [user_email] or was found by [setUserEmail] in the call. *)
Theorem addFace_then_listed now now' recognizedFace st entry :
  (addFace now recognizedFace st).1 = Some entry →
  isoDate now' = isoDate now →
  entry ∈ (getTodaysFaces now' (addFace now recognizedFace st).2).1.
Proof.
  intros Hret Hday. destruct recognizedFace as [f|]; [|done].
  rewrite addFace_eq in *.
  destruct (negb (truthy (name f)) || negb (truthy (roll_number f))); [done|].
  destruct ((resolve_user st).1) as [e|] eqn:He; [|done].
  destruct (resolve_user_owner st e He) as [Hmail Hne].
  destruct (existsb (same_person f) (partition_of e (isoDate now) st));
    [done|].
  cbn [fst snd] in *. injection Hret as <-.
  rewrite getTodaysFaces_logged_in with (e := e); [|done..].
  rewrite Hday.
  pose proof (partition_of_set e (isoDate now)
    (kept_of (partition_of e (isoDate now) st ++ [newEntry now f]))
    (resolve_user st).2) as Hp.
  assert (get_attendance e (resolve_user st).2 = get_attendance e st) as Hg.
  { unfold get_attendance. by rewrite resolve_user_attendance. }
  rewrite Hg in Hp. rewrite Hp. apply kept_of_last.
Qed.

(** X2. Adding the same face again on the same day does nothing: the second
    call returns nothing and leaves the storage exactly as the first call
    left it. *)
Theorem addFace_twice now1 now2 recognizedFace st :
  isoDate now2 = isoDate now1 →
  addFace now2 recognizedFace (addFace now1 recognizedFace st).2
  = (None, (addFace now1 recognizedFace st).2).
Proof.
  intros Hday. destruct recognizedFace as [f|]; [|done].
  rewrite (addFace_eq now1).
  destruct (negb (truthy (name f)) || negb (truthy (roll_number f))) eqn:Hv.
  { cbn [snd]. rewrite addFace_eq. by rewrite Hv. }
  assert (Hatt : ls_attendance (resolve_user st).2 = ls_attendance st)
    by apply resolve_user_attendance.
  assert (Hpart : ∀ e d, partition_of e d (resolve_user st).2
                         = partition_of e d st).
  { intros e d. unfold partition_of, get_attendance. by rewrite Hatt. }
  destruct ((resolve_user st).1) as [e|] eqn:He.
  - destruct (resolve_user_owner st e He) as [Hmail Hne].
    destruct (existsb (same_person f) (partition_of e (isoDate now1) st))
      eqn:Hdup; cbn [snd].
    + rewrite addFace_eq, Hv, resolve_user_again, He, Hday, Hpart, Hdup.
      done.
    + set (entry := newEntry now1 f).
      set (st1 := set_attendance e _ _).
      assert (ls_user_email st1 = Some e) as Hmail1 by done.
      rewrite addFace_eq, Hv.
      rewrite (resolve_user_logged_in st1 e Hmail1 Hne). cbn [fst snd].
      rewrite Hday.
      assert (partition_of e (isoDate now1) st1
              = kept_of (partition_of e (isoDate now1) st ++ [entry])) as ->.
      { subst st1.
        assert (get_attendance e st = get_attendance e (resolve_user st).2)
          as -> by (unfold get_attendance; by rewrite Hatt).
        apply partition_of_set. }
      rewrite (same_person_true f _ entry); [done|apply kept_of_last|].
      by left.
  - cbn [snd]. by rewrite addFace_eq, Hv, resolve_user_again, He.
Qed.

(** X3. The owner fallback of [addFace].  With [user_email] unset and no
    e-mail in the [user] item, no face is stored and the storage does not
    change.  With [user_email] unset and an e-mail in the [user] item, a
    well-formed face makes [addFace] write that e-mail to [user_email], even
    when the face is then skipped as a duplicate, and the face is added
    exactly when today's partition of that owner has no entry with its roll
    number or its name. *)
Theorem addFace_owner_fallback now f st :
  truthy_item (ls_user_email st) = false →
  ((∀ u, ls_user st = Some u → truthy_item (email u) = false) →
   ∀ recognizedFace, addFace now recognizedFace st = (None, st))
  ∧ (∀ u e, ls_user st = Some u → email u = Some e → e ≠ "" →
            truthy (name f) = true → truthy (roll_number f) = true →
            ls_user_email (addFace now (Some f) st).2 = Some e
            ∧ ((addFace now (Some f) st).1 = Some (newEntry now f)
               ↔ existsb (same_person f) (partition_of e (isoDate now) st)
                 = false)).
Proof.
  intros Hunset. split.
  - intros Hnone [rf|]; [|done].
    assert (resolve_user st = (None, st)) as Hres.
    { unfold resolve_user, setUserEmail. rewrite Hunset.
      destruct (ls_user st) as [u|]; [|done]. by rewrite (Hnone u eq_refl). }
    rewrite addFace_eq, Hres.
    by destruct (negb (truthy (name rf)) || negb (truthy (roll_number rf))).
  - intros u e Hu He Hne Hn Hr.
    assert (resolve_user st = (Some e, set_user_email e st)) as Hres.
    { unfold resolve_user, setUserEmail. rewrite Hunset, Hu, He.
      by rewrite (truthy_item_Some e Hne). }
    rewrite addFace_eq, Hn, Hr, Hres. cbn [negb orb fst snd].
    by destruct (existsb (same_person f) (partition_of e (isoDate now) st)).
Qed.

Lemma truthy_item_owner (o : option string) :
  truthy_item o = true → ∃ e, o = Some e ∧ e ≠ "".
Proof.
  destruct o as [e|]; [|done]. intros H. exists e. split; [done|].
  by intros ->.
Qed.

(** What a [deleteAttendance] that returns [true] leaves. *)
Lemma deleteAttendance_true now remote rollNumber st :
  (deleteAttendance now remote rollNumber st).1.1 = true →
  ∃ e, ls_user_email st = Some e ∧ e ≠ ""
       ∧ ls_user_email (deleteAttendance now remote rollNumber st).1.2 = Some e
       ∧ partition_of e (isoDate now)
           (deleteAttendance now remote rollNumber st).1.2
         = filter (λ face, roll_number face ≠ rollNumber)
             (partition_of e (isoDate now) st).
Proof.
  unfold deleteAttendance.
  destruct (negb (truthy rollNumber)); [done|].
  destruct (truthy_item (ls_user_email st)) eqn:Hmail; [|done].
  destruct (truthy_item_owner _ Hmail) as (e & He & Hne).
  destruct (negb (truthy_item (ls_token st))); [done|].
  cbn [negb orb]. rewrite He. change (default "" (Some e)) with e.
  destruct (axios_post remote) as [code [body|]|code data|]; try done.
  destruct (strict_eq body (JStr "success") || (code =? 200)); [|done].
  cbv zeta.
  destruct (get_attendance e st !! isoDate now) as [faces|] eqn:Hf;
    cbn [fst snd]; intros _; exists e; split_and!; try done.
  - rewrite partition_of_set. unfold partition_of. by rewrite Hf.
  - unfold partition_of. by rewrite Hf.
Qed.

(** X4. After a [deleteAttendance] that returns [true], today's list holds
    exactly the entries it held before whose roll number is not the deleted
    one. *)
Theorem deleteAttendance_then_listed now t remote rollNumber st f :
  (deleteAttendance now remote rollNumber st).1.1 = true →
  isoDate t = isoDate now →
  f ∈ (getTodaysFaces t (deleteAttendance now remote rollNumber st).1.2).1
  ↔ f ∈ (getTodaysFaces t st).1 ∧ roll_number f ≠ rollNumber.
Proof.
  intros Htrue Hday.
  destruct (deleteAttendance_true _ _ _ _ Htrue) as (e & He & Hne & He' & Hp).
  rewrite (getTodaysFaces_logged_in t _ e He' Hne).
  rewrite (getTodaysFaces_logged_in t _ e He Hne).
  rewrite Hday, Hp. rewrite list_elem_of_filter.
  split; intros [? ?]; by split.
Qed.

(** X5. [deleteAttendance] sends nothing, returns [false] and leaves the
    storage alone when the roll number is falsy, or [user_email] or [token]
    is not set; in every other case it sends exactly one request, with the
    stored token and the roll number. *)
Theorem deleteAttendance_requests now remote rollNumber st :
  (truthy rollNumber = false ∨ truthy_item (ls_user_email st) = false
   ∨ truthy_item (ls_token st) = false →
   deleteAttendance now remote rollNumber st = (false, st, []))
  ∧ (truthy rollNumber = true → truthy_item (ls_user_email st) = true →
     truthy_item (ls_token st) = true →
     (deleteAttendance now remote rollNumber st).2
     = [PostDeleteAttendance (default "" (ls_token st)) rollNumber]).
Proof.
  split.
  - intros H. unfold deleteAttendance.
    destruct (truthy rollNumber); [|done].
    destruct (truthy_item (ls_user_email st)); [|done].
    destruct (truthy_item (ls_token st)); [|done].
    by destruct H as [H|[H|H]].
  - intros Hr Hm Ht. unfold deleteAttendance. rewrite Hr, Hm, Ht.
    cbn [negb orb].
    destruct (axios_post remote) as [code [body|]|code data|]; try done.
    destruct (strict_eq body (JStr "success") || (code =? 200)); [|done].
    cbv zeta. by destruct (_ !! _).
Qed.

(** X6. [deleteAttendance] returns [true] exactly when the roll number is
    truthy, [user_email] and [token] are set, and the answer is 2xx with a
    body that is not [null] and with [status] "success" or HTTP status 200.
    So an answer 200 counts as success whatever its body reports, and an
    answer without a body never does. *)
Theorem deleteAttendance_true_iff now remote rollNumber st :
  (deleteAttendance now remote rollNumber st).1.1 = true
  ↔ truthy rollNumber = true
    ∧ truthy_item (ls_user_email st) = true
    ∧ truthy_item (ls_token st) = true
    ∧ ∃ code data_status,
        remote = HttpResponse code (Some data_status)
        ∧ is_2xx code = true
        ∧ (data_status = JStr "success" ∨ code = 200).
Proof.
  unfold deleteAttendance.
  destruct (truthy rollNumber);
    [|split; [done|by intros (? & _)]].
  destruct (truthy_item (ls_user_email st));
    [|split; [done|by intros (_ & ? & _)]].
  destruct (truthy_item (ls_token st));
    [|split; [done|by intros (_ & _ & ? & _)]].
  cbn [negb orb].
  destruct remote as [|code [body|]]; cbn [axios_post].
  - split; [done|]. by intros (_ & _ & _ & c & d & ? & _).
  - destruct (is_2xx code) eqn:H2.
    + destruct (strict_eq body (JStr "success") || (code =? 200)) eqn:Hs.
      * cbv zeta. apply orb_true_iff in Hs.
        assert (body = JStr "success" ∨ code = 200) as Hok.
        { destruct Hs as [Hs|Hs]; [left; by apply bool_decide_eq_true in Hs|].
          right. by apply Z.eqb_eq. }
        assert ((if get_attendance (default "" (ls_user_email st)) st
                      !! isoDate now is Some faces
                 then (true,
                       set_attendance (default "" (ls_user_email st))
                         (<[isoDate now :=
                              filter (λ face, roll_number face ≠ rollNumber)
                                faces]>
                            (get_attendance (default "" (ls_user_email st)) st))
                         st,
                       [PostDeleteAttendance (default "" (ls_token st))
                          rollNumber])
                 else (true, st,
                       [PostDeleteAttendance (default "" (ls_token st))
                          rollNumber])).1.1 = true) as -> by by destruct (_ !! _).
        split; [|done]. intros _. split_and!; try done. by exists code, body.
      * apply orb_false_iff in Hs as [Hb Hc].
        apply bool_decide_eq_false in Hb. apply Z.eqb_neq in Hc.
        split; [done|].
        intros (_ & _ & _ & c & d & Heq & _ & Hor).
        injection Heq as <- <-. by destruct Hor.
    + split; [done|]. intros (_ & _ & _ & c & d & Heq & Hc & _).
      injection Heq as <- <-. congruence.
  - split; [by destruct (is_2xx code)|].
    by intros (_ & _ & _ & c & d & ? & _).
Qed.

(** X7. [deleteAttendance] touches nothing but today's partition of the
    owner: every other day of the owner, an entry with the same roll number
    among them, every other owner's data and the [user], [user_email] and
    [token] items are as before. *)
Theorem deleteAttendance_frame now remote rollNumber st :
  (∀ e d, d ≠ isoDate now ∨ ls_user_email st ≠ Some e →
          get_attendance e (deleteAttendance now remote rollNumber st).1.2 !! d
          = get_attendance e st !! d)
  ∧ ls_user (deleteAttendance now remote rollNumber st).1.2 = ls_user st
  ∧ ls_user_email (deleteAttendance now remote rollNumber st).1.2
    = ls_user_email st
  ∧ ls_token (deleteAttendance now remote rollNumber st).1.2 = ls_token st.
Proof.
  destruct (deleteAttendance_cases now remote rollNumber st) as [->|Hdel];
    [done|].
  destruct Hdel as (e & code & ds & faces & _ & He & _ & _ & _ & _ & _ & ->).
  split_and!; try done.
  intros e' d Hother. unfold get_attendance at 1.
  cbn [set_attendance ls_attendance].
  destruct (decide (e = e')) as [<-|Hee].
  - rewrite lookup_insert_eq. cbn [default from_option id].
    rewrite lookup_insert_ne; [done|]. destruct Hother as [?|?]; congruence.
  - by rewrite lookup_insert_ne.
Qed.

(** X8. Deleting and adding again.  When today's partition of the owner has
    no two entries with the same roll number or name, a stored well-formed
    face whose roll number has been deleted with success can be added again
    on the same day. *)
Theorem deleteAttendance_then_addFace now t remote st e f :
  ls_user_email st = Some e →
  unique_entries (partition_of e (isoDate now) st) →
  f ∈ partition_of e (isoDate now) st →
  truthy (name f) = true → truthy (roll_number f) = true →
  (deleteAttendance now remote (roll_number f) st).1.1 = true →
  isoDate t = isoDate now →
  (addFace t (Some f) (deleteAttendance now remote (roll_number f) st).1.2).1
  = Some (newEntry t f).
Proof.
  intros He [Hrolls Hnames] Hin Hn Hr Htrue Hday.
  destruct (deleteAttendance_true _ _ _ _ Htrue)
    as (e' & He1 & Hne & He' & Hp).
  assert (e' = e) as -> by congruence.
  rewrite addFace_eq, Hn, Hr. cbn [negb orb].
  rewrite (resolve_user_logged_in _ e He' Hne). cbn [fst snd].
  rewrite Hday, Hp.
  destruct (existsb _ _) eqn:Hdup; [|done]. exfalso.
  apply existsb_exists in Hdup as (g & Hg & Hsame).
  apply list_elem_of_In, list_elem_of_filter in Hg as [Hgr Hg].
  unfold same_person, strict_eq in Hsame.
  apply orb_true_iff in Hsame as [Hs|Hs]; apply bool_decide_eq_true in Hs;
    [done|].
  apply Hgr. 
  apply list_elem_of_lookup in Hin as [i Hi], Hg as [j Hj].
  assert ((name <$> partition_of e (isoDate now) st) !! i = Some (name f))
    as Hi' by (by rewrite list_lookup_fmap, Hi).
  assert ((name <$> partition_of e (isoDate now) st) !! j = Some (name f))
    as Hj' by (rewrite list_lookup_fmap, Hj; cbn; by rewrite Hs).
  assert (i = j) as -> by exact (NoDup_lookup _ _ _ _ Hnames Hi' Hj').
  congruence.
Qed.

Lemma cleanupOldData_storage now daysToKeep st e :
  ls_user_email st = Some e → e ≠ "" →
  ∃ m n, cleanupOldData now daysToKeep st
         = mkCleanupResult JUndefined (Some n) (set_attendance e m st).
Proof.
  intros He Hne. unfold cleanupOldData.
  rewrite He, (truthy_item_Some e Hne). cbn [negb].
  change (default "" (Some e)) with e.
  destruct (foldl _ _ _) as [m n]. by exists m, n.
Qed.

Lemma cleanupOldData_logged_out now daysToKeep st :
  truthy_item (ls_user_email st) = false →
  cleanupOldData now daysToKeep st = mkCleanupResult JUndefined None st.
Proof. intros H. unfold cleanupOldData. by rewrite H. Qed.

Lemma truthy_item_cases (o : option string) :
  truthy_item o = false ∨ ∃ e, o = Some e ∧ e ≠ "".
Proof.
  destruct (truthy_item o) eqn:H; [right|by left].
  by apply truthy_item_owner.
Qed.

(** X9. Running [cleanupOldData] a second time at the same instant with the
    same [daysToKeep] changes nothing more: the storage is the one the first
    run left, and for a logged-in owner the count it logs is 0. *)
Theorem cleanupOldData_twice now daysToKeep st :
  cl_storage (cleanupOldData now daysToKeep
                (cl_storage (cleanupOldData now daysToKeep st)))
  = cl_storage (cleanupOldData now daysToKeep st)
  ∧ (truthy_item (ls_user_email st) = true →
     cl_logged (cleanupOldData now daysToKeep
                  (cl_storage (cleanupOldData now daysToKeep st)))
     = Some 0).
Proof.
  destruct (truthy_item_cases (ls_user_email st)) as [Hout|(e & He & Hne)].
  { rewrite !(cleanupOldData_logged_out now daysToKeep st Hout). cbn.
    rewrite (cleanupOldData_logged_out now daysToKeep st Hout).
    split; [done|]. by rewrite Hout. }
  destruct (cleanupOldData_spec now daysToKeep st e He Hne)
    as (_ & Hown1 & _ & _).
  destruct (cleanupOldData_storage now daysToKeep st e He Hne)
    as (m1 & n1 & Hr1).
  rewrite Hr1 in *. cbn [cl_storage] in *.
  set (st1 := set_attendance e m1 st) in *.
  assert (ls_user_email st1 = Some e) as He1 by done.
  destruct (cleanupOldData_spec now daysToKeep st1 e He1 Hne)
    as (_ & Hown2 & _ & Hlog2).
  destruct (cleanupOldData_storage now daysToKeep st1 e He1 Hne)
    as (m2 & n2 & Hr2).
  rewrite Hr2 in *. cbn [cl_storage cl_logged] in *.
  assert (get_attendance e st1 = m1) as Hg1.
  { unfold get_attendance, st1. cbn. by rewrite lookup_insert_eq. }
  assert (get_attendance e (set_attendance e m2 st1) = m2) as Hg2.
  { unfold get_attendance. cbn. by rewrite lookup_insert_eq. }
  rewrite Hg1 in *. rewrite Hg2 in *.
  assert (m2 = m1) as ->.
  { apply map_eq. intros d. rewrite Hown2.
    destruct (is_old now daysToKeep d) eqn:Hold; [|done].
    by rewrite Hown1, Hold. }
  split.
  - unfold set_attendance, st1. cbn. by rewrite insert_insert_eq.
  - intros _. rewrite Hlog2. f_equal. lia.
Qed.

Lemma cleanupOldData_other_items now daysToKeep st :
  ls_user (cl_storage (cleanupOldData now daysToKeep st)) = ls_user st
  ∧ ls_user_email (cl_storage (cleanupOldData now daysToKeep st))
    = ls_user_email st
  ∧ ls_token (cl_storage (cleanupOldData now daysToKeep st)) = ls_token st.
Proof.
  destruct (truthy_item_cases (ls_user_email st)) as [Hout|(e & He & Hne)].
  - by rewrite (cleanupOldData_logged_out now daysToKeep st Hout).
  - destruct (cleanupOldData_storage now daysToKeep st e He Hne)
      as (m & n & ->). done.
Qed.

Lemma cleanupOldData_lookup now daysToKeep st e d :
  get_attendance e (cl_storage (cleanupOldData now daysToKeep st)) !! d
  = if bool_decide (ls_user_email st = Some e ∧ e ≠ "")
       && is_old now daysToKeep d
    then None else get_attendance e st !! d.
Proof.
  destruct (truthy_item_cases (ls_user_email st)) as [Hout|(e0 & He & Hne)].
  { rewrite (cleanupOldData_logged_out now daysToKeep st Hout). cbn.
    rewrite bool_decide_eq_false_2; [done|].
    intros [Hmail Hne]. rewrite Hmail in Hout.
    by rewrite (truthy_item_Some e Hne) in Hout. }
  destruct (cleanupOldData_spec now daysToKeep st e0 He Hne)
    as (_ & Hown & Hother & _).
  destruct (decide (e = e0)) as [->|Hee].
  - rewrite Hown. by rewrite bool_decide_eq_true_2.
  - unfold get_attendance at 1. rewrite (Hother e Hee).
    rewrite bool_decide_eq_false_2; [done|]. intros [? _]. congruence.
Qed.

(** X10. With [daysToKeep] at least 1, [cleanupOldData] keeps every
    partition dated today or later, so the list of today is what it was.
    With [daysToKeep] 0 or less it removes today's partition of the owner as
    well, at any instant that is not midnight UTC sharp. *)
Theorem cleanupOldData_today now daysToKeep st :
  (1 ≤ daysToKeep →
   (∀ e d, isoDate now ≤ d →
           get_attendance e (cl_storage (cleanupOldData now daysToKeep st)) !! d
           = get_attendance e st !! d)
   ∧ (getTodaysFaces now (cl_storage (cleanupOldData now daysToKeep st))).1
     = (getTodaysFaces now st).1)
  ∧ (∀ e, ls_user_email st = Some e → e ≠ "" →
          daysToKeep ≤ 0 → now `mod` ms_per_day ≠ 0 →
          get_attendance e (cl_storage (cleanupOldData now daysToKeep st))
            !! isoDate now = None).
Proof.
  pose proof (Z.div_mod now ms_per_day) as Hdm.
  pose proof (Z.mod_pos_bound now ms_per_day) as Hb.
  split.
  - intros Hdays.
    assert (Hkeep : ∀ e d, isoDate now ≤ d →
      get_attendance e (cl_storage (cleanupOldData now daysToKeep st)) !! d
      = get_attendance e st !! d).
    { intros e d Hd.
      rewrite cleanupOldData_lookup, is_old_today_or_later by done.
      by rewrite andb_false_r. }
    split; [exact Hkeep|].
    unfold getTodaysFaces.
    destruct (cleanupOldData_other_items now daysToKeep st) as (_ & -> & _).
    destruct (negb (truthy_item (ls_user_email st))); [done|].
    cbn [fst]. by rewrite Hkeep.
  - intros e He Hne Hdays Hmid.
    rewrite cleanupOldData_lookup, is_old_today by done.
    by rewrite bool_decide_eq_true_2.
Qed.

Lemma run_op_owner op st e :
  ls_user_email st = Some e → e ≠ "" →
  ls_user_email (run_op st op) = Some e
  ∧ (∀ e', e' ≠ e →
           ls_attendance (run_op st op) !! e' = ls_attendance st !! e')
  ∧ ls_user (run_op st op) = ls_user st
  ∧ ls_token (run_op st op) = ls_token st.
Proof.
  intros He Hne.
  destruct op as [now rf|now|now remote roll|now days]; cbn [run_op].
  - destruct (addFace_other_items now rf st) as [Hu Ht].
    split_and!; try done.
    + destruct rf as [f|]; [|done]. rewrite addFace_eq.
      rewrite (resolve_user_logged_in st e He Hne). cbn [fst snd].
      destruct (_ || _); [done|]. by destruct (existsb _ _).
    + intros e' He'.
      destruct (addFace_cases now rf st) as [[_ ->]|Hadd]; [done|].
      destruct Hadd as (f & e0 & _ & _ & _ & He0 & _ & _ & ->).
      rewrite (resolve_user_logged_in st e He Hne) in He0.
      rewrite lookup_insert_ne; [done|]. cbn in He0. congruence.
  - unfold getTodaysFaces. by destruct (negb _).
  - destruct (deleteAttendance_cases now remote roll st) as [->|Hdel];
      [done|].
    destruct Hdel as (e0 & code & ds & faces & _ & He0 & _ & _ & _ & _ & _
                      & ->).
    split_and!; try done.
    intros e' He'. cbn. rewrite lookup_insert_ne; [done|]. congruence.
  - destruct (cleanupOldData_other_items now days st) as (Hu & Hm & Ht).
    split_and!; try done; [congruence|].
    intros e' He'.
    by destruct (cleanupOldData_spec now days st e He Hne)
      as (_ & _ & Hother & _); apply Hother.
Qed.

Lemma run_ops_keeps_owner ops st e :
  ls_user_email st = Some e → e ≠ "" →
  ls_user_email (run_ops ops st) = Some e
  ∧ (∀ e', e' ≠ e →
           ls_attendance (run_ops ops st) !! e' = ls_attendance st !! e')
  ∧ ls_user (run_ops ops st) = ls_user st
  ∧ ls_token (run_ops ops st) = ls_token st.
Proof.
  intros He Hne. revert st He.
  induction ops as [|op ops IH]; intros st He; [done|].
  cbn [run_ops foldl].
  destruct (run_op_owner op st e He Hne) as (He1 & Hatt1 & Hu1 & Ht1).
  destruct (IH (run_op st op) He1) as (He2 & Hatt2 & Hu2 & Ht2).
  fold (run_ops ops (run_op st op)) in *.
  split_and!; try congruence.
  intros e' He'. by rewrite (Hatt2 e' He'), (Hatt1 e' He').
Qed.

(** X11. Owners are kept apart.  While [user_email] names an owner, no run
    of the store's operations changes [user_email], [user] or [token], or
    the stored attendance of any other owner. *)
Theorem run_ops_owner ops st e :
  ls_user_email st = Some e → e ≠ "" →
  ls_user_email (run_ops ops st) = Some e
  ∧ (∀ e', e' ≠ e →
           ls_attendance (run_ops ops st) !! e' = ls_attendance st !! e')
  ∧ ls_user (run_ops ops st) = ls_user st
  ∧ ls_token (run_ops ops st) = ls_token st.
Proof. apply run_ops_keeps_owner. Qed.

(** ** More on the capture loop *)

(** X12. [handleRecognitionError] always clears the toasts and then shows
    exactly one: a warning for the statuses [no_students_registered],
    [no_face_encodings] and [face_not_recognized], an error for every other
    status.  The message is empty (it is [undefined]) exactly when the
    status is the name of a property inherited from [Object.prototype],
    such as [constructor] or [toString]; for a status that is neither such
    a name nor a key of the table the message is [errorMessage], or
    "Recognition failed" when that is falsy. *)
Theorem handleRecognitionError_one_toast errorStatus errorMessage :
  ∃ message,
    handleRecognitionError errorStatus errorMessage
    = [ToastDismiss;
       if bool_decide (errorStatus = JStr "no_students_registered"
                       ∨ errorStatus = JStr "no_face_encodings"
                       ∨ errorStatus = JStr "face_not_recognized")
       then ToastWarn message else ToastError message]
    ∧ (truthy message = false
       ↔ ∃ key, errorStatus = JStr key ∧ key ∈ Object_prototype)
    ∧ ((∀ key, errorStatus = JStr key →
               (key ∉ (toastConfig errorMessage).*1)
               ∧ key ∉ Object_prototype) →
       message = js_or errorMessage (JStr "Recognition failed")).
Proof.
  assert (Hor : truthy (js_or errorMessage (JStr "Recognition failed")) = true).
  { unfold js_or. by destruct (truthy errorMessage) eqn:E. }
  assert (Hown : ∀ key message,
    key ∈ (toastConfig errorMessage).*1 →
    truthy message = true →
    (truthy message = false
     ↔ ∃ key', JStr key = JStr key' ∧ key' ∈ Object_prototype)
    ∧ ((∀ key', JStr key = JStr key' →
                (key' ∉ (toastConfig errorMessage).*1)
                ∧ key' ∉ Object_prototype) →
       message = js_or errorMessage (JStr "Recognition failed"))).
  { intros key message Hkey Hm. split.
    - split; [congruence|]. intros (key' & [= <-] & Hin). exfalso.
      revert Hkey Hin. cbn. rewrite !elem_of_cons, !elem_of_nil.
      intros [->|[->|[->|[->|[->|[]]]]]]; intros H;
        unfold Object_prototype in H;
        rewrite !elem_of_cons, elem_of_nil in H;
        repeat (destruct H as [H|H]; [discriminate H|]); done.
    - intros H. by destruct (H key eq_refl) as [[] _]. }
  assert (Hmiss : (∀ key, errorStatus ≠ JStr key) →
    ∃ message,
      [ToastDismiss; ToastError (js_or errorMessage (JStr "Recognition failed"))]
      = [ToastDismiss;
         if bool_decide (errorStatus = JStr "no_students_registered"
                         ∨ errorStatus = JStr "no_face_encodings"
                         ∨ errorStatus = JStr "face_not_recognized")
         then ToastWarn message else ToastError message]
      ∧ (truthy message = false
         ↔ ∃ key, errorStatus = JStr key ∧ key ∈ Object_prototype)
      ∧ ((∀ key, errorStatus = JStr key →
                 (key ∉ (toastConfig errorMessage).*1)
                 ∧ key ∉ Object_prototype) →
         message = js_or errorMessage (JStr "Recognition failed"))).
  { intros Hno. exists (js_or errorMessage (JStr "Recognition failed")).
    rewrite bool_decide_eq_false_2.
    2:{ intros [H|[H|H]]; by apply Hno in H. }
    split_and!; [done| |done].
    split; [congruence|]. intros (key & H & _). by apply Hno in H. }
  assert (Hother : ∀ key,
    key ∉ (toastConfig errorMessage).*1 →
    toastConfig_get errorMessage (JStr key)
    = if bool_decide (key ∈ Object_prototype)
      then Some (JUndefined, None) else None).
  { intros key Hkey. unfold toastConfig_get, toastConfig.
    cbn [List.find fst snd].
    assert (∀ k, k ∈ (toastConfig errorMessage).*1 →
                 String.eqb k key = false) as Hk.
    { intros k Hin. apply String.eqb_neq. by intros ->. }
    rewrite !Hk;
      [done|cbn; eauto 10 using list_elem_of_here, list_elem_of_further..]. }
  destruct errorStatus as [| |key|q]; try (by apply Hmiss).
  destruct (decide (key = "no_students_registered")) as [->|N1].
  { eexists. split; [reflexivity|].
    eapply Hown; [|reflexivity].
    cbn. eauto 10 using list_elem_of_here, list_elem_of_further. }
  destruct (decide (key = "no_face_encodings")) as [->|N2].
  { eexists. split; [reflexivity|].
    eapply Hown; [|reflexivity].
    cbn. eauto 10 using list_elem_of_here, list_elem_of_further. }
  destruct (decide (key = "face_not_recognized")) as [->|N3].
  { eexists. split; [reflexivity|].
    eapply Hown; [|reflexivity].
    cbn. eauto 10 using list_elem_of_here, list_elem_of_further. }
  rewrite (bool_decide_eq_false_2 (_ ∨ _)) by (intros [?|[?|?]]; congruence).
  destruct (decide (key = "face_detection_failed")) as [->|N4].
  { eexists. split; [reflexivity|].
    eapply Hown; [|reflexivity].
    cbn. eauto 10 using list_elem_of_here, list_elem_of_further. }
  destruct (decide (key = "default")) as [->|N5].
  { eexists. split; [reflexivity|].
    eapply Hown; [|exact Hor].
    cbn. eauto 10 using list_elem_of_here, list_elem_of_further. }
  assert (key ∉ (toastConfig errorMessage).*1) as Hnot.
  { cbn. rewrite !elem_of_cons, elem_of_nil.
    intros [?|[?|[?|[?|[?|[]]]]]]; congruence. }
  unfold handleRecognitionError. rewrite (Hother key Hnot).
  destruct (bool_decide (key ∈ Object_prototype)) eqn:Hproto.
  - apply bool_decide_eq_true in Hproto.
    exists JUndefined. split_and!; [done| |].
    + split; [|done]. intros _. by exists key.
    + intros H. by destruct (H key eq_refl) as [_ []].
  - apply bool_decide_eq_false in Hproto.
    exists (js_or errorMessage (JStr "Recognition failed")).
    split_and!; [done| |done].
    split; [congruence|]. by intros (key' & [= <-] & Hin).
Qed.

Lemma recognized_eq clock c recognitionData :
  recognized clock c recognitionData
  = show_toasts
      [ToastSuccessRecognized (js_or (rd_name recognitionData) (JStr "Unknown"))]
      (set_storage
         (addFace clock (Some (recognizedFace_of clock recognitionData))
            (cam_storage c)).2 c).
Proof. done. Qed.

(** The [forEach] of a run, as a whole. *)
Lemma foldl_recognized clock items :
  ∀ c, foldl (recognized clock) c items
       = mkCamera (lastRecognitionRef c) (isRecognizingRef c)
           (isRecognizing c) (todaysFaces c)
           (add_all ((λ rd, (clock, Some (recognizedFace_of clock rd)))
                       <$> items) (cam_storage c))
           (cam_toasts c
              ++ ((λ rd, ToastSuccessRecognized
                           (js_or (rd_name rd) (JStr "Unknown"))) <$> items))
           (cam_network c).
Proof.
  induction items as [|rd items IH]; intros c.
  - cbn. rewrite app_nil_r. by destruct c.
  - cbn [foldl fmap list_fmap]. rewrite IH, recognized_eq.
    cbn. by rewrite <- app_assoc.
Qed.

Lemma submitted_reached env c :
  submitted env c
  = reached env c
    && match axios_post (env_remote env) with
       | AxResolved _ (BodyArray _) => true
       | _ => false
       end.
Proof.
  unfold submitted, reached.
  destruct (tryAcquire _ _ c) as [c1|] eqn:E.
  - by rewrite bool_decide_eq_true_2.
  - rewrite bool_decide_eq_false_2; [done|]. by intros [? ?].
Qed.

(** A run of [captureAndRecognize] that got past the throttle, field by
    field. *)
Lemma captureAndRecognize_acquired env c c1 :
  tryAcquire (bool_decide (is_Some (env_webcam env))) (env_now env) c
  = Some c1 →
  isRecognizingRef (captureAndRecognize env c) = false
  ∧ lastRecognitionRef (captureAndRecognize env c)
    = (if submitted env c then env_now env else lastRecognitionRef c)
  ∧ cam_network (captureAndRecognize env c)
    = cam_network c
      ++ (if reached env c
          then [PostRecognize (default "" (ls_token (cam_storage c)))]
          else [])
  ∧ cam_storage (captureAndRecognize env c)
    = (if submitted env c
       then add_all ((λ rd, (env_clock env,
                             Some (recognizedFace_of (env_clock env) rd)))
                       <$> answer_items env) (cam_storage c)
       else cam_storage c)
  ∧ (submitted env c = true →
     cam_toasts (captureAndRecognize env c)
     = cam_toasts c
       ++ ((λ rd, ToastSuccessRecognized
                    (js_or (rd_name rd) (JStr "Unknown")))
             <$> answer_items env)).
Proof.
  intros Hacq. rewrite submitted_reached. unfold reached, answer_items.
  unfold captureAndRecognize. rewrite Hacq.
  rewrite bool_decide_eq_true_2 by by eexists.
  rewrite (tryAcquire_Some _ _ _ _ Hacq). unfold try_recognize.
  cbn [set_recognizing cam_storage lastRecognitionRef cam_network cam_toasts
       isRecognizingRef].
  destruct (truthy_item (default None (env_webcam env)));
    [|cbn; by rewrite app_nil_r].
  destruct (env_blob env); [|cbn; by rewrite app_nil_r].
  destruct (truthy_item (ls_token (cam_storage c)));
    [|cbn; by rewrite app_nil_r].
  cbn [negb andb].
  destruct (axios_post (env_remote env)) as [code [items|s e]|code data|];
    cbn [andb]; try done.
  - rewrite foldl_recognized. cbn. done.
  - by destruct data.
Qed.

Lemma captureAndRecognize_denied env c :
  tryAcquire (bool_decide (is_Some (env_webcam env))) (env_now env) c = None →
  captureAndRecognize env c = c ∧ submitted env c = false
  ∧ reached env c = false.
Proof.
  intros H. unfold captureAndRecognize, submitted, reached. rewrite H.
  by split_and!.
Qed.

(** X13. A run of [captureAndRecognize] sends at most one request: exactly
    one, carrying the stored token, when it gets past the throttle, captures
    a frame and finds a token, and none otherwise. *)
Theorem captureAndRecognize_requests env c :
  cam_network (captureAndRecognize env c)
  = cam_network c
    ++ (if reached env c
        then [PostRecognize (default "" (ls_token (cam_storage c)))]
        else []).
Proof.
  destruct (tryAcquire (bool_decide (is_Some (env_webcam env))) (env_now env) c)
    as [c1|] eqn:Hacq.
  - by destruct (captureAndRecognize_acquired env c c1 Hacq) as (_ & _ & ? & _).
  - destruct (captureAndRecognize_denied env c Hacq) as (-> & _ & ->).
    by rewrite app_nil_r.
Qed.

(** X14. What a run of [captureAndRecognize] does to the storage is to call
    [addFace] on the faces built from the answer's elements, in order, when
    the request was answered 2xx with an array, and nothing otherwise.  So a
    run keeps the store's invariants: no two entries of a partition with the
    same roll number or name, and no partition above 50 entries. *)
Theorem captureAndRecognize_storage env c :
  cam_storage (captureAndRecognize env c)
  = (if submitted env c
     then add_all ((λ rd, (env_clock env,
                           Some (recognizedFace_of (env_clock env) rd)))
                     <$> answer_items env) (cam_storage c)
     else cam_storage c)
  ∧ (all_partitions unique_entries (cam_storage c) →
     all_partitions unique_entries (cam_storage (captureAndRecognize env c)))
  ∧ (all_partitions at_most_50 (cam_storage c) →
     all_partitions at_most_50 (cam_storage (captureAndRecognize env c))).
Proof.
  assert (Hst : cam_storage (captureAndRecognize env c)
    = (if submitted env c
       then add_all ((λ rd, (env_clock env,
                             Some (recognizedFace_of (env_clock env) rd)))
                       <$> answer_items env) (cam_storage c)
       else cam_storage c)).
  { destruct (tryAcquire (bool_decide (is_Some (env_webcam env)))
                (env_now env) c) as [c1|] eqn:Hacq.
    - by destruct (captureAndRecognize_acquired env c c1 Hacq)
        as (_ & _ & _ & ? & _).
    - by destruct (captureAndRecognize_denied env c Hacq) as (-> & -> & _). }
  split; [exact Hst|]. rewrite Hst.
  destruct (submitted env c); [|done].
  rewrite add_all_run_ops. split.
  - apply run_ops_all_partitions.
    + intros p q. apply unique_entries_sublist.
    + intros now f p Hp Hf. by eapply unique_entries_push.
    + apply unique_entries_nil.
  - apply run_ops_all_partitions.
    + intros p q Hsub Hq. apply sublist_length in Hsub.
      unfold at_most_50 in *. lia.
    + intros now f p _ _. apply kept_of_length.
    + unfold at_most_50. cbn. lia.
Qed.

(** X15. A run that was answered with an array shows one success toast per
    element of the answer, in order, naming it "Unknown" when it has no
    name, whether or not [addFace] stored the element. *)
Theorem captureAndRecognize_toasts env c :
  submitted env c = true →
  cam_toasts (captureAndRecognize env c)
  = cam_toasts c
    ++ ((λ rd, ToastSuccessRecognized (js_or (rd_name rd) (JStr "Unknown")))
          <$> answer_items env).
Proof.
  intros Hsub.
  destruct (tryAcquire (bool_decide (is_Some (env_webcam env))) (env_now env) c)
    as [c1|] eqn:Hacq.
  - destruct (captureAndRecognize_acquired env c c1 Hacq)
      as (_ & _ & _ & _ & H). by apply H.
  - destruct (captureAndRecognize_denied env c Hacq) as (_ & H & _).
    congruence.
Qed.

Lemma captureAndRecognize_refs env c :
  lastRecognitionRef (captureAndRecognize env c)
  = (if submitted env c then env_now env else lastRecognitionRef c)
  ∧ (isRecognizingRef c = false →
     isRecognizingRef (captureAndRecognize env c) = false).
Proof.
  destruct (tryAcquire (bool_decide (is_Some (env_webcam env))) (env_now env) c)
    as [c1|] eqn:Hacq.
  - by destruct (captureAndRecognize_acquired env c c1 Hacq) as (? & ? & _).
  - by destruct (captureAndRecognize_denied env c Hacq) as (-> & -> & _).
Qed.

Lemma submitted_elapsed env c :
  submitted env c = true →
  isRecognizingRef c = false ∧ lastRecognitionRef c + 10000 ≤ env_now env.
Proof.
  unfold submitted, tryAcquire.
  destruct (isRecognizingRef c); [done|].
  destruct (_ <? _) eqn:E; [done|]. apply Z.ltb_ge in E. intros _.
  split; [done|lia].
Qed.

(** X16. The throttle window.  After a run that recorded a recognition at
    time [t], every run that starts less than 10000 ms after [t] is turned
    away: it sends nothing and changes nothing. *)
Theorem captureAndRecognize_window env1 env2 c :
  submitted env1 c = true →
  env_now env2 - env_now env1 < 10000 →
  captureAndRecognize env2 (captureAndRecognize env1 c)
  = captureAndRecognize env1 c.
Proof.
  intros Hsub Hlt.
  destruct (captureAndRecognize_refs env1 c) as [Hlast _].
  rewrite Hsub in Hlast.
  apply captureAndRecognize_denied. unfold tryAcquire. rewrite Hlast.
  destruct (isRecognizingRef _); [done|].
  by apply Z.ltb_lt in Hlt as ->.
Qed.

(** X17. A failed attempt does not start the window.  After a run that got
    past the throttle but recorded no recognition, a run at any later time
    gets past the throttle again when the webcam is mounted. *)
Theorem captureAndRecognize_retry env1 env2 c :
  is_Some (tryAcquire (bool_decide (is_Some (env_webcam env1)))
             (env_now env1) c) →
  submitted env1 c = false →
  env_now env1 ≤ env_now env2 →
  is_Some (env_webcam env2) →
  is_Some (tryAcquire (bool_decide (is_Some (env_webcam env2)))
             (env_now env2) (captureAndRecognize env1 c)).
Proof.
  intros [c1 Hacq] Hsub Hle Hcam.
  destruct (captureAndRecognize_acquired env1 c c1 Hacq)
    as (Hflag & Hlast & _).
  rewrite Hsub in Hlast.
  unfold tryAcquire in *. rewrite Hflag, Hlast.
  destruct (isRecognizingRef c); [done|].
  destruct (env_now env1 - lastRecognitionRef c <? 10000) eqn:E; [done|].
  apply Z.ltb_ge in E.
  assert ((env_now env2 - lastRecognitionRef c <? 10000) = false) as ->
    by (apply Z.ltb_ge; lia).
  rewrite bool_decide_eq_true_2 by done. by eexists.
Qed.

(** X18. [lastRecognitionRef] never goes back: a run leaves it as it was or
    moves it forward by at least 10000 ms. *)
Theorem lastRecognitionRef_monotone env c :
  lastRecognitionRef (captureAndRecognize env c) = lastRecognitionRef c
  ∨ lastRecognitionRef c + 10000
    ≤ lastRecognitionRef (captureAndRecognize env c).
Proof.
  destruct (captureAndRecognize_refs env c) as [-> _].
  destruct (submitted env c) eqn:Hsub; [right|by left].
  by apply submitted_elapsed.
Qed.

(** Once a face is added, a face with its roll number or its name is
    skipped for the rest of the day. *)
Lemma addFace_after_added now1 now2 f g st entry :
  (addFace now1 (Some f) st).1 = Some entry →
  isoDate now2 = isoDate now1 →
  roll_number g = roll_number f ∨ name g = name f →
  addFace now2 (Some g) (addFace now1 (Some f) st).2
  = (None, (addFace now1 (Some f) st).2).
Proof.
  intros Hret Hday Hsame. rewrite (addFace_eq now1) in *.
  destruct (negb (truthy (name f)) || negb (truthy (roll_number f))); [done|].
  destruct ((resolve_user st).1) as [e|] eqn:He; [|done].
  destruct (resolve_user_owner st e He) as [Hmail Hne].
  destruct (existsb (same_person f) (partition_of e (isoDate now1) st));
    [done|].
  cbn [fst snd] in *.
  set (new := newEntry now1 f) in *.
  set (st1 := set_attendance e _ _).
  assert (ls_user_email st1 = Some e) as Hmail1 by done.
  rewrite addFace_eq.
  destruct (negb (truthy (name g)) || negb (truthy (roll_number g))); [done|].
  rewrite (resolve_user_logged_in st1 e Hmail1 Hne). cbn [fst snd].
  rewrite Hday.
  assert (partition_of e (isoDate now1) st1
          = kept_of (partition_of e (isoDate now1) st ++ [new])) as ->.
  { subst st1.
    assert (get_attendance e st = get_attendance e (resolve_user st).2) as ->.
    { unfold get_attendance. by rewrite resolve_user_attendance. }
    apply partition_of_set. }
  rewrite (same_person_true g _ new); [done|apply kept_of_last|].
  destruct Hsame as [Hr|Hn]; [left|right]; by cbn.
Qed.

(** X19. What the defaults of the capture loop do.  An element of the
    answer without a roll number is announced by its toast but never stored.
    An element without a name is stored as "Unknown"; once one is stored, a
    second nameless element of the same day, whatever its roll number, is
    not stored. *)
Theorem recognized_defaults clock c recognitionData :
  (truthy (rd_roll_number recognitionData) = false →
   cam_storage (recognized clock c recognitionData) = cam_storage c
   ∧ cam_toasts (recognized clock c recognitionData)
     = cam_toasts c
       ++ [ToastSuccessRecognized
             (js_or (rd_name recognitionData) (JStr "Unknown"))])
  ∧ (∀ clock' recognitionData',
       truthy (rd_name recognitionData) = false →
       truthy (rd_name recognitionData') = false →
       isoDate clock' = isoDate clock →
       is_Some (addFace clock (Some (recognizedFace_of clock recognitionData))
                  (cam_storage c)).1 →
       name (recognizedFace_of clock recognitionData) = JStr "Unknown"
       ∧ cam_storage
           (recognized clock' (recognized clock c recognitionData)
              recognitionData')
         = cam_storage (recognized clock c recognitionData)).
Proof.
  split.
  - intros Hroll. rewrite recognized_eq. cbn [cam_storage cam_toasts
      show_toasts set_storage]. split; [|done].
    rewrite addFace_eq. unfold recognizedFace_of at 1 2. cbn [name roll_number].
    unfold js_or at 2. rewrite Hroll. cbn [truthy String.eqb negb].
    by rewrite orb_true_r.
  - intros clock' rd' Hn Hn' Hday [entry Hadded].
    split; [unfold recognizedFace_of, js_or; cbn; by rewrite Hn|].
    rewrite !recognized_eq. cbn [cam_storage show_toasts set_storage].
    rewrite (addFace_after_added clock clock' _ _ _ entry Hadded Hday);
      [done|].
    right. unfold recognizedFace_of, js_or. cbn. by rewrite Hn, Hn'.
Qed.

Lemma deleteAttendance_false now remote rollNumber st :
  (deleteAttendance now remote rollNumber st).1.1 = false →
  (deleteAttendance now remote rollNumber st).1.2 = st.
Proof.
  intros Hfalse.
  destruct (deleteAttendance_cases now remote rollNumber st) as [H|Hdel];
    [done|].
  destruct Hdel as (e & code & ds & faces & Htrue & _). congruence.
Qed.

(** X20. [handleDeleteAttendance] shows the success toast exactly when
    [deleteAttendance] returned [true].  Then the list on display is read
    again from the storage, and on the day of the deletion it shows no entry
    with the deleted roll number.  Otherwise the list on display and the
    storage stay as they were.  The throttle's refs are not touched. *)
Theorem handleDeleteAttendance_view now nowList remote rollNumber c :
  (dh_toast (handleDeleteAttendance now nowList remote rollNumber c)
   = ToastDeleted
   ↔ (deleteAttendance now remote rollNumber (cam_storage c)).1.1 = true)
  ∧ (dh_toast (handleDeleteAttendance now nowList remote rollNumber c)
     = ToastDeleted →
     todaysFaces (dh_camera (handleDeleteAttendance now nowList remote
                               rollNumber c))
     = (getTodaysFaces nowList
          (cam_storage (dh_camera (handleDeleteAttendance now nowList remote
                                     rollNumber c)))).1
     ∧ (isoDate nowList = isoDate now →
        ∀ f, f ∈ todaysFaces (dh_camera (handleDeleteAttendance now nowList
                                            remote rollNumber c)) →
             roll_number f ≠ rollNumber))
  ∧ (dh_toast (handleDeleteAttendance now nowList remote rollNumber c)
     = ToastDeleteFailed →
     todaysFaces (dh_camera (handleDeleteAttendance now nowList remote
                               rollNumber c))
     = todaysFaces c
     ∧ cam_storage (dh_camera (handleDeleteAttendance now nowList remote
                                 rollNumber c))
       = cam_storage c)
  ∧ lastRecognitionRef (dh_camera (handleDeleteAttendance now nowList remote
                                     rollNumber c))
    = lastRecognitionRef c
  ∧ isRecognizingRef (dh_camera (handleDeleteAttendance now nowList remote
                                   rollNumber c))
    = isRecognizingRef c.
Proof.
  pose proof (deleteAttendance_false now remote rollNumber (cam_storage c))
    as Hfalse.
  pose proof (deleteAttendance_true now remote rollNumber (cam_storage c))
    as Htrue.
  unfold handleDeleteAttendance.
  destruct (deleteAttendance now remote rollNumber (cam_storage c))
    as [[deleted st] sent]. cbn [fst snd] in *.
  destruct deleted; cbn; split_and!; try done.
  - intros _. split; [done|]. intros Hday f Hf.
    destruct (Htrue eq_refl) as (e & _ & Hne & He & Hp).
    rewrite (getTodaysFaces_logged_in nowList st e He Hne) in Hf.
    rewrite Hday, Hp in Hf. by apply list_elem_of_filter in Hf as [? _].
  - intros _. split; [done|]. by apply Hfalse.
Qed.

(** ** Sessions *)

(** What [getTodaysFaces] reads. *)
Lemma getTodaysFaces_ext now st st' :
  ls_user_email st' = ls_user_email st →
  (∀ e, ls_user_email st = Some e →
        ls_attendance st' !! e = ls_attendance st !! e) →
  (getTodaysFaces now st').1 = (getTodaysFaces now st).1.
Proof.
  intros Hmail Hatt. unfold getTodaysFaces. rewrite Hmail.
  destruct (ls_user_email st) as [e|]; [|done].
  destruct (negb (truthy_item (Some e))); [done|]. cbn [fst].
  change (default "" (Some e)) with e.
  unfold get_attendance. by rewrite (Hatt e eq_refl).
Qed.


(** X21. [handleLogout] removes [token] and [user] but leaves [user_email]
    and the attendance data.  So after it the list of today is what it was,
    and [addFace] adds or skips as before, for the owner who logged out;
    while no run of [captureAndRecognize] sends a request and
    [deleteAttendance] returns [false] without sending one. *)
Theorem handleLogout_effects a :
  (∀ t, (getTodaysFaces t (app_storage (handleLogout a))).1
        = (getTodaysFaces t (app_storage a)).1)
  ∧ (truthy_item (ls_user_email (app_storage a)) = true →
     ∀ now recognizedFace,
       (addFace now recognizedFace (app_storage (handleLogout a))).1
       = (addFace now recognizedFace (app_storage a)).1)
  ∧ (∀ env c, cam_storage c = app_storage (handleLogout a) →
              cam_network (captureAndRecognize env c) = cam_network c)
  ∧ (∀ now remote rollNumber,
       deleteAttendance now remote rollNumber (app_storage (handleLogout a))
       = (false, app_storage (handleLogout a), [])).
Proof.
  split_and!.
  - intros t. by apply getTodaysFaces_ext.
  - intros Hmail now [f|]; [|done].
    destruct (truthy_item_owner _ Hmail) as (e & He & Hne).
    rewrite !addFace_eq.
    rewrite (resolve_user_logged_in (app_storage a) e He Hne).
    rewrite (resolve_user_logged_in (app_storage (handleLogout a)) e He Hne).
    cbn [fst snd].
    destruct (_ || _); [done|].
    assert (partition_of e (isoDate now) (app_storage (handleLogout a))
            = partition_of e (isoDate now) (app_storage a)) as -> by done.
    by destruct (existsb _ _).
  - intros env c Hst.
    destruct (tryAcquire (bool_decide (is_Some (env_webcam env)))
                (env_now env) c) as [c1|] eqn:Hacq.
    + destruct (captureAndRecognize_acquired env c c1 Hacq)
        as (_ & _ & -> & _).
      unfold reached. rewrite Hst. cbn. rewrite andb_false_r.
      by rewrite app_nil_r.
    + by destruct (captureAndRecognize_denied env c Hacq) as (-> & _).
  - intros now remote r. unfold deleteAttendance.
    destruct (negb (truthy r)); [done|]. cbn. by rewrite orb_true_r.
Qed.

(** X22. After [handleLogin] the attendance data is what it was, and the
    owner [addFace] works for is the e-mail of [userData]: the e-mail itself
    when it is a non-empty string, the literal "undefined" when [userData]
    has no e-mail; with an empty e-mail there is no owner and [addFace]
    stores nothing.  The token stored is the one given, "undefined" when
    none was. *)
Theorem handleLogin_owner userData token a :
  ls_attendance (app_storage (handleLogin userData token a))
  = ls_attendance (app_storage a)
  ∧ ls_token (app_storage (handleLogin userData token a))
    = Some (to_String token)
  ∧ (∀ e, ud_email userData = Some e → e ≠ "" →
          (resolve_user (app_storage (handleLogin userData token a))).1
          = Some e)
  ∧ (ud_email userData = None →
     (resolve_user (app_storage (handleLogin userData token a))).1
     = Some "undefined")
  ∧ (ud_email userData = Some "" →
     ∀ now recognizedFace,
       addFace now recognizedFace (app_storage (handleLogin userData token a))
       = (None, app_storage (handleLogin userData token a))).
Proof.
  split_and!; try done.
  - intros e He Hne. rewrite (resolve_user_logged_in _ e); [done| |done].
    cbn. by rewrite He.
  - intros He. rewrite (resolve_user_logged_in _ "undefined"); [done| |done].
    cbn. by rewrite He.
  - intros He now [f|]; [|done]. rewrite addFace_eq.
    assert (resolve_user (app_storage (handleLogin userData token a))
            = (None, app_storage (handleLogin userData token a))) as ->.
    { unfold handleLogin, resolve_user, setUserEmail. cbn. by rewrite He. }
    by destruct (_ || _).
Qed.

(** X23. Accounts are kept apart.  Whatever the store's operations do
    during the session of one owner, after that owner logs out and another
    logs in the list of today is the one the second owner would have seen
    without that session; and when the first owner logs in again, the list
    is the one the session left. *)
Theorem accounts_kept_apart a u1 u2 t1 t2 e1 e2 ops now :
  ud_email u1 = Some e1 → ud_email u2 = Some e2 →
  e1 ≠ "" → e2 ≠ "" → e1 ≠ e2 →
  (getTodaysFaces now
     (app_storage
        (handleLogin u2 t2
           (handleLogout (app_run_ops ops (handleLogin u1 t1 a)))))).1
  = (getTodaysFaces now (app_storage (handleLogin u2 t2 a))).1
  ∧ (getTodaysFaces now
       (app_storage
          (handleLogin u1 t1
             (handleLogout
                (handleLogin u2 t2
                   (handleLogout (app_run_ops ops (handleLogin u1 t1 a)))))))).1
    = (getTodaysFaces now
         (app_storage (app_run_ops ops (handleLogin u1 t1 a)))).1.
Proof.
  intros Hu1 Hu2 Hne1 Hne2 Hdiff.
  assert (ls_user_email (app_storage (handleLogin u1 t1 a)) = Some e1) as Hm1.
  { cbn. by rewrite Hu1. }
  destruct (run_ops_keeps_owner ops (app_storage (handleLogin u1 t1 a)) e1
              Hm1 Hne1) as (Hm & Hatt & _ & _).
  split.
  - apply getTodaysFaces_ext; [done|].
    intros e. cbn [handleLogin app_storage ls_user_email ls_attendance
                   handleLogout app_run_ops].
    rewrite Hu2. intros [= <-]. by apply Hatt.
  - apply getTodaysFaces_ext.
    + transitivity (Some e1); [cbn; by rewrite Hu1|by symmetry].
    + by intros e _.
Qed.

(** X24. The response interceptor of index.js.  Its promise resolves, with
    [undefined], exactly for a 401 answer not handled before: then [token],
    [user] and the [Authorization] header are removed and the page is sent
    to /login, while [user_email] and the attendance data stay.  In every
    other case the application's state is left alone; and whenever it
    rejects with a message of its own, that message is truthy and is the
    one error toast it shows after clearing the toasts. *)
Theorem interceptor_outcomes error a :
  (ic_settled (interceptor error a) = ResolveUndefined
   ↔ err_config error = Some false
     ∧ ∃ data_error, err_response error = Some (401, data_error))
  ∧ (ic_settled (interceptor error a) = ResolveUndefined →
     ls_token (app_storage (ic_app (interceptor error a))) = None
     ∧ ls_user (app_storage (ic_app (interceptor error a))) = None
     ∧ app_authorization (ic_app (interceptor error a)) = None
     ∧ ic_href (interceptor error a) = Some "/login"
     ∧ ls_user_email (app_storage (ic_app (interceptor error a)))
       = ls_user_email (app_storage a)
     ∧ ls_attendance (app_storage (ic_app (interceptor error a)))
       = ls_attendance (app_storage a))
  ∧ (ic_settled (interceptor error a) ≠ ResolveUndefined →
     ic_app (interceptor error a) = a ∧ ic_href (interceptor error a) = None)
  ∧ (∀ message type,
       ic_settled (interceptor error a) = RejectWith message type →
       truthy message = true
       ∧ ic_toasts (interceptor error a) = [ToastDismiss; ToastError message]).
Proof.
  unfold interceptor.
  destruct (err_config error) as [[|]|].
  1,3: (split_and!; try done; split; [done|by intros [? _]]).
  destruct (err_response error) as [[status data]|].
  2:{ split_and!; try done.
      - split; [done|]. by intros (_ & d & ?).
      - by intros m t [= <- <-]. }
  destruct (status =? 401) eqn:E401.
  { apply Z.eqb_eq in E401 as ->. split_and!; try done.
    split; [|done]. intros _. split; [done|]. by exists data. }
  apply Z.eqb_neq in E401.
  assert (Hno : ¬ (Some false = Some false
                   ∧ ∃ d, Some (status, data) = Some (401, d))).
  { intros (_ & d & [= ? _]). done. }
  destruct (status =? 403).
  { split_and!; try done. by intros m t [= <- <-]. }
  destruct (status =? 404).
  { split_and!; try done. by intros m t [= <- <-]. }
  destruct (status =? 500).
  { split_and!; try done. by intros m t [= <- <-]. }
  destruct data as [e|].
  - split_and!; try done.
    intros m t [= <- <-]. split; [|done].
    unfold js_or. by destruct (truthy e) eqn:He.
  - by split_and!.
Qed.

(** ** The forms *)

Lemma trimEnd_empty s : trimEnd s = "" ↔ string_forallb is_space s = true.
Proof.
  induction s as [|c s IH]; [done|]. cbn [trimEnd string_forallb].
  destruct (trimEnd s) eqn:Ht.
  - destruct (is_space c); cbn [andb]; [|done].
    split; [intros _; by apply IH|done].
  - split; [done|]. intros H. apply andb_true_iff in H as [_ H].
    by apply IH in H.
Qed.

Lemma trimStart_forall s :
  string_forallb is_space (trimStart s) = string_forallb is_space s.
Proof.
  induction s as [|c s IH]; [done|]. cbn [trimStart].
  destruct (is_space c) eqn:Hc; [|done]. cbn [string_forallb].
  by rewrite Hc, IH.
Qed.

Lemma trim_empty s : trim s = "" ↔ string_forallb is_space s = true.
Proof. unfold trim. by rewrite trimEnd_empty, trimStart_forall. Qed.

Lemma trimEnd_no_space s :
  string_forallb (λ c, negb (is_space c)) s = true → trimEnd s = s.
Proof.
  induction s as [|c s IH]; [done|]. cbn [string_forallb trimEnd].
  intros H. apply andb_true_iff in H as [Hc Hs]. rewrite (IH Hs).
  apply negb_true_iff in Hc. rewrite Hc. by destruct s.
Qed.

Lemma trim_no_space s :
  string_forallb (λ c, negb (is_space c)) s = true → trim s = s.
Proof.
  intros H. unfold trim.
  assert (trimStart s = s) as ->; [|by apply trimEnd_no_space].
  destruct s as [|c s]; [done|]. cbn in *.
  apply andb_true_iff in H as [Hc _]. apply negb_true_iff in Hc.
  by rewrite Hc.
Qed.

Lemma is_digit_no_space c : is_digit c = true → is_space c = false.
Proof.
  unfold is_digit, is_space. cbv zeta. intros H.
  apply andb_true_iff in H as [H1 H2].
  apply Nat.leb_le in H1, H2.
  repeat (apply orb_false_iff; split); [apply andb_false_iff; right| |];
    first [apply Nat.leb_gt|apply Nat.eqb_neq]; lia.
Qed.

Lemma only_digits_no_space s :
  string_forallb is_digit s = true →
  string_forallb (λ c, negb (is_space c)) s = true.
Proof.
  induction s as [|c s IH]; [done|]. cbn [string_forallb].
  intros H. apply andb_true_iff in H as [Hc Hs].
  by rewrite (is_digit_no_space c Hc), (IH Hs).
Qed.

Lemma validateInputs_roll p :
  validateInputs p = None → trim (rf_rollNumber p) = rf_rollNumber p.
Proof.
  unfold validateInputs.
  destruct (String.eqb (trim (rf_name p)) ""); [done|].
  destruct (String.eqb (trim (rf_rollNumber p)) ""); [done|].
  destruct (negb (truthy_item (capturedImage p))); [done|].
  destruct (negb (only_letters_and_spaces (rf_name p))); [done|].
  destruct (only_digits (rf_rollNumber p)) eqn:Hd; [|done]. intros _.
  unfold only_digits in Hd. apply andb_true_iff in Hd as [_ Hd].
  by apply trim_no_space, only_digits_no_space.
Qed.

(** X25. [validateInputs] lets a form through exactly when the name is made
    of letters and white space with at least one letter, the roll number is
    a non-empty run of digits, and an image has been captured.  A roll
    number it lets through has no white space around it, so it is sent as
    typed. *)
Theorem validateInputs_accepts p :
  (validateInputs p = None
   ↔ only_letters_and_spaces (rf_name p) = true
     ∧ string_forallb is_space (rf_name p) = false
     ∧ only_digits (rf_rollNumber p) = true
     ∧ truthy_item (capturedImage p) = true)
  ∧ (validateInputs p = None → trim (rf_rollNumber p) = rf_rollNumber p).
Proof.
  assert (Hname : String.eqb (trim (rf_name p)) ""
                  = string_forallb is_space (rf_name p)).
  { destruct (string_forallb is_space (rf_name p)) eqn:E.
    - apply String.eqb_eq. by apply trim_empty.
    - apply String.eqb_neq. intros H. apply trim_empty in H. congruence. }
  assert (Hroll : only_digits (rf_rollNumber p) = true →
                  trim (rf_rollNumber p) = rf_rollNumber p
                  ∧ rf_rollNumber p ≠ "").
  { unfold only_digits. intros H. apply andb_true_iff in H as [Hne Hd].
    split; [by apply trim_no_space, only_digits_no_space|].
    apply negb_true_iff in Hne. by apply String.eqb_neq. }
  assert (Hiff : validateInputs p = None
   ↔ only_letters_and_spaces (rf_name p) = true
     ∧ string_forallb is_space (rf_name p) = false
     ∧ only_digits (rf_rollNumber p) = true
     ∧ truthy_item (capturedImage p) = true).
  { unfold validateInputs. rewrite Hname.
    destruct (string_forallb is_space (rf_name p));
      [split; [done|by intros (_ & ? & _)]|].
    destruct (only_digits (rf_rollNumber p)) eqn:Hd.
    - destruct (Hroll eq_refl) as [-> Hne].
      apply String.eqb_neq in Hne. rewrite Hne.
      destruct (truthy_item (capturedImage p));
        [|split; [done|by intros (_ & _ & _ & ?)]].
      destruct (only_letters_and_spaces (rf_name p));
        [done|split; [done|by intros (? & _)]].
    - split; [|by intros (_ & _ & ? & _)].
      destruct (String.eqb (trim (rf_rollNumber p)) ""); [done|].
      destruct (negb (truthy_item (capturedImage p))); [done|].
      by destruct (negb (only_letters_and_spaces (rf_name p))). }
  split; [exact Hiff|].
  intros H. apply Hiff in H as (_ & _ & Hd & _). by apply Hroll.
Qed.

(** The interceptor on an error with a fresh config and a status other
    than 401. *)
Lemma interceptor_fresh response a :
  (∀ data_error, response ≠ Some (401, data_error)) →
  ic_app (interceptor (mkAxiosError (Some false) response) a) = a
  ∧ ic_href (interceptor (mkAxiosError (Some false) response) a) = None
  ∧ (ic_settled (interceptor (mkAxiosError (Some false) response) a)
     = ThrowTypeError
     ∨ ∃ message type,
         ic_settled (interceptor (mkAxiosError (Some false) response) a)
         = RejectWith message type).
Proof.
  intros Hno. unfold interceptor. cbn [err_config err_response].
  destruct response as [[status data]|]; [|split_and!; try done; by eauto].
  destruct (status =? 401) eqn:E.
  { apply Z.eqb_eq in E as ->. by destruct (Hno data). }
  destruct (status =? 403); [split_and!; try done; by eauto|].
  destruct (status =? 404); [split_and!; try done; by eauto|].
  destruct (status =? 500); [split_and!; try done; by eauto|].
  destruct data; split_and!; try done; by eauto.
Qed.

(** A request of AuthPage: the interceptor leaves the application alone,
    and an error that comes back carries no response. *)
Lemma global_post_auth host remote a :
  let g := global_post host (λ status, (200 <=? status) && (status <? 500))
             (λ data : option AuthBody, body_error <$> data) remote a in
  gr_app g = a ∧ gr_href g = None
  ∧ match gr_outcome g with
    | GlobalResolved None => False
    | GlobalResolved (Some (status, data)) =>
        remote = HttpResponse status data
        ∧ (200 <=? status) && (status <? 500) = true
    | GlobalRejected caught => caught_response caught = None
    end.
Proof.
  cbv zeta. unfold global_post.
  destruct remote as [|code data].
  - by cbn.
  - destruct ((200 <=? code) && (code <? 500)) eqn:Hok; [by cbn|].
    destruct (interceptor_fresh (Some (code, body_error <$> data)) a)
      as (Happ & Hhref & Hsettled).
    { intros d [= -> _]. done. }
    cbn [gr_app gr_href gr_outcome]. split_and!; try done.
    destruct Hsettled as [->|(m & t & ->)]; done.
Qed.

(** The toasts of the interceptor for a request of AuthPage: none when the
    answer has a status from 200 to 499; otherwise it clears the toasts and
    shows one error toast, or throws on a [null] body before showing it. *)
Lemma global_post_auth_toasts host remote a :
  let g := global_post host (λ status, (200 <=? status) && (status <? 500))
             (λ data : option AuthBody, body_error <$> data) remote a in
  (gr_toasts g = []
   ↔ ∃ status data, remote = HttpResponse status data
                    ∧ (200 <=? status) && (status <? 500) = true)
  ∧ (gr_toasts g ≠ [] →
     (∀ status data, gr_outcome g ≠ GlobalResolved (Some (status, data)))
     ∧ (gr_toasts g = [ToastDismiss]
        ∨ ∃ message, truthy message = true
                     ∧ gr_toasts g = [ToastDismiss; ToastError message])).
Proof.
  cbv zeta. unfold global_post.
  destruct remote as [|code data].
  - cbn. split.
    + split; [done|]. by intros (? & ? & [=] & _).
    + intros _. split; [done|]. right. eexists. split; [|reflexivity]. reflexivity.
  - destruct ((200 <=? code) && (code <? 500)) eqn:Hok.
    + cbn. split; [|done]. split; [|done]. intros _. by exists code, data.
    + assert (code ≠ 401 ∧ code ≠ 403 ∧ code ≠ 404) as (H1 & H3 & H4) by lia.
      apply Z.eqb_neq in H1, H3, H4.
      unfold interceptor. cbn [err_config err_response].
      rewrite H1, H3, H4.
      destruct (code =? 500).
      * cbn. split.
        -- split; [done|]. intros (? & ? & [= <- <-] & Hacc). congruence.
        -- intros _. split; [done|]. right. eexists. split; [|reflexivity]. reflexivity.
      * destruct data as [b|]; cbn.
        -- split.
           ++ split; [done|]. intros (? & ? & [= <- <-] & Hacc). congruence.
           ++ intros _. split; [done|]. right. eexists. split; [|done].
              unfold js_or. by destruct (truthy (body_error b)) eqn:E.
        -- split.
           ++ split; [done|]. intros (? & ? & [= <- <-] & Hacc). congruence.
           ++ intros _. split; [done|]. by left.
Qed.

(** X26. AuthPage's [handleSubmit].  With an e-mail or a password missing
    it sends nothing and changes nothing but the toast it shows.  Otherwise
    it sends one request and ends with [isLoading] off.  Its [catch] never
    throws, and the form never turns to registration: it turns to login
    after a registration that was answered 2xx and turns nowhere else.  The
    storage changes only by a login answered 2xx, which leaves the answer's
    token and e-mail as [token] and [user_email] and keeps the attendance
    data.  Every other submit that was sent shows one error toast of
    AuthPage's own, with a message that is never empty.  The interceptor of
    index.js adds nothing when the request was answered with a status from
    200 to 499.  When the request got no answer, or one with another
    status, the interceptor has cleared the toasts before and, unless it
    threw on a [null] body, shown an error toast of its own: such a failure
    is reported by two error toasts. *)
Theorem AuthPage_handleSubmit_outcomes host remote p a :
  (fd_email (formData p) = "" ∨ fd_password (formData p) = "" →
   as_sent (AuthPage_handleSubmit host remote p a) = []
   ∧ as_page (AuthPage_handleSubmit host remote p a) = p
   ∧ as_app (AuthPage_handleSubmit host remote p a) = a)
  ∧ (fd_email (formData p) ≠ "" → fd_password (formData p) ≠ "" →
     as_sent (AuthPage_handleSubmit host remote p a)
     = [(isLogin p, formData p)]
     ∧ isLoading (as_page (AuthPage_handleSubmit host remote p a)) = false)
  ∧ as_thrown (AuthPage_handleSubmit host remote p a) = false
  ∧ (isLogin (as_page (AuthPage_handleSubmit host remote p a)) ≠ isLogin p →
     isLogin p = false
     ∧ as_toasts (AuthPage_handleSubmit host remote p a)
       = [AuthToastRegistered]
     ∧ ∃ status data, remote = HttpResponse status data
                      ∧ is_2xx status = true)
  ∧ (app_storage (as_app (AuthPage_handleSubmit host remote p a))
     ≠ app_storage a →
     isLogin p = true
     ∧ as_navigated (AuthPage_handleSubmit host remote p a) = true
     ∧ ∃ status b,
         remote = HttpResponse status (Some b) ∧ is_2xx status = true
         ∧ ls_token (app_storage
                       (as_app (AuthPage_handleSubmit host remote p a)))
           = Some (to_String (ab_access_token b))
         ∧ ls_user_email (app_storage
                            (as_app (AuthPage_handleSubmit host remote p a)))
           = Some (to_String (ab_user_email b))
         ∧ ls_attendance (app_storage
                            (as_app (AuthPage_handleSubmit host remote p a)))
           = ls_attendance (app_storage a))
  ∧ (as_sent (AuthPage_handleSubmit host remote p a) ≠ [] →
     as_navigated (AuthPage_handleSubmit host remote p a) = false →
     as_toasts (AuthPage_handleSubmit host remote p a)
     ≠ [AuthToastRegistered] →
     ∃ message, truthy message = true
                ∧ as_toasts (AuthPage_handleSubmit host remote p a)
                  = [AuthToastError message])
  ∧ (as_interceptor_toasts (AuthPage_handleSubmit host remote p a) = []
     ↔ as_sent (AuthPage_handleSubmit host remote p a) = []
       ∨ ∃ status data, remote = HttpResponse status data
                        ∧ 200 ≤ status < 500)
  ∧ (as_interceptor_toasts (AuthPage_handleSubmit host remote p a) ≠ [] →
     (∃ message, truthy message = true
                 ∧ as_toasts (AuthPage_handleSubmit host remote p a)
                   = [AuthToastError message])
     ∧ (as_interceptor_toasts (AuthPage_handleSubmit host remote p a)
        = [ToastDismiss]
        ∨ ∃ message, truthy message = true
                     ∧ as_interceptor_toasts
                         (AuthPage_handleSubmit host remote p a)
                       = [ToastDismiss; ToastError message])).
Proof.
  assert (Hold :
      (fd_email (formData p) = "" ∨ fd_password (formData p) = "" →
       as_sent (AuthPage_handleSubmit host remote p a) = []
       ∧ as_page (AuthPage_handleSubmit host remote p a) = p
       ∧ as_app (AuthPage_handleSubmit host remote p a) = a)
      ∧ (fd_email (formData p) ≠ "" → fd_password (formData p) ≠ "" →
         as_sent (AuthPage_handleSubmit host remote p a)
         = [(isLogin p, formData p)]
         ∧ isLoading (as_page (AuthPage_handleSubmit host remote p a)) = false)
      ∧ as_thrown (AuthPage_handleSubmit host remote p a) = false
      ∧ (isLogin (as_page (AuthPage_handleSubmit host remote p a)) ≠ isLogin p →
         isLogin p = false
         ∧ as_toasts (AuthPage_handleSubmit host remote p a)
           = [AuthToastRegistered]
         ∧ ∃ status data, remote = HttpResponse status data
                          ∧ is_2xx status = true)
      ∧ (app_storage (as_app (AuthPage_handleSubmit host remote p a))
         ≠ app_storage a →
         isLogin p = true
         ∧ as_navigated (AuthPage_handleSubmit host remote p a) = true
         ∧ ∃ status b,
             remote = HttpResponse status (Some b) ∧ is_2xx status = true
             ∧ ls_token (app_storage
                           (as_app (AuthPage_handleSubmit host remote p a)))
               = Some (to_String (ab_access_token b))
             ∧ ls_user_email (app_storage
                                (as_app (AuthPage_handleSubmit host remote p a)))
               = Some (to_String (ab_user_email b))
             ∧ ls_attendance (app_storage
                                (as_app (AuthPage_handleSubmit host remote p a)))
               = ls_attendance (app_storage a))
      ∧ (as_sent (AuthPage_handleSubmit host remote p a) ≠ [] →
         as_navigated (AuthPage_handleSubmit host remote p a) = false →
         as_toasts (AuthPage_handleSubmit host remote p a)
         ≠ [AuthToastRegistered] →
         ∃ message, truthy message = true
                    ∧ as_toasts (AuthPage_handleSubmit host remote p a)
                      = [AuthToastError message])).
  {
    assert (Hcatch : ∀ caught a' itoasts href sent,
      caught_response caught = None →
      ∃ message, truthy message = true
        ∧ auth_catch caught p a' itoasts href sent
          = mkAuthSubmitted (mkAuthPage (isLogin p) (formData p) false) a'
              [AuthToastError message] itoasts href false sent false).
    { intros caught a' itoasts href sent Hresp. unfold auth_catch.
      rewrite Hresp. eexists. split; [|reflexivity].
      unfold js_or. cbn [truthy].
      by destruct (truthy (caught_message caught)) eqn:E. }
    unfold AuthPage_handleSubmit.
    destruct (String.eqb (fd_email (formData p)) "") eqn:Hemail.
    { apply String.eqb_eq in Hemail. cbn [orb]. by split_and!. }
    destruct (String.eqb (fd_password (formData p)) "") eqn:Hpass.
    { apply String.eqb_eq in Hpass. cbn [orb]. by split_and!. }
    apply String.eqb_neq in Hemail, Hpass. cbn [orb]. cbv zeta.
    destruct (global_post_auth host remote a) as (Happ & Hhref & Hout).
    rewrite Happ, Hhref.
    set (g := global_post host _ _ remote a) in *.
    assert (Hfail : ∀ caught, caught_response caught = None →
      let r := auth_catch caught p a (gr_toasts g) None
                 [(isLogin p, formData p)] in
      (fd_email (formData p) = "" ∨ fd_password (formData p) = "" →
       as_sent r = [] ∧ as_page r = p ∧ as_app r = a)
      ∧ (fd_email (formData p) ≠ "" → fd_password (formData p) ≠ "" →
         as_sent r = [(isLogin p, formData p)]
         ∧ isLoading (as_page r) = false)
      ∧ as_thrown r = false
      ∧ (isLogin (as_page r) ≠ isLogin p →
         isLogin p = false ∧ as_toasts r = [AuthToastRegistered]
         ∧ ∃ status data, remote = HttpResponse status data
                          ∧ is_2xx status = true)
      ∧ (app_storage (as_app r) ≠ app_storage a →
         isLogin p = true ∧ as_navigated r = true
         ∧ ∃ status b,
             remote = HttpResponse status (Some b) ∧ is_2xx status = true
             ∧ ls_token (app_storage (as_app r))
               = Some (to_String (ab_access_token b))
             ∧ ls_user_email (app_storage (as_app r))
               = Some (to_String (ab_user_email b))
             ∧ ls_attendance (app_storage (as_app r))
               = ls_attendance (app_storage a))
      ∧ (as_sent r ≠ [] → as_navigated r = false →
         as_toasts r ≠ [AuthToastRegistered] →
         ∃ message, truthy message = true
                    ∧ as_toasts r = [AuthToastError message])).
    { intros caught Hresp. cbv zeta.
      destruct (Hcatch caught a (gr_toasts g) None [(isLogin p, formData p)]
                  Hresp) as (m & Hm & ->).
      cbn. split_and!; try done.
      - by intros [?|?].
      - intros _ _ _. by exists m. }
    destruct (gr_outcome g) as [[[status data]|]|caught]; [| done |by apply Hfail].
    destruct Hout as [-> Hacc].
    destruct ((200 <=? status) && (status <? 300)) eqn:H2.
    - destruct (isLogin p) eqn:Hlogin.
      + destruct data as [b|].
        * cbn. split_and!; try done.
          -- by intros [?|?].
          -- intros _. split_and!; try done. by exists status, b.
        * by apply Hfail.
      + cbn. split_and!; try done.
        * by intros [?|?].
        * intros _. split_and!; try done. by exists status, data.
    - destruct data as [b|]; by apply Hfail.
  }
  assert (Hitoasts :
    as_interceptor_toasts (AuthPage_handleSubmit host remote p a)
    = if String.eqb (fd_email (formData p)) ""
         || String.eqb (fd_password (formData p)) ""
      then []
      else gr_toasts
             (global_post host (λ status, (200 <=? status) && (status <? 500))
                (λ data : option AuthBody, body_error <$> data) remote a)).
  { unfold AuthPage_handleSubmit.
    destruct (_ || _); [done|]. cbv zeta.
    set (g := global_post host _ _ remote a).
    destruct (gr_outcome g) as [[[status data]|]|caught]; try done.
    - destruct (_ && _); [|by destruct data].
      destruct (isLogin p); [|done]. by destruct data.
    - unfold auth_catch.
      destruct (caught_response caught) as [[status [b|]]|]; try done.
      + destruct (status =? 401); [by destruct (bool_decide _)|].
        destruct (status =? 404); [|done].
        by repeat destruct (bool_decide _).
      + destruct (status =? 401); [done|]. by destruct (status =? 404). }
  assert (Hsent :
    as_sent (AuthPage_handleSubmit host remote p a) = []
    ↔ String.eqb (fd_email (formData p)) ""
      || String.eqb (fd_password (formData p)) "" = true).
  { destruct Hold as (Hmissing & Hpresent & _).
    destruct (String.eqb (fd_email (formData p)) "") eqn:Hemail.
    { apply String.eqb_eq in Hemail. split; [done|]. intros _.
      apply Hmissing. by left. }
    destruct (String.eqb (fd_password (formData p)) "") eqn:Hpass.
    { apply String.eqb_eq in Hpass. split; [done|]. intros _.
      apply Hmissing. by right. }
    apply String.eqb_neq in Hemail, Hpass.
    destruct (Hpresent Hemail Hpass) as [-> _]. done. }
  destruct (global_post_auth_toasts host remote a) as (Hnone & Hsome).
  cbv zeta in Hnone, Hsome.
  destruct Hold as (H1 & H2 & H3 & H4 & H5 & H6).
  split_and!; try done.
  - rewrite Hitoasts, Hsent.
    destruct (_ || _) eqn:Hmissing.
    + split; [by left|done].
    + rewrite Hnone. split.
      * intros (status & data & -> & Hacc). right. exists status, data.
        split; [done|]. lia.
      * intros [?|(status & data & -> & Hacc)]; [done|].
        exists status, data. split; [done|]. lia.
  - rewrite Hitoasts.
    destruct (_ || _) eqn:Hmissing; [done|].
    intros Hshown. destruct (Hsome Hshown) as (Hrejected & Hshape).
    split; [|done].
    apply H6.
    + intros Hs. apply Hsent in Hs. congruence.
    + unfold AuthPage_handleSubmit. rewrite Hmissing. cbv zeta.
      destruct (gr_outcome _) as [[[status data]|]|caught] eqn:Hout.
      * by destruct (Hrejected status data).
      * unfold auth_catch. cbn [caught_response]. done.
      * unfold auth_catch.
        destruct (caught_response caught) as [[status [b|]]|]; try done.
        -- destruct (status =? 401); [by destruct (bool_decide _)|].
           destruct (status =? 404); [|done].
           by repeat destruct (bool_decide _).
        -- destruct (status =? 401); [done|]. by destruct (status =? 404).
    + unfold AuthPage_handleSubmit. rewrite Hmissing. cbv zeta.
      destruct (gr_outcome _) as [[[status data]|]|caught] eqn:Hout.
      * by destruct (Hrejected status data).
      * unfold auth_catch. cbn [caught_response]. done.
      * unfold auth_catch.
        destruct (caught_response caught) as [[status [b|]]|]; try done.
        -- destruct (status =? 401); [by destruct (bool_decide _)|].
           destruct (status =? 404); [|done].
           by repeat destruct (bool_decide _).
        -- destruct (status =? 401); [done|]. by destruct (status =? 404).
Qed.

(** A request of RegisterFace, by answer. *)
Lemma global_post_register host remote a :
  let g := global_post host is_2xx id remote a in
  match remote with
  | NetFailure =>
      gr_app g = a ∧ ∃ caught, gr_outcome g = GlobalRejected caught
                               ∧ caught_response caught = None
  | HttpResponse code data =>
      if is_2xx code then
        gr_app g = a ∧ gr_outcome g = GlobalResolved (Some (code, data))
      else if code =? 401 then
        gr_app g = updateAuthHeader None a
        ∧ gr_href g = Some "/login"
        ∧ gr_outcome g = GlobalResolved None
      else
        gr_app g = a ∧ ∃ caught, gr_outcome g = GlobalRejected caught
                                 ∧ caught_response caught = None
  end.
Proof.
  cbv zeta. unfold global_post. destruct remote as [|code data].
  - cbn. by eauto.
  - destruct (is_2xx code) eqn:H2; [done|].
    destruct (code =? 401) eqn:E.
    + apply Z.eqb_eq in E as ->. by cbn.
    + apply Z.eqb_neq in E.
      destruct (interceptor_fresh (Some (code, id data)) a)
        as (Happ & Hhref & Hsettled).
      { intros d [= -> _]. done. }
      cbn [gr_app gr_outcome]. split; [done|].
      destruct Hsettled as [->|(m & t & ->)]; by eauto.
Qed.

(** X27. RegisterFace's [handleSubmit].  It always ends with [isSubmitting]
    off and its [catch] never throws.  It sends a request exactly when
    [validateInputs] lets the form through, the [access_token] item is set
    and the image can be read; the request carries the trimmed name and the
    roll number as typed.  It shows "Registration Successful" and empties
    the form exactly when a request was sent and answered 2xx, or answered
    401: the interceptor of index.js turns a 401 into a resolved promise, so
    the refused registration is reported as a success, while [token] is
    removed and the page is sent to /login.  In every other case the form
    keeps its fields. *)
Theorem RegisterFace_handleSubmit_outcomes host access_token remote p a :
  isSubmitting (rs_page (RegisterFace_handleSubmit host access_token remote p a))
  = false
  ∧ rs_thrown (RegisterFace_handleSubmit host access_token remote p a) = false
  ∧ (rs_sent (RegisterFace_handleSubmit host access_token remote p a) ≠ []
     ↔ validateInputs p = None ∧ truthy_item access_token = true
       ∧ host_fetch host = None)
  ∧ (rs_sent (RegisterFace_handleSubmit host access_token remote p a) ≠ [] →
     rs_sent (RegisterFace_handleSubmit host access_token remote p a)
     = [mkRegisterRequest (default "" access_token) (trim (rf_name p))
                          (rf_rollNumber p)])
  ∧ (rs_toasts (RegisterFace_handleSubmit host access_token remote p a)
     = [RegisterToastSuccess]
     ↔ rs_sent (RegisterFace_handleSubmit host access_token remote p a) ≠ []
       ∧ ∃ code data, remote = HttpResponse code data
                      ∧ (is_2xx code = true ∨ code = 401))
  ∧ (rs_toasts (RegisterFace_handleSubmit host access_token remote p a)
     = [RegisterToastSuccess] →
     rs_page (RegisterFace_handleSubmit host access_token remote p a)
     = mkRegisterFace "" "" None false)
  ∧ (rs_toasts (RegisterFace_handleSubmit host access_token remote p a)
     ≠ [RegisterToastSuccess] →
     rs_page (RegisterFace_handleSubmit host access_token remote p a)
     = mkRegisterFace (rf_name p) (rf_rollNumber p) (capturedImage p) false)
  ∧ (∀ data, remote = HttpResponse 401 data →
     rs_sent (RegisterFace_handleSubmit host access_token remote p a) ≠ [] →
     ls_token (app_storage
                 (rs_app (RegisterFace_handleSubmit host access_token remote
                            p a))) = None
     ∧ rs_href (RegisterFace_handleSubmit host access_token remote p a)
       = Some "/login").
Proof.
  assert (Hcatch : ∀ caught a' itoasts href sent,
    caught_response caught = None →
    ∃ message,
      register_catch caught p a' itoasts href sent
      = mkRegisterSubmitted
          (mkRegisterFace (rf_name p) (rf_rollNumber p) (capturedImage p) false)
          a' [RegisterToastError message] itoasts href sent false).
  { intros caught a' itoasts href sent Hresp. unfold register_catch.
    rewrite Hresp. by eexists. }
  pose proof (validateInputs_roll p) as Hroll.
  unfold RegisterFace_handleSubmit.
  destruct (validateInputs p) as [message|] eqn:Hvalid.
  { destruct (Hcatch (mkCaught (JStr message) None) a [] None [] eq_refl)
      as (m & ->).
    cbn. split_and!; try done.
    - split; [done|]. by intros (? & _).
    - split; [done|]. by intros (? & _). }
  rewrite (Hroll eq_refl).
  destruct (truthy_item access_token) eqn:Htok; cbn [negb].
  2:{ cbn. split_and!; try done.
      - split; [done|]. by intros (_ & ? & _).
      - split; [done|]. by intros (? & _). }
  destruct (host_fetch host) as [message|] eqn:Hfetch.
  { destruct (Hcatch (mkCaught (JStr message) None) a [] None [] eq_refl)
      as (m & ->).
    cbn. split_and!; try done.
    - split; [done|]. by intros (_ & _ & ?).
    - split; [done|]. by intros (? & _). }
  cbv zeta. pose proof (global_post_register host remote a) as Hg.
  cbv zeta in Hg.
  set (g := global_post host is_2xx id remote a) in *.
  destruct remote as [|code data].
  - destruct Hg as (Happ & caught & -> & Hresp).
    destruct (Hcatch caught (gr_app g) (gr_toasts g) (gr_href g)
                [mkRegisterRequest (default "" access_token)
                   (trim (rf_name p)) (rf_rollNumber p)] Hresp) as (m & ->).
    cbn. split_and!; try done.
    split; [done|]. by intros (_ & c & d & ? & _).
  - destruct (is_2xx code) eqn:H2.
    { destruct Hg as (Happ & ->). cbn. split_and!; try done.
      - split; [|done]. intros _. split; [done|]. exists code, data. by eauto.
      - intros d [= -> _]. done. }
    destruct (code =? 401) eqn:E.
    { apply Z.eqb_eq in E as ->. destruct Hg as (-> & -> & ->).
      cbn. split_and!; try done.
      split; [|done]. intros _. split; [done|]. exists 401, data. by eauto. }
    apply Z.eqb_neq in E.
    destruct Hg as (Happ & caught & -> & Hresp).
    destruct (Hcatch caught (gr_app g) (gr_toasts g) (gr_href g)
                [mkRegisterRequest (default "" access_token)
                   (trim (rf_name p)) (rf_rollNumber p)] Hresp) as (m & ->).
    cbn. split_and!; try done.
    + split; [done|]. intros (_ & c & d & [= <- <-] & [?|?]); congruence.
    + intros d [= -> _]. done.
Qed.

(** ** The header and the token *)

Lemma run_ops_token ops st : ls_token (run_ops ops st) = ls_token st.
Proof.
  revert st. induction ops as [|op ops IH]; intros st; [done|].
  cbn [run_ops foldl]. fold (run_ops ops (run_op st op)). rewrite IH.
  destruct op as [now rf|now|now remote roll|now days]; cbn [run_op].
  - apply addFace_other_items.
  - unfold getTodaysFaces. by destruct (negb _).
  - destruct (deleteAttendance_cases now remote roll st) as [->|Hdel];
      [done|].
    by destruct Hdel as (e & code & ds & faces & _ & _ & _ & _ & _ & _ & _
                         & ->).
  - apply cleanupOldData_other_items.
Qed.

Lemma interceptor_app error a :
  ic_app (interceptor error a) = a
  ∨ ic_app (interceptor error a) = updateAuthHeader None a.
Proof.
  unfold interceptor.
  destruct (err_config error) as [[|]|]; try by left.
  destruct (err_response error) as [[status data]|]; [|by left].
  destruct (status =? 401); [by right|].
  destruct (status =? 403); [by left|].
  destruct (status =? 404); [by left|].
  destruct (status =? 500); [by left|].
  destruct data; by left.
Qed.

Lemma global_post_app {D} host validateStatus (error_of : D → option JsVal)
    remote a :
  gr_app (global_post host validateStatus error_of remote a) = a
  ∨ gr_app (global_post host validateStatus error_of remote a)
    = updateAuthHeader None a.
Proof.
  unfold global_post. destruct remote as [|code data].
  - apply interceptor_app.
  - destruct (validateStatus code); [by left|]. apply interceptor_app.
Qed.

Lemma auth_catch_app caught p a itoasts href sent :
  as_app (auth_catch caught p a itoasts href sent) = a.
Proof.
  unfold auth_catch.
  destruct (caught_response caught) as [[status [b|]]|]; try done.
  - destruct (status =? 401); [by case_bool_decide|].
    destruct (status =? 404); [|done]. by repeat case_bool_decide.
  - destruct (status =? 401); [done|]. by destruct (status =? 404).
Qed.

Lemma register_catch_app caught p a itoasts href sent :
  rs_app (register_catch caught p a itoasts href sent) = a.
Proof.
  unfold register_catch.
  by destruct (caught_response caught) as [[status [b|]]|].
Qed.

Lemma authorization_matches_cleared a :
  authorization_matches (updateAuthHeader None a).
Proof. done. Qed.

Lemma app_step_authorization a op :
  authorization_matches a → authorization_matches (app_step a op).
Proof.
  intros Ha.
  destruct op as [u t| |t|t remote|ops|e|host remote page
                  |host tok remote page]; cbn [app_step].
  - done.
  - done.
  - unfold updateAuthHeader. destruct t as [t|]; [|done].
    by destruct (truthy_item (Some t)).
  - unfold startup_check.
    destruct (truthy_item t) eqn:Htr; [|done].
    destruct (axios_post remote); try done.
    unfold updateAuthHeader. rewrite Htr. by destruct t.
  - unfold authorization_matches, app_run_ops in *. cbn.
    by rewrite run_ops_token.
  - by destruct (interceptor_app e a) as [->| ->].
  - unfold AuthPage_handleSubmit.
    destruct (_ || _); [done|]. cbv zeta.
    pose proof (global_post_auth host remote a) as (Happ & _ & _).
    cbv zeta in Happ.
    set (g := global_post host _ _ remote a) in *.
    assert (authorization_matches (gr_app g)) as Hg by by rewrite Happ.
    destruct (gr_outcome g) as [[[status data]|]|caught];
      rewrite ?auth_catch_app; try done.
    destruct ((200 <=? status) && (status <? 300)).
    + destruct (isLogin page); [|done].
      destruct data; [done|by rewrite auth_catch_app].
    + destruct data; by rewrite auth_catch_app.
  - unfold RegisterFace_handleSubmit.
    destruct (validateInputs page); [by rewrite register_catch_app|].
    destruct (negb (truthy_item tok)); [done|].
    destruct (host_fetch host); [by rewrite register_catch_app|].
    cbv zeta.
    assert (authorization_matches
              (gr_app (global_post host is_2xx id remote a))) as Hg.
    { by destruct (global_post_app host is_2xx id remote a) as [Hg|Hg];
        rewrite Hg. }
    destruct (gr_outcome _); by rewrite ?register_catch_app.
Qed.

(** X28. The [Authorization] header that the global axios sends by default
    and the stored token stay in step: when the header is "Bearer " and the
    stored token, or both are absent, no run of the application's
    operations (logging in and out, [updateAuthHeader], the check at page
    load, the store's operations, the interceptor, the submits of AuthPage
    and RegisterFace) parts them; and [handleLogin], [handleLogout] and
    [updateAuthHeader] bring them in step from any state. *)
Theorem authorization_kept ops a :
  (authorization_matches a → authorization_matches (app_run ops a))
  ∧ (∀ userData token,
       authorization_matches (app_run ops (handleLogin userData token a)))
  ∧ authorization_matches (app_run ops (handleLogout a))
  ∧ (∀ token, authorization_matches (app_run ops (updateAuthHeader token a))).
Proof.
  assert (Hrun : ∀ a', authorization_matches a' →
                       authorization_matches (app_run ops a')).
  { induction ops as [|op ops IH]; intros a' Ha'; [done|].
    cbn [app_run foldl]. apply IH. by apply app_step_authorization. }
  split_and!.
  - apply Hrun.
  - intros u t. by apply Hrun.
  - by apply Hrun.
  - intros t. apply Hrun. unfold updateAuthHeader.
    destruct t as [t|]; [|done]. by destruct (truthy_item (Some t)).
Qed.

End manageFaceRecognitionList.

(** ** The theorems at sample inputs *)

Lemma addFace_invalid_input_unchanged_witness :
  addFace sample_toLocaleString 0
    (Some (mkFace (JStr "") (JStr "7") "" JUndefined JUndefined))
    unresolved_store
  = (None, unresolved_store).
Proof.
  apply addFace_invalid_input_unchanged.
  intros f [= <-]. left. reflexivity.
Defined.

Lemma addFace_frame_witness :
  get_attendance owner
    (addFace sample_toLocaleString 86400000 (Some carol) day0_store).2 !! 0
  = Some [bob_entry; alice_entry].
Proof.
  destruct (addFace_frame sample_toLocaleString 86400000 (Some carol)
              day0_store) as (H & _).
  rewrite (H owner 0); [reflexivity|].
  vm_compute. discriminate.
Defined.

Lemma addFace_no_duplicates_witness :
  all_partitions unique_entries
    (add_all sample_toLocaleString
       [(0, Some alice_1); (1000, Some alice_2)] fresh_store)
  ∧ (addFace sample_toLocaleString 1000 (Some alice_2)
       (addFace sample_toLocaleString 0 (Some alice_1) fresh_store).2).1
    = None
  ∧ length
      (getTodaysFaces sample_Date_parse 1000
         (addFace sample_toLocaleString 1000 (Some alice_2)
            (addFace sample_toLocaleString 0 (Some alice_1) fresh_store).2).2).1
    = 1%nat.
Proof.
  destruct (addFace_no_duplicates sample_toLocaleString sample_Date_parse)
    as (Hinv & _ & _ & Halice).
  split.
  - apply Hinv. intros e m d p Hm. vm_compute in Hm. discriminate.
  - apply (Halice fresh_store owner 0 1000); [reflexivity|discriminate|..];
      reflexivity.
Defined.

Lemma partitions_capped_at_50_witness :
  all_partitions at_most_50
    (run_ops sample_toLocaleString sample_Date_parse
       [OpAdd 0 (Some carol); OpList 0;
        OpDelete 0 (HttpResponse 200 (Some (JStr "success"))) (JStr "77");
        OpCleanup 0 7]
       fresh_store)
  ∧ partition_of owner (isoDate 0)
      (addFace sample_toLocaleString 0 (Some carol) full_store).2
    = drop 1 (partition_of owner (isoDate 0) full_store)
      ++ [newEntry sample_toLocaleString 0 carol].
Proof.
  destruct (partitions_capped_at_50 sample_toLocaleString sample_Date_parse)
    as (Hinv & _ & Hevict & _).
  split.
  - apply Hinv. intros e m d p Hm. vm_compute in Hm. discriminate.
  - apply Hevict; reflexivity.
Defined.



Lemma deleteAttendance_remote_first_witness :
  (deleteAttendance 0 NetFailure (JStr "1") day0_store).1
  = (false, day0_store)
  ∧ (deleteAttendance 0 (HttpResponse 500 (Some (JStr "error"))) (JStr "1")
       day0_store).1
    = (false, day0_store)
  ∧ (deleteAttendance 0 (HttpResponse 204 None) (JStr "1") day0_store).1
    = (false, day0_store)
  ∧ (deleteAttendance 0 (HttpResponse 201 (Some (JStr "error"))) (JStr "1")
       day0_store).1
    = (false, day0_store).
Proof.
  split_and!.
  - apply (deleteAttendance_remote_first sample_Date_parse 0 NetFailure
             (JStr "1") day0_store).
    exact I.
  - apply (deleteAttendance_remote_first sample_Date_parse 0
             (HttpResponse 500 (Some (JStr "error"))) (JStr "1") day0_store).
    reflexivity.
  - destruct (deleteAttendance_remote_first sample_Date_parse 0
                (HttpResponse 204 None) (JStr "1") day0_store) as (_ & _ & H).
    apply (H 204 None); [reflexivity|reflexivity|].
    left. reflexivity.
  - destruct (deleteAttendance_remote_first sample_Date_parse 0
                (HttpResponse 201 (Some (JStr "error"))) (JStr "1")
                day0_store) as (_ & _ & H).
    apply (H 201 (Some (JStr "error"))); [reflexivity|reflexivity|].
    right. split; discriminate.
Defined.

(** C3, as first stated, fails on the code.  The endpoint answers 200 with
    a body whose [status] is "error": the deletion is not confirmed, yet
    [deleteAttendance] returns [true] and Alice, whose roll number is "1",
    is gone from the storage and from today's list. *)
Lemma deleteAttendance_unconfirmed_200 :
  (deleteAttendance 0 (HttpResponse 200 (Some (JStr "error"))) (JStr "1")
     day0_store).1.1
  = true
  ∧ (deleteAttendance 0 (HttpResponse 200 (Some (JStr "error"))) (JStr "1")
       day0_store).1.2
    ≠ day0_store
  ∧ (getTodaysFaces sample_Date_parse 5000 day0_store).1
    = [alice_entry; bob_entry]
  ∧ (getTodaysFaces sample_Date_parse 5000
       (deleteAttendance 0 (HttpResponse 200 (Some (JStr "error"))) (JStr "1")
          day0_store).1.2).1
    = [bob_entry].
Proof.
  split_and!; try reflexivity.
  intros H. apply (f_equal (λ st, get_attendance owner st !! 0)) in H.
  vm_compute in H. discriminate H.
Qed.

Lemma cleanupOldData_purges_witness :
  get_attendance owner
    (cl_storage (cleanupOldData (8 * ms_per_day) 7 day0_store)) !! 0 = None
  ∧ cl_logged (cleanupOldData (8 * ms_per_day) 7 day0_store) = Some 1
  ∧ get_attendance owner
      (cl_storage (cleanupOldData (6 * ms_per_day) 7 day0_store)) !! 0
    = Some [bob_entry; alice_entry].
Proof.
  assert (Hne : owner ≠ "") by discriminate.
  assert (Hkey : ∀ d, is_Some (get_attendance owner day0_store !! d) → d = 0).
  { intros d. destruct (decide (d = 0)) as [->|Hd]; [done|].
    unfold get_attendance, day0_store. cbn [ls_attendance].
    rewrite lookup_singleton_eq. cbn [default from_option id].
    rewrite lookup_singleton_ne by done. by intros [? [=]]. }
  assert (H8 := cleanupOldData_purges (8 * ms_per_day) 7 day0_store owner
                  eq_refl Hne).
  assert (H6 := cleanupOldData_purges (6 * ms_per_day) 7 day0_store owner
                  eq_refl Hne).
  cbv zeta in H8, H6.
  specialize (H8 ltac:(intros d Hd; rewrite (Hkey d Hd); vm_compute;
                       intuition discriminate)).
  specialize (H6 ltac:(intros d Hd; rewrite (Hkey d Hd); vm_compute;
                       intuition discriminate)).
  destruct H8 as (_ & _ & Hlog & _ & Hgone).
  destruct H6 as (_ & _ & _ & _ & Hkept).
  destruct (Hgone eq_refl) as [Hgone8 _].
  destruct (Hkept eq_refl) as [_ Hkept6].
  split_and!.
  - exact Hgone8.
  - etransitivity; [exact Hlog|]. vm_compute. reflexivity.
  - etransitivity; [exact Hkept6|]. vm_compute. reflexivity.
Defined.

(** C6, as first stated, fails on the code.  With one partition dated 8
    days before today, [cleanupOldData] removes it and what it returns is
    [undefined], not the count 1.  And shortly after midnight a partition
    dated exactly 7 days before today, which does not precede today minus 7
    days as a date, is removed as well.  Last, far apart in time the code's
    subtraction rounds: a partition dated 100000000 days before 1970 lies
    more than 140000000 days before an instant 1 ms past the 40000th day
    after 1970, and is kept. *)
Lemma cleanupOldData_returns_no_count :
  size (get_attendance owner day0_store) = 1%nat
  ∧ size (get_attendance owner
            (cl_storage (cleanupOldData (8 * ms_per_day) 7 day0_store)))
    = 0%nat
  ∧ cl_return (cleanupOldData (8 * ms_per_day) 7 day0_store) = JUndefined
  ∧ cl_return (cleanupOldData (8 * ms_per_day) 7 day0_store) ≠ JNum 1%Qc
  ∧ isoDate (7 * ms_per_day + 1) - 7 = 0
  ∧ get_attendance owner day0_store !! 0 = Some [bob_entry; alice_entry]
  ∧ get_attendance owner
      (cl_storage (cleanupOldData (7 * ms_per_day + 1) 7 day0_store)) !! 0
    = None
  ∧ Date_of_key (-100000000) + 140000000 * ms_per_day
    < 40000000 * ms_per_day + 1
  ∧ get_attendance owner
      (cl_storage (cleanupOldData (40000000 * ms_per_day + 1) 140000000
                     earliest_store)) !! (-100000000)
    = Some [bob_entry].
Proof.
  split_and!; try reflexivity. discriminate.
Qed.

Lemma tryAcquire_denies_witness :
  tryAcquire true 1700000000000
    (mkCamera 0 true true [] fresh_store [] []) = None
  ∧ tryAcquire true 9999 (camera_at 0 fresh_store) = None
  ∧ tryAcquire false 9999
      (captureAndRecognize sample_toLocaleString sample_Date_parse
         (capture_env 0 (HttpResponse 200 (BodyArray [])))
         (camera_at (-10000) fresh_store)) = None
  ∧ is_Some
      (tryAcquire true 10000
         (captureAndRecognize sample_toLocaleString sample_Date_parse
            (capture_env 0 (HttpResponse 200 (BodyArray [])))
            (camera_at (-10000) fresh_store))).
Proof.
  destruct (tryAcquire_denies sample_toLocaleString sample_Date_parse)
    as (Hflag & Hearly & _ & _ & Hedge).
  destruct (Hedge (capture_env 0 (HttpResponse 200 (BodyArray [])))
              (camera_at (-10000) fresh_store) false eq_refl eq_refl)
    as [Hdenied Hpermitted].
  split_and!.
  - apply Hflag. reflexivity.
  - apply Hearly; [reflexivity|]. cbn. lia.
  - exact Hdenied.
  - eexists. exact Hpermitted.
Defined.

Lemma captureAndRecognize_releases_witness :
  isRecognizingRef
    (captureAndRecognize sample_toLocaleString sample_Date_parse
       (capture_env 20000 NetFailure) (camera_at 0 fresh_store)) = false
  ∧ lastRecognitionRef
      (captureAndRecognize sample_toLocaleString sample_Date_parse
         (capture_env 20000 NetFailure) (camera_at 0 fresh_store)) = 0.
Proof.
  destruct (captureAndRecognize_releases sample_toLocaleString
              sample_Date_parse (capture_env 20000 NetFailure)
              (camera_at 0 fresh_store)) as (Hflag & _ & Hlast).
  split.
  - apply Hflag. eexists. reflexivity.
  - apply Hlast. reflexivity.
Defined.

Lemma no_token_no_request_witness :
  length
    (cam_network
       (captureAndRecognize sample_toLocaleString sample_Date_parse
          (capture_env 20000 (HttpResponse 200 (BodyArray [])))
          (camera_at 0 logged_out_store))) = 0%nat
  ∧ cam_toasts
      (captureAndRecognize sample_toLocaleString sample_Date_parse
         (capture_env 20000 (HttpResponse 200 (BodyArray [])))
         (camera_at 0 logged_out_store))
    = [ToastDismiss;
       ToastError
         (JStr "No authentication token found. Please log in again.")].
Proof.
  destruct (no_token_no_request sample_toLocaleString sample_Date_parse
              (capture_env 20000 (HttpResponse 200 (BodyArray [])))
              (camera_at 0 logged_out_store)) as (_ & Hcount & Hsignal).
  { reflexivity. }
  split.
  - exact Hcount.
  - apply Hsignal; [eexists|..]; reflexivity.
Defined.

(** ** Further properties at sample inputs *)

Lemma addFace_then_listed_witness :
  newEntry sample_toLocaleString 0 carol
  ∈ (getTodaysFaces sample_Date_parse 1000
       (addFace sample_toLocaleString 0 (Some carol) unresolved_store).2).1.
Proof.
  apply (addFace_then_listed sample_toLocaleString sample_Date_parse 0 1000
           (Some carol) unresolved_store);
    reflexivity.
Defined.

Lemma addFace_twice_witness :
  addFace sample_toLocaleString 1000 (Some carol)
    (addFace sample_toLocaleString 0 (Some carol) fresh_store).2
  = (None, (addFace sample_toLocaleString 0 (Some carol) fresh_store).2).
Proof. apply addFace_twice. reflexivity. Defined.

Lemma addFace_owner_fallback_witness :
  ls_user_email (addFace sample_toLocaleString 0 (Some carol)
                   unresolved_store).2
  = Some owner
  ∧ addFace sample_toLocaleString 0 (Some carol) logged_out_store
    = (None, logged_out_store).
Proof.
  split.
  - destruct (addFace_owner_fallback sample_toLocaleString 0 carol
                unresolved_store eq_refl) as (_ & H).
    apply (H (mkUser (Some owner)) owner); [reflexivity..|discriminate| |];
      reflexivity.
  - destruct (addFace_owner_fallback sample_toLocaleString 0 carol
                logged_out_store eq_refl) as (H & _).
    apply H. intros u [=].
Defined.

Lemma deleteAttendance_then_listed_witness :
  bob_entry
  ∈ (getTodaysFaces sample_Date_parse 5000
       (deleteAttendance 0 (HttpResponse 200 (Some (JStr "success")))
          (JStr "1") day0_store).1.2).1
  ↔ bob_entry ∈ (getTodaysFaces sample_Date_parse 5000 day0_store).1
    ∧ roll_number bob_entry ≠ JStr "1".
Proof. apply deleteAttendance_then_listed; reflexivity. Defined.

Lemma deleteAttendance_requests_witness :
  deleteAttendance 0 (HttpResponse 200 (Some (JStr "success"))) (JStr "1")
    logged_out_store
  = (false, logged_out_store, [])
  ∧ (deleteAttendance 0 NetFailure (JStr "1") day0_store).2
    = [PostDeleteAttendance "jwt" (JStr "1")].
Proof.
  split.
  - apply deleteAttendance_requests. right. left. reflexivity.
  - apply (deleteAttendance_requests 0 NetFailure (JStr "1") day0_store);
      reflexivity.
Defined.

Lemma deleteAttendance_true_iff_witness :
  (deleteAttendance 0 (HttpResponse 200 (Some (JStr "error"))) (JStr "1")
     day0_store).1.1
  = true.
Proof.
  apply deleteAttendance_true_iff. split_and!; [reflexivity..|].
  exists 200, (JStr "error"). split_and!; [reflexivity..|]. right. reflexivity.
Defined.

Lemma deleteAttendance_frame_witness :
  get_attendance owner
    (deleteAttendance 86400000 (HttpResponse 200 (Some (JStr "success")))
       (JStr "1") day0_store).1.2 !! 0
  = Some [bob_entry; alice_entry].
Proof.
  destruct (deleteAttendance_frame 86400000
              (HttpResponse 200 (Some (JStr "success"))) (JStr "1")
              day0_store) as (H & _).
  rewrite (H owner 0); [reflexivity|].
  left. vm_compute. discriminate.
Defined.

Lemma deleteAttendance_then_addFace_witness :
  (addFace sample_toLocaleString 5000 (Some alice_entry)
     (deleteAttendance 0 (HttpResponse 200 (Some (JStr "success")))
        (roll_number alice_entry) day0_store).1.2).1
  = Some (newEntry sample_toLocaleString 5000 alice_entry).
Proof.
  apply (deleteAttendance_then_addFace sample_toLocaleString 0 5000
           (HttpResponse 200 (Some (JStr "success"))) day0_store owner
           alice_entry);
    try reflexivity.
  - split; apply (bool_decide_unpack _); vm_compute; exact I.
  - apply (bool_decide_unpack _). vm_compute. exact I.
Defined.

Lemma cleanupOldData_twice_witness :
  cl_logged (cleanupOldData 864000000 7
               (cl_storage (cleanupOldData 864000000 7 day0_store)))
  = Some 0
  ∧ cl_logged (cleanupOldData 864000000 7 day0_store) = Some 1.
Proof.
  split; [|reflexivity].
  apply cleanupOldData_twice. reflexivity.
Defined.

Lemma cleanupOldData_today_witness :
  (getTodaysFaces sample_Date_parse 5000
     (cl_storage (cleanupOldData 5000 1 day0_store))).1
  = (getTodaysFaces sample_Date_parse 5000 day0_store).1
  ∧ get_attendance owner (cl_storage (cleanupOldData 5000 0 day0_store))
      !! isoDate 5000
    = None.
Proof.
  split.
  - apply cleanupOldData_today. lia.
  - apply (cleanupOldData_today sample_Date_parse 5000 0 day0_store);
      [reflexivity|discriminate|lia|vm_compute; discriminate].
Defined.

Lemma run_ops_owner_witness :
  ls_user_email
    (run_ops sample_toLocaleString sample_Date_parse
       [OpAdd 0 (Some carol); OpList 0;
        OpDelete 0 (HttpResponse 200 (Some (JStr "success"))) (JStr "77");
        OpCleanup 0 7]
       day0_store)
  = Some owner.
Proof.
  apply (run_ops_owner sample_toLocaleString sample_Date_parse _ day0_store
           owner);
    [reflexivity|discriminate].
Defined.

Lemma captureAndRecognize_storage_witness :
  all_partitions unique_entries
    (cam_storage
       (captureAndRecognize sample_toLocaleString sample_Date_parse
          (capture_env 20000 one_nameless) (camera_at 0 fresh_store)))
  ∧ all_partitions at_most_50
      (cam_storage
         (captureAndRecognize sample_toLocaleString sample_Date_parse
            (capture_env 20000 one_nameless) (camera_at 0 fresh_store))).
Proof.
  destruct (captureAndRecognize_storage sample_toLocaleString
              sample_Date_parse (capture_env 20000 one_nameless)
              (camera_at 0 fresh_store)) as (_ & Hu & Hc).
  split; [apply Hu|apply Hc]; intros e m d p Hm; vm_compute in Hm;
    discriminate.
Defined.

Lemma captureAndRecognize_toasts_witness :
  cam_toasts
    (captureAndRecognize sample_toLocaleString sample_Date_parse
       (capture_env 20000 one_nameless) (camera_at 0 fresh_store))
  = [ToastSuccessRecognized (JStr "Unknown")].
Proof.
  apply (captureAndRecognize_toasts sample_toLocaleString sample_Date_parse
           (capture_env 20000 one_nameless) (camera_at 0 fresh_store)).
  reflexivity.
Defined.

Lemma captureAndRecognize_window_witness :
  captureAndRecognize sample_toLocaleString sample_Date_parse
    (capture_env 29999 one_nameless)
    (captureAndRecognize sample_toLocaleString sample_Date_parse
       (capture_env 20000 one_nameless) (camera_at 0 fresh_store))
  = captureAndRecognize sample_toLocaleString sample_Date_parse
      (capture_env 20000 one_nameless) (camera_at 0 fresh_store).
Proof.
  apply captureAndRecognize_window; [reflexivity|].
  vm_compute. reflexivity.
Defined.

Lemma captureAndRecognize_retry_witness :
  is_Some
    (tryAcquire true 20001
       (captureAndRecognize sample_toLocaleString sample_Date_parse
          (capture_env 20000 NetFailure) (camera_at 0 fresh_store))).
Proof.
  apply (captureAndRecognize_retry sample_toLocaleString sample_Date_parse
           (capture_env 20000 NetFailure) (capture_env 20001 NetFailure)
           (camera_at 0 fresh_store)).
  - eexists. reflexivity.
  - reflexivity.
  - vm_compute. discriminate.
  - eexists. reflexivity.
Defined.

Lemma recognized_defaults_witness :
  cam_storage
    (recognized sample_toLocaleString 0 (camera_at 0 fresh_store)
       (mkRecognitionData (JStr "Dan") JUndefined JUndefined JUndefined))
  = fresh_store
  ∧ cam_storage
      (recognized sample_toLocaleString 1000
         (recognized sample_toLocaleString 0 (camera_at 0 fresh_store)
            (mkRecognitionData JUndefined (JStr "5") JUndefined JUndefined))
         (mkRecognitionData JNull (JStr "6") JUndefined JUndefined))
    = cam_storage
        (recognized sample_toLocaleString 0 (camera_at 0 fresh_store)
           (mkRecognitionData JUndefined (JStr "5") JUndefined JUndefined)).
Proof.
  split.
  - apply recognized_defaults. reflexivity.
  - apply (recognized_defaults sample_toLocaleString 0
             (camera_at 0 fresh_store)
             (mkRecognitionData JUndefined (JStr "5") JUndefined JUndefined));
      [reflexivity..|].
    eexists. reflexivity.
Defined.

Lemma handleDeleteAttendance_view_witness :
  todaysFaces
    (dh_camera
       (handleDeleteAttendance sample_Date_parse 0 5000
          (HttpResponse 200 (Some (JStr "success"))) (JStr "1")
          (camera_at 0 day0_store)))
  = (getTodaysFaces sample_Date_parse 5000
       (cam_storage
          (dh_camera
             (handleDeleteAttendance sample_Date_parse 0 5000
                (HttpResponse 200 (Some (JStr "success"))) (JStr "1")
                (camera_at 0 day0_store))))).1
  ∧ cam_storage
      (dh_camera
         (handleDeleteAttendance sample_Date_parse 0 5000 NetFailure
            (JStr "1") (camera_at 0 day0_store)))
    = day0_store.
Proof.
  split.
  - apply handleDeleteAttendance_view. reflexivity.
  - apply (handleDeleteAttendance_view sample_Date_parse 0 5000 NetFailure
             (JStr "1") (camera_at 0 day0_store)).
    reflexivity.
Defined.

Lemma handleLogout_effects_witness :
  (addFace sample_toLocaleString 0 (Some carol)
     (app_storage (handleLogout (app_over day0_store)))).1
  = (addFace sample_toLocaleString 0 (Some carol) day0_store).1
  ∧ cam_network
      (captureAndRecognize sample_toLocaleString sample_Date_parse
         (capture_env 20000 one_nameless)
         (camera_at 0 (app_storage (handleLogout (app_over day0_store)))))
    = [].
Proof.
  destruct (handleLogout_effects sample_toLocaleString sample_Date_parse
              (app_over day0_store)) as (_ & Hadd & Hnet & _).
  split.
  - apply Hadd. reflexivity.
  - apply (Hnet (capture_env 20000 one_nameless)
             (camera_at 0 (app_storage (handleLogout (app_over day0_store))))).
    reflexivity.
Defined.

Lemma handleLogin_owner_witness :
  (resolve_user
     (app_storage (handleLogin teacher (Some "jwt")
                     (app_over logged_out_store)))).1
  = Some "teacher@school.edu"
  ∧ (resolve_user
       (app_storage (handleLogin (mkUserData (Some "Teacher") None)
                       (Some "jwt") (app_over logged_out_store)))).1
    = Some "undefined".
Proof.
  split.
  - apply (handleLogin_owner sample_toLocaleString teacher (Some "jwt")
             (app_over logged_out_store));
      [reflexivity|discriminate].
  - apply (handleLogin_owner sample_toLocaleString
             (mkUserData (Some "Teacher") None) (Some "jwt")
             (app_over logged_out_store)).
    reflexivity.
Defined.

Lemma accounts_kept_apart_witness :
  (getTodaysFaces sample_Date_parse 5000
     (app_storage
        (handleLogin head_teacher (Some "jwt2")
           (handleLogout
              (app_run_ops sample_toLocaleString sample_Date_parse
                 [OpAdd 0 (Some carol)]
                 (handleLogin teacher (Some "jwt")
                    (app_over logged_out_store))))))).1
  = (getTodaysFaces sample_Date_parse 5000
       (app_storage (handleLogin head_teacher (Some "jwt2")
                       (app_over logged_out_store)))).1.
Proof.
  apply (accounts_kept_apart sample_toLocaleString sample_Date_parse
           (app_over logged_out_store) teacher head_teacher (Some "jwt")
           (Some "jwt2") "teacher@school.edu" "head@school.edu"
           [OpAdd 0 (Some carol)] 5000);
    [reflexivity|reflexivity|discriminate..].
Defined.

Lemma interceptor_outcomes_witness :
  ls_token
    (app_storage
       (ic_app (interceptor (mkAxiosError (Some false) (Some (401, None)))
                  (app_over day0_store))))
  = None
  ∧ ic_app (interceptor (mkAxiosError (Some false) (Some (500, None)))
              (app_over day0_store))
    = app_over day0_store.
Proof.
  split.
  - apply interceptor_outcomes. reflexivity.
  - apply (interceptor_outcomes (mkAxiosError (Some false) (Some (500, None)))
             (app_over day0_store)).
    discriminate.
Defined.

Lemma validateInputs_accepts_witness :
  trim (rf_rollNumber ada_form) = rf_rollNumber ada_form
  ∧ validateInputs ada_form = None.
Proof.
  split.
  - apply validateInputs_accepts. reflexivity.
  - apply validateInputs_accepts. split_and!; reflexivity.
Defined.

Lemma AuthPage_handleSubmit_outcomes_witness :
  as_sent (AuthPage_handleSubmit sample_host (HttpResponse 200 login_answer)
             (mkAuthPage true (mkFormData "" "" "secret") false)
             (app_over logged_out_store))
  = []
  ∧ as_navigated (AuthPage_handleSubmit sample_host
                    (HttpResponse 200 login_answer) login_page
                    (app_over logged_out_store))
    = true
  ∧ isLogin (as_page (AuthPage_handleSubmit sample_host
                        (HttpResponse 401 refusal) login_page
                        (app_over logged_out_store)))
    = true
  ∧ as_interceptor_toasts (AuthPage_handleSubmit sample_host
                             (HttpResponse 401 refusal) login_page
                             (app_over logged_out_store))
    = []
  ∧ (∃ message,
       truthy message = true
       ∧ as_toasts (AuthPage_handleSubmit sample_host NetFailure login_page
                      (app_over logged_out_store))
         = [AuthToastError message])
  ∧ (as_interceptor_toasts (AuthPage_handleSubmit sample_host NetFailure
                              login_page (app_over logged_out_store))
     = [ToastDismiss]
     ∨ ∃ message,
         truthy message = true
         ∧ as_interceptor_toasts (AuthPage_handleSubmit sample_host NetFailure
                                    login_page (app_over logged_out_store))
           = [ToastDismiss; ToastError message]).
Proof.
  split_and!.
  - apply AuthPage_handleSubmit_outcomes. left. reflexivity.
  - apply (AuthPage_handleSubmit_outcomes sample_host
             (HttpResponse 200 login_answer) login_page
             (app_over logged_out_store)).
    vm_compute. discriminate.
  - destruct (AuthPage_handleSubmit_outcomes sample_host
                (HttpResponse 401 refusal) login_page
                (app_over logged_out_store)) as (_ & _ & _ & H & _).
    destruct (isLogin (as_page _)) eqn:E; [reflexivity|].
    destruct H as (_ & [=] & _). discriminate.
  - destruct (AuthPage_handleSubmit_outcomes sample_host
                (HttpResponse 401 refusal) login_page
                (app_over logged_out_store))
      as (_ & _ & _ & _ & _ & _ & H & _).
    apply H. right. exists 401, refusal. split; [reflexivity|lia].
  - destruct (AuthPage_handleSubmit_outcomes sample_host NetFailure
                login_page (app_over logged_out_store))
      as (_ & _ & _ & _ & _ & _ & _ & H).
    apply H. vm_compute. discriminate.
  - destruct (AuthPage_handleSubmit_outcomes sample_host NetFailure
                login_page (app_over logged_out_store))
      as (_ & _ & _ & _ & _ & _ & _ & H).
    apply H. vm_compute. discriminate.
Defined.

Lemma RegisterFace_handleSubmit_outcomes_witness :
  rs_toasts (RegisterFace_handleSubmit sample_host (Some "jwt")
               (HttpResponse 401 None) ada_form (app_over day0_store))
  = [RegisterToastSuccess]
  ∧ rs_href (RegisterFace_handleSubmit sample_host (Some "jwt")
               (HttpResponse 401 None) ada_form (app_over day0_store))
    = Some "/login"
  ∧ rs_sent (RegisterFace_handleSubmit sample_host None
               (HttpResponse 200 None) ada_form (app_over day0_store))
    = [].
Proof.
  pose proof (RegisterFace_handleSubmit_outcomes sample_host (Some "jwt")
                (HttpResponse 401 None) ada_form (app_over day0_store))
    as (_ & _ & Hsent & _ & Htoast & _ & _ & Hhref).
  assert (rs_sent (RegisterFace_handleSubmit sample_host (Some "jwt")
                     (HttpResponse 401 None) ada_form (app_over day0_store))
          ≠ []) as Hne.
  { apply Hsent. split_and!; reflexivity. }
  split_and!.
  - apply Htoast. split; [exact Hne|].
    exists 401, None. split; [reflexivity|]. right. reflexivity.
  - apply (Hhref None); [reflexivity|exact Hne].
  - pose proof (RegisterFace_handleSubmit_outcomes sample_host None
                  (HttpResponse 200 None) ada_form (app_over day0_store))
      as (_ & _ & Hsent' & _).
    destruct (rs_sent (RegisterFace_handleSubmit sample_host None _ _ _))
      eqn:E; [reflexivity|].
    destruct Hsent' as [Hsent' _].
    destruct Hsent' as (_ & [=] & _). discriminate.
Defined.

Lemma authorization_kept_witness :
  authorization_matches
    (app_run sample_toLocaleString sample_Date_parse
       [OpHandleLogin teacher (Some "jwt");
        OpStore [OpAdd 0 (Some carol)];
        OpStartupCheck (Some "old") (HttpResponse 200 ());
        OpIntercept (mkAxiosError (Some false) (Some (401, None)));
        OpRegisterSubmit sample_host (Some "jwt") (HttpResponse 401 None)
                         ada_form;
        OpAuthSubmit sample_host (HttpResponse 200 login_answer) login_page;
        OpHandleLogout]
       (app_over logged_out_store)).
Proof.
  apply authorization_kept. vm_compute. reflexivity.
Defined.

Lemma handleRecognitionError_one_toast_witness :
  ∃ message,
    truthy message = false
    ∧ handleRecognitionError (JStr "constructor") (JStr "boom")
      = [ToastDismiss; ToastError message].
Proof.
  destruct (handleRecognitionError_one_toast (JStr "constructor")
              (JStr "boom")) as (message & Hshown & Hempty & _).
  exists message. split; [|exact Hshown].
  apply Hempty. exists "constructor". split; [reflexivity|].
  apply list_elem_of_here.
Defined.
